(** * Azure cloud provider: retry wrappers and scale-set node lookup

    A shallow embedding of two files of the Azure cloud provider,

    - [pkg/cloudprovider/providers/azure/azure_backoff.go]
      (modules [AzureBackoff], [AzureBackoffWrappers] and
      [AzureBackoffClients]), and
    - [staging/src/k8s.io/legacy-cloud-providers/azure/azure_vmss.go]
      (modules [AzureVmss], [AzureVmssSets] and [AzureVmssGetScaleSet]),

    together with the parts of the Go runtime and of the libraries they
    call that the properties below depend on (modules [Go] and [Wait]).

    Conventions of the embedding:
    - a Go [string] is a [string] of bytes, [len] is [String.length];
    - a Go [int] that is only compared is a [Z];
    - a pointer that the source tests against [nil] or dereferences is an
      [option]; dereferencing [None] panics;
    - a Go [error] is an [option error], [None] being [nil];
    - a slice that is only read or appended to is a [list], a pointer to
      a slice an [option] of a list; where two slices share their array
      and the code writes to it, the array is explicit;
    - a method that talks to Azure or to a cache takes the state of the
      world and returns the new one;
    - logging and event recording are left out. *)

From Stdlib Require Import ZArith Lia String Ascii DecimalString Floats.
From stdpp Require Import base option list strings gmap.

Local Open Scope Z_scope.

(** ** Go runtime and standard library *)

Module Go.

(** Error values.  The sentinels are package-level variables compared
    by identity in the source; the other errors carry their message, or
    the format and the arguments given to [fmt.Errorf]. *)
Inductive error : Type :=
| ErrWaitTimeout          (* k8s.io/apimachinery/pkg/util/wait *)
| ErrorNotVmssInstance    (* azure_vmss.go, line 46 *)
| InstanceNotFound        (* k8s.io/cloud-provider *)
| ErrorString (msg : string)
| Errorf (format : string) (args : list string).   (* fmt.Errorf *)

#[global] Instance error_eq_dec : EqDecision error.
Proof. solve_decision. Defined.

(** [err != nil] *)
Definition notNil {A} (p : option A) : bool :=
  match p with Some _ => true | None => false end.

(** The result of running a function body: it returns, or a nil
    dereference or failed type assertion panics. *)
Inductive outcome (A : Type) : Type :=
| Returns (a : A)
| Panics.
Arguments Returns {A} a.
Arguments Panics {A}.

(** State passing: a computation over a world [W]. *)
Definition St (W A : Type) : Type := W -> A * W.

(** *** Strings

    A Go string is a sequence of bytes; [len] counts bytes and [s[i:]]
    cuts at a byte offset. *)

Definition len (s : string) : Z := Z.of_nat (String.length s).

(** [s[i:]] for [0 <= i <= len(s)]. *)
Fixpoint sliceFrom (i : nat) (s : string) : string :=
  match i, s with
  | O, _ => s
  | S i', String _ s' => sliceFrom i' s'
  | S _, EmptyString => EmptyString
  end.

(** [strings.HasPrefix(s, prefix)] *)
Definition HasPrefix (s prefix : string) : bool := String.prefix prefix s.

(** [strings.TrimPrefix(s, prefix)] *)
Definition TrimPrefix (s prefix : string) : string :=
  if HasPrefix s prefix then sliceFrom (String.length prefix) s else s.

(** [to.String(s *string)] of go-autorest: the empty string for [nil]. *)
Definition to_String (s : option string) : string := default EmptyString s.

(** [strings.EqualFold] on ASCII: letters are compared without case,
    every other byte as it is.  (On strings with bytes outside ASCII the
    function of the Go library also folds Unicode letters.) *)
Definition foldByte (c : ascii) : ascii :=
  let n := N_of_ascii c in
  if (65 <=? n)%N && (n <=? 90)%N then ascii_of_N (n + 32) else c.

Fixpoint foldString (s : string) : string :=
  match s with
  | EmptyString => EmptyString
  | String c s' => String (foldByte c) (foldString s')
  end.

Definition EqualFoldASCII (s t : string) : bool :=
  bool_decide (foldString s = foldString t).

(** *** [strconv.ParseUint]

    The loop of [strconv.ParseUint] for a base between 2 and 36 and a bit
    size of 64, on [uint64] values written as integers with their
    wrap-around.  (Base 0, which reads a prefix and allows underscores,
    is not used by the sources and is refused like any other invalid
    base.) *)

Definition maxUint64 : Z := 2 ^ 64 - 1.

Definition syntaxError : error := ErrorString "invalid syntax".
Definition rangeError : error := ErrorString "value out of range".
Definition baseError : error := ErrorString "invalid base".

(** [lower(c)]: [c | ('x' - 'X')] *)
Definition lower (c : ascii) : N := N.lor (N_of_ascii c) 32.

(** The value of one digit: the [switch] in the loop of [ParseUint]. *)
Definition digitOf (c : ascii) : option Z :=
  let n := N_of_ascii c in
  if (48 <=? n)%N && (n <=? 57)%N then Some (Z.of_N n - 48)
  else if (97 <=? lower c)%N && (lower c <=? 122)%N
       then Some (Z.of_N (lower c) - 97 + 10)
       else None.

Fixpoint parseUintLoop (base cutoff maxVal : Z) (s : string) (n : Z)
  : Z * option error :=
  match s with
  | EmptyString => (n, None)
  | String c s' =>
      match digitOf c with
      | None => (0, Some syntaxError)
      | Some d =>
          if d >=? base then (0, Some syntaxError)
          else if n >=? cutoff then (maxVal, Some rangeError)
          else
            let n := (n * base) mod 2 ^ 64 in
            let n1 := (n + d) mod 2 ^ 64 in
            if (n1 <? n) || (n1 >? maxVal) then (maxVal, Some rangeError)
            else parseUintLoop base cutoff maxVal s' n1
      end
  end.

Definition ParseUint (s : string) (base : Z) : Z * option error :=
  if len s =? 0 then (0, Some syntaxError)
  else if (2 <=? base) && (base <=? 36) then
    let cutoff := maxUint64 / base + 1 in
    let maxVal := maxUint64 in
    parseUintLoop base cutoff maxVal s 0
  else (0, Some baseError).

(** [fmt.Sprintf("%d", n)] for an unsigned [n]. *)
Definition Sprintf_d (n : Z) : string :=
  NilEmpty.string_of_uint (N.to_uint (Z.to_N n)).

(** The value of a string of base-36 digits ([0-9], [a-z], [A-Z]) read as
    a number, the most significant digit first; [None] when a byte is
    not such a digit. *)
Fixpoint base36From (s : string) (acc : Z) : option Z :=
  match s with
  | EmptyString => Some acc
  | String c s' =>
      match digitOf c with
      | Some d => base36From s' (acc * 36 + d)
      | None => None
      end
  end.

Definition base36 (s : string) : option Z :=
  match s with
  | EmptyString => None
  | _ => base36From s 0
  end.

End Go.

Export Go.

(** ** k8s.io/apimachinery/pkg/util/wait *)

Module Wait.

(** [wait.Backoff].  The zero value of every field is [0]. *)
Record Backoff : Type := mkBackoff {
  Duration : Z;
  Factor : float;
  Jitter : float;
  Steps : Z
}.

(** [wait.ConditionFunc], over the state [S] its closure captures. *)
Definition ConditionFunc (S : Type) : Type := St S (bool * option error).

(** Modelled from the spec: [wait.ExponentialBackoff] is not among the
    sources; it is the "generic exponential backoff loop" of the
    specification.  It calls [condition] up to [Steps] times; a call
    that returns an error or [true] ends the loop with that error; when
    the steps are used up it returns [ErrWaitTimeout].  The sleep
    between two attempts ([Duration], [Factor], [Jitter]) is not
    represented. *)
Fixpoint backoffLoop {S} (steps : nat) (condition : ConditionFunc S)
  : St S (option error) :=
  fun s =>
    match steps with
    | O => (Some ErrWaitTimeout, s)
    | Datatypes.S n =>
        let '((ok, err), s') := condition s in
        if notNil err || ok then (err, s')
        else backoffLoop n condition s'
    end.

Definition ExponentialBackoff {S} (backoff : Backoff)
  (condition : ConditionFunc S) : St S (option error) :=
  backoffLoop (Z.to_nat (Steps backoff)) condition.

End Wait.

(** ** azure_backoff.go *)

Module AzureBackoff.
Import Wait.

(** [net/http.Response], the field the source reads. *)
Record http_Response : Type := { StatusCode : Z }.

(** [autorest.Response] embeds a [*http.Response]: the generated clients
    build it as [autorest.Response{Response: resp}]. *)
Record autorest_Response : Type := { Response : option http_Response }.

(** The fields of [Cloud] that the retry wrappers read. *)
Record Cloud : Type := {
  CloudProviderBackoff : bool;
  resourceRequestBackoff : Backoff;
  ResourceGroup : string
}.

(** [func (az *Cloud) requestBackoff() (resourceRequestBackoff wait.Backoff)] *)
Definition requestBackoff (az : Cloud) : Backoff :=
  if CloudProviderBackoff az then resourceRequestBackoff az
  else {| Duration := 0; Factor := 0%float; Jitter := 0%float; Steps := 1 |}.

(** [func isSuccessHTTPResponse(resp autorest.Response) bool].
    [resp.StatusCode] goes through the embedded pointer. *)
Definition isSuccessHTTPResponse (resp : autorest_Response) : outcome bool :=
  match Response resp with
  | None => Panics
  | Some r =>
      Returns (if (199 <? StatusCode r) && (StatusCode r <? 300)
               then true else false)
  end.

(** [func shouldRetryAPIRequest(resp autorest.Response, err error) bool] *)
Definition shouldRetryAPIRequest (resp : autorest_Response)
  (err : option error) : outcome bool :=
  if notNil err then Returns true
  else
    match Response resp with
    | None => Panics
    | Some r =>
        Returns (if (399 <? StatusCode r) && (StatusCode r <? 600)
                 then true else false)
    end.

(** [func processRetryResponse(resp autorest.Response, err error) (bool, error)] *)
Definition processRetryResponse (resp : autorest_Response)
  (err : option error) : outcome (bool * option error) :=
  match isSuccessHTTPResponse resp with
  | Panics => Panics
  | Returns true => Returns (true, None)
  | Returns false =>
      match shouldRetryAPIRequest resp err with
      | Panics => Panics
      | Returns true => Returns (false, None)
      | Returns false => Returns (true, err)
      end
  end.

(** The behaviour of [processRetryResponse] in the words of its
    description: three cases on the status code and the error. *)
Definition processRetryResponse_cases (code : Z) (err : option error)
  : bool * option error :=
  if decide (200 <= code <= 299) then (true, None)
  else if decide (err <> None \/ 400 <= code <= 599) then (false, None)
  else (true, err).

(** *** Wrappers around SDK calls

    The SDK clients and [az.getVirtualMachine] (azure_wrap.go) are not
    part of the sources: they are operations on the world [W].  The
    rate limiter ([az.operationPollRateLimiter.Accept()]) only delays
    and is left out. *)

Section Wrappers.
Context {W : Type}.

(** [compute.VirtualMachine] and its zero value. *)
Variable VirtualMachine : Type.
Variable zeroVirtualMachine : VirtualMachine.

(** [func (az *Cloud) getVirtualMachine(nodeName types.NodeName)
      (vm compute.VirtualMachine, err error)] *)
Variable getVirtualMachine : Cloud -> string -> St W (VirtualMachine * option error).

(** The closure of [GetVirtualMachineWithRetry]; it assigns the captured
    [machine] and [retryErr]. *)
Definition getVirtualMachineCondition (az : Cloud) (name : string)
  : ConditionFunc (VirtualMachine * option error * W) :=
  fun '(_, _, w) =>
    let '((machine, retryErr), w') := getVirtualMachine az name w in
    if notNil retryErr then ((false, None), (machine, retryErr, w'))
    else ((true, None), (machine, retryErr, w')).

(** [func (az *Cloud) GetVirtualMachineWithRetry(name types.NodeName)
      (compute.VirtualMachine, error)] *)
Definition GetVirtualMachineWithRetry (az : Cloud) (name : string)
  : St W (VirtualMachine * option error) :=
  fun w =>
    let machine := zeroVirtualMachine in
    let retryErr : option error := None in
    let '(err, (machine, retryErr, w')) :=
      ExponentialBackoff (requestBackoff az)
        (getVirtualMachineCondition az name) (machine, retryErr, w) in
    let err := if decide (err = Some ErrWaitTimeout) then retryErr else err in
    ((machine, err), w').

(** The world after the first [n] calls of [az.getVirtualMachine] in a
    row, and the result of the call that follows them. *)
Fixpoint worldAfter (az : Cloud) (name : string) (n : nat) (w : W) : W :=
  match n with
  | O => w
  | S k => worldAfter az name k (getVirtualMachine az name w).2
  end.

Definition attempt (az : Cloud) (name : string) (i : nat) (w : W)
  : VirtualMachine * option error :=
  (getVirtualMachine az name (worldAfter az name i w)).1.

(** [network.LoadBalancer] *)
Variable LoadBalancer : Type.

(** [network.LoadBalancerListResult]: one page of load balancers. *)
Record LoadBalancerListResult : Type := {
  Value : option (list LoadBalancer);
  NextLink : option string
}.

(** [network.LoadBalancerListResultPage], its zero value, and its methods
    [Response] and [Next]; [Next] has a pointer receiver and returns the
    page as it leaves it. *)
Variable LoadBalancerListResultPage : Type.
Variable zeroPage : LoadBalancerListResultPage.
Variable PageResponse : LoadBalancerListResultPage -> LoadBalancerListResult.
Variable PageNext : LoadBalancerListResultPage -> St W (LoadBalancerListResultPage * option error).

(** [az.LoadBalancerClient.List(ctx, resourceGroup)] *)
Variable LoadBalancerClient_List : string -> St W (LoadBalancerListResultPage * option error).

(** The state the closures of [ListLBWithRetry] capture: [result],
    [resultPage], and the world. *)
Definition listState : Type := LoadBalancerListResult * LoadBalancerListResultPage * W.

(** The first closure of [ListLBWithRetry] (lines 189-204). *)
Definition listCondition (az : Cloud) : ConditionFunc listState :=
  fun '(_, _, w) =>
    let '((resultPage, retryErr), w') := LoadBalancerClient_List (ResourceGroup az) w in
    let result := PageResponse resultPage in
    if notNil retryErr then ((false, retryErr), (result, resultPage, w'))
    else ((true, None), (result, resultPage, w')).

(** The second closure of [ListLBWithRetry] (lines 217-232). *)
Definition listNextCondition : ConditionFunc listState :=
  fun '(_, resultPage, w) =>
    let '((resultPage, retryErr), w') := PageNext resultPage w in
    let result := PageResponse resultPage in
    if notNil retryErr then ((false, retryErr), (result, resultPage, w'))
    else ((true, None), (result, resultPage, w')).

(** [result.Value != nil && len( *result.Value) > 0] *)
Definition hasValues (result : LoadBalancerListResult) : bool :=
  match Value result with
  | Some (_ :: _) => true
  | _ => false
  end.

(** [*result.Value], read only where [hasValues] holds. *)
Definition values (result : LoadBalancerListResult) : list LoadBalancer :=
  default [] (Value result).

(** The loop [for appendResults { ... }] of [ListLBWithRetry].  Each turn
    of the loop uses one unit of [fuel]; [None] means that the fuel ran
    out before the loop ended. *)
Fixpoint listLoop (fuel : nat) (az : Cloud) (appendResults : bool)
  (allLBs : list LoadBalancer) (s : listState)
  : option (list LoadBalancer * option error * W) :=
  let '(result, resultPage, w) := s in
  if appendResults then
    match fuel with
    | O => None
    | S fuel' =>
        let allLBs := allLBs ++ values result in
        match NextLink result with
        | Some _ =>
            let '(err, s') :=
              ExponentialBackoff (requestBackoff az) listNextCondition s in
            match err with
            | Some e => Some (allLBs, Some e, s'.2)
            | None => listLoop fuel' az (hasValues s'.1.1) allLBs s'
            end
        | None => Some (allLBs, None, w)
        end
    end
  else Some (allLBs, None, w).

(** [func (az *Cloud) ListLBWithRetry() ([]network.LoadBalancer, error)].
    A [nil] slice is the empty list. *)
Definition ListLBWithRetry (fuel : nat) (az : Cloud) (w : W)
  : option (list LoadBalancer * option error * W) :=
  let allLBs : list LoadBalancer := [] in
  let result := {| Value := None; NextLink := None |} in
  let resultPage := zeroPage in
  let '(err, s) :=
    ExponentialBackoff (requestBackoff az) (listCondition az) (result, resultPage, w) in
  match err with
  | Some e => Some ([], Some e, s.2)
  | None => listLoop fuel az (hasValues s.1.1) allLBs s
  end.

(** Fetching a page, as the service sees it: one call of the SDK when the
    backoff has a step to spend, and the timeout of the backoff without
    any call otherwise. *)
Definition firstPage (az : Cloud) (w : W) : option error * listState :=
  if decide (1 <= Steps (requestBackoff az)) then
    let '((page, err), w') := LoadBalancerClient_List (ResourceGroup az) w in
    (err, (PageResponse page, page, w'))
  else (Some ErrWaitTimeout, ({| Value := None; NextLink := None |}, zeroPage, w)).

Definition nextPage (az : Cloud) (s : listState) : option error * listState :=
  if decide (1 <= Steps (requestBackoff az)) then
    let '((page, err), w') := PageNext s.1.2 s.2 in
    (err, (PageResponse page, page, w'))
  else (Some ErrWaitTimeout, s).

(** The pages reached from the page in [s] by following [NextLink]:
    [pagesFrom az s vs err w'] holds when they carry the values [vs],
    page by page, and the walk ends in the world [w'] with [err]; it
    ends at a page without values, at a page without [NextLink], or at a
    page whose successor cannot be fetched. *)
Inductive pagesFrom (az : Cloud) : listState -> list (list LoadBalancer) ->
  option error -> W -> Prop :=
| pagesFrom_empty s :
    hasValues s.1.1 = false ->
    pagesFrom az s [] None s.2
| pagesFrom_last s :
    hasValues s.1.1 = true ->
    NextLink s.1.1 = None ->
    pagesFrom az s [values s.1.1] None s.2
| pagesFrom_fail s link e s' :
    hasValues s.1.1 = true ->
    NextLink s.1.1 = Some link ->
    nextPage az s = (Some e, s') ->
    pagesFrom az s [values s.1.1] (Some e) s'.2
| pagesFrom_next s link s' vs err w' :
    hasValues s.1.1 = true ->
    NextLink s.1.1 = Some link ->
    nextPage az s = (None, s') ->
    pagesFrom az s' vs err w' ->
    pagesFrom az s (values s.1.1 :: vs) err w'.

End Wrappers.

(** *** Sample clouds *)

(** Backoff enabled, two steps. *)
Definition cloudWithBackoff : Cloud :=
  {| CloudProviderBackoff := true;
     resourceRequestBackoff :=
       {| Duration := 1; Factor := 2%float; Jitter := 0%float; Steps := 2 |};
     ResourceGroup := "rg" |}.

(** Backoff disabled. *)
Definition cloudWithoutBackoff : Cloud :=
  {| CloudProviderBackoff := false;
     resourceRequestBackoff :=
       {| Duration := 0; Factor := 0%float; Jitter := 0%float; Steps := 0 |};
     ResourceGroup := "rg" |}.

(** A [getVirtualMachine] over a world that counts the calls made so far:
    the first two calls are throttled, the later ones succeed. *)
Definition throttledTwice (az : Cloud) (name : string)
  : St nat (nat * option error) :=
  fun w => ((w, if (w <? 2)%nat then Some (ErrorString "throttled") else None), S w).

(** A scripted load balancer service: the world is the list of answers
    still to come, a page is the result it carries. *)
Definition scriptedPage : Type := LoadBalancerListResult string.

Definition scriptedWorld : Type := list (scriptedPage + error).

Definition scriptedList (resourceGroup : string)
  : St scriptedWorld (scriptedPage * option error) :=
  fun w =>
    match w with
    | inl page :: w' => ((page, None), w')
    | inr e :: w' => (({| Value := None; NextLink := None |}, Some e), w')
    | [] => (({| Value := None; NextLink := None |}, Some (ErrorString "EOF")), [])
    end.

Definition scriptedNext (page : scriptedPage)
  : St scriptedWorld (scriptedPage * option error) :=
  fun w =>
    match w with
    | inl next :: w' => ((next, None), w')
    | inr e :: w' => ((page, Some e), w')
    | [] => ((page, Some (ErrorString "EOF")), [])
    end.

Definition twoPages : scriptedWorld :=
  [ inl {| Value := Some ["lb-a"; "lb-b"]; NextLink := Some "page-2" |};
    inl {| Value := Some ["lb-c"]; NextLink := None |} ].

End AzureBackoff.

(** ** azure_backoff.go: the other wrappers *)

Module AzureBackoffWrappers.
Import Wait AzureBackoff.

(** [wait.ExponentialBackoff] around a condition that may panic: a panic
    unwinds through the loop and through the wrapper that called it. *)
Definition guarded {S} (condition : S -> outcome (bool * option error) * S)
  : ConditionFunc (bool * S) :=
  fun '(_, s) =>
    match condition s with
    | (Returns r, s') => (r, (false, s'))
    | (Panics, s') => ((true, None), (true, s'))
    end.

Definition ExponentialBackoffOrPanic {S} (backoff : Backoff)
  (condition : S -> outcome (bool * option error) * S)
  : S -> outcome (option error) * S :=
  fun s =>
    let '(err, (panicked, s')) :=
      ExponentialBackoff backoff (guarded condition) (false, s) in
    (if (panicked : bool) then Panics else Returns err, s').

(** What a backoff of one step returns for one answer of the SDK, by
    the cases of [processRetryResponse]. *)
Definition singleAttempt (resp : autorest_Response) (err : option error)
  : outcome (option error) :=
  match Response resp with
  | None => Panics
  | Some r =>
      Returns (if decide (200 <= StatusCode r <= 299) then None
               else if decide (err <> None \/ 400 <= StatusCode r <= 599)
                    then Some ErrWaitTimeout
                    else None)
  end.

(** [network.SecurityGroup], the field the wrapper reads. *)
Record SecurityGroup : Type := { sg_Name : option string }.

Section Wrappers.
Context {W : Type}.

(** The world after the first [n] calls of [call] in a row, and the
    result of the call that follows them. *)
Fixpoint worldAfterCalls {R} (call : St W R) (n : nat) (w : W) : W :=
  match n with
  | O => w
  | S k => worldAfterCalls call k (call w).2
  end.

Definition resultOfCall {R} (call : St W R) (i : nat) (w : W) : R :=
  (call (worldAfterCalls call i w)).1.

(** [compute.VirtualMachineScaleSetVM] and its zero value. *)
Variable VirtualMachineScaleSetVM : Type.
Variable zeroVirtualMachineScaleSetVM : VirtualMachineScaleSetVM.

(** [func (az *Cloud) getVmssVirtualMachine(nodeName types.NodeName)
      (vm compute.VirtualMachineScaleSetVM, exists bool, err error)] *)
Variable getVmssVirtualMachine :
  Cloud -> string -> St W (VirtualMachineScaleSetVM * bool * option error).

(** The closure of [GetScaleSetsVMWithRetry]; it assigns the captured
    [machine] and [exists]. *)
Definition getScaleSetsVMCondition (az : Cloud) (name : string)
  : ConditionFunc (VirtualMachineScaleSetVM * bool * W) :=
  fun '(_, _, w) =>
    let '((machine, exists_, retryErr), w') := getVmssVirtualMachine az name w in
    if notNil retryErr then ((false, None), (machine, exists_, w'))
    else ((true, None), (machine, exists_, w')).

(** [func (az *Cloud) GetScaleSetsVMWithRetry(name types.NodeName)
      (compute.VirtualMachineScaleSetVM, bool, error)].  The backoff is
    [az.resourceRequestBackoff], read without [requestBackoff]. *)
Definition GetScaleSetsVMWithRetry (az : Cloud) (name : string)
  : St W (VirtualMachineScaleSetVM * bool * option error) :=
  fun w =>
    let machine := zeroVirtualMachineScaleSetVM in
    let exists_ := false in
    let '(err, (machine, exists_, w')) :=
      ExponentialBackoff (resourceRequestBackoff az)
        (getScaleSetsVMCondition az name) (machine, exists_, w) in
    ((machine, exists_, err), w').

(** [func (az *Cloud) getIPForMachine(nodeName types.NodeName) (string, error)] *)
Variable getIPForMachine : Cloud -> string -> St W (string * option error).

(** The closure of [GetIPForMachineWithRetry]; it assigns the captured
    [ip]. *)
Definition getIPForMachineCondition (az : Cloud) (name : string)
  : ConditionFunc (string * W) :=
  fun '(_, w) =>
    let '((ip, retryErr), w') := getIPForMachine az name w in
    if notNil retryErr then ((false, None), (ip, w'))
    else ((true, None), (ip, w')).

(** [func (az *Cloud) GetIPForMachineWithRetry(name types.NodeName) (string, error)] *)
Definition GetIPForMachineWithRetry (az : Cloud) (name : string)
  : St W (string * option error) :=
  fun w =>
    let ip := "" in
    let '(err, (ip, w')) :=
      ExponentialBackoff (requestBackoff az)
        (getIPForMachineCondition az name) (ip, w) in
    ((ip, err), w').

(** [az.SecurityGroupsClient.CreateOrUpdate(ctx, resourceGroup, name, sg)]
    followed by [future.Result(az.SecurityGroupsClient)]: the response
    embedded in the security group that comes back, and the error of
    [Result] (the error of [CreateOrUpdate] itself is dropped by the
    source). *)
Variable SecurityGroupsClient_CreateOrUpdate :
  string -> string -> SecurityGroup -> St W (autorest_Response * option error).

(** [func (az *Cloud) CreateOrUpdateSGWithRetry(sg network.SecurityGroup) error].
    The closure dereferences [sg.Name] before it calls the client. *)
Definition CreateOrUpdateSGWithRetry (az : Cloud) (sg : SecurityGroup)
  : W -> outcome (option error) * W :=
  ExponentialBackoffOrPanic (requestBackoff az)
    (fun w =>
       match sg_Name sg with
       | None => (Panics, w)
       | Some name =>
           let '((resp, err), w') :=
             SecurityGroupsClient_CreateOrUpdate (ResourceGroup az) name sg w in
           (processRetryResponse resp err, w')
       end).

(** [az.LoadBalancerClient.Delete(ctx, resourceGroup, lbName)] followed
    by [future.Result(az.LoadBalancerClient)]. *)
Variable LoadBalancerClient_Delete :
  string -> string -> St W (autorest_Response * option error).

(** [func (az *Cloud) DeleteLBWithRetry(lbName string) error] *)
Definition DeleteLBWithRetry (az : Cloud) (lbName : string)
  : W -> outcome (option error) * W :=
  ExponentialBackoffOrPanic (requestBackoff az)
    (fun w =>
       let '((resp, err), w') :=
         LoadBalancerClient_Delete (ResourceGroup az) lbName w in
       (processRetryResponse resp err, w')).

End Wrappers.

(** An SDK call over a world that counts the calls made so far: the
    first call is answered with [503] and an error, the later ones with
    [200]. *)
Definition unavailableOnce (resourceGroup name : string)
  : St nat (autorest_Response * option error) :=
  fun w =>
    if (w <? 1)%nat
    then (({| Response := Some {| StatusCode := 503 |} |},
           Some (ErrorString "service unavailable")), S w)
    else (({| Response := Some {| StatusCode := 200 |} |}, None), S w).

(** An address lookup that fails until the third call. *)
Definition addressAfterTwo (az : Cloud) (name : string)
  : St nat (string * option error) :=
  fun w =>
    if (w <? 2)%nat then (("", Some (ErrorString "not ready")), S w)
    else (("10.240.0.4", None), S w).

End AzureBackoffWrappers.

(** ** azure_backoff.go: the remaining wrappers of SDK clients

    With [GetVirtualMachineWithRetry], [ListLBWithRetry],
    [GetIPForMachineWithRetry], [CreateOrUpdateSGWithRetry] and
    [DeleteLBWithRetry] above, these are all the operations that the
    file runs under [az.requestBackoff()]. *)

Module AzureBackoffClients.
Import Wait AzureBackoff AzureBackoffWrappers.

(** The resources of the network SDK that the wrappers are given, with
    the field they read. *)
Record LoadBalancer : Type := { lb_Name : option string }.
Record PublicIPAddress : Type := { pip_Name : option string }.
Record Interface : Type := { nic_Name : option string }.
Record RouteTable : Type := { rt_Name : option string }.
Record Route : Type := { route_Name : option string }.

(** [wrapper] does what one call [call] of the SDK does: it leaves the
    world that this one call leaves, and it returns [result] of the
    answer of the call. *)
Definition callsOnce {W A R} (wrapper : W -> R * W) (call : St W A)
  (result : A -> R) : Prop :=
  forall w, wrapper w = (result (call w).1, (call w).2).

(** What a wrapper that reads the HTTP response returns for the answer
    of its one call. *)
Definition httpResult (answer : autorest_Response * option error)
  : outcome (option error) :=
  singleAttempt answer.1 answer.2.

(** What a wrapper whose closure hides the error returns for the answer
    of its one call. *)
Definition timeoutOnError {A} (answer : A * option error) : A * option error :=
  (answer.1, if notNil answer.2 then Some ErrWaitTimeout else None).

Section Clients.
Context {W : Type}.

(** [az.RouteTableName] *)
Variable RouteTableName : Cloud -> string.

(** [compute.VirtualMachine] *)
Variable VirtualMachine : Type.

(** The calls of the SDK clients: the request, followed by
    [future.Result] of the same client; the error of the request itself
    is dropped by the source. *)
Variable LoadBalancerClient_CreateOrUpdate :
  string -> string -> LoadBalancer -> St W (autorest_Response * option error).
Variable PublicIPAddressesClient_CreateOrUpdate :
  string -> string -> PublicIPAddress -> St W (autorest_Response * option error).
Variable InterfacesClient_CreateOrUpdate :
  string -> string -> Interface -> St W (autorest_Response * option error).
Variable PublicIPAddressesClient_Delete :
  string -> string -> St W (autorest_Response * option error).
Variable RouteTablesClient_CreateOrUpdate :
  string -> string -> RouteTable -> St W (autorest_Response * option error).
Variable RoutesClient_CreateOrUpdate :
  string -> string -> string -> Route -> St W (autorest_Response * option error).
Variable RoutesClient_Delete :
  string -> string -> string -> St W (autorest_Response * option error).
Variable VirtualMachinesClient_CreateOrUpdate :
  string -> string -> VirtualMachine -> St W (autorest_Response * option error).

(** [func (az *Cloud) CreateOrUpdateLBWithRetry(lb network.LoadBalancer) error] *)
Definition CreateOrUpdateLBWithRetry (az : Cloud) (lb : LoadBalancer)
  : W -> outcome (option error) * W :=
  ExponentialBackoffOrPanic (requestBackoff az)
    (fun w =>
       match lb_Name lb with
       | None => (Panics, w)
       | Some name =>
           let '((resp, err), w') :=
             LoadBalancerClient_CreateOrUpdate (ResourceGroup az) name lb w in
           (processRetryResponse resp err, w')
       end).

(** [func (az *Cloud) CreateOrUpdatePIPWithRetry(pip network.PublicIPAddress) error] *)
Definition CreateOrUpdatePIPWithRetry (az : Cloud) (pip : PublicIPAddress)
  : W -> outcome (option error) * W :=
  ExponentialBackoffOrPanic (requestBackoff az)
    (fun w =>
       match pip_Name pip with
       | None => (Panics, w)
       | Some name =>
           let '((resp, err), w') :=
             PublicIPAddressesClient_CreateOrUpdate (ResourceGroup az) name pip w in
           (processRetryResponse resp err, w')
       end).

(** [func (az *Cloud) CreateOrUpdateInterfaceWithRetry(nic network.Interface) error] *)
Definition CreateOrUpdateInterfaceWithRetry (az : Cloud) (nic : Interface)
  : W -> outcome (option error) * W :=
  ExponentialBackoffOrPanic (requestBackoff az)
    (fun w =>
       match nic_Name nic with
       | None => (Panics, w)
       | Some name =>
           let '((resp, err), w') :=
             InterfacesClient_CreateOrUpdate (ResourceGroup az) name nic w in
           (processRetryResponse resp err, w')
       end).

(** [func (az *Cloud) DeletePublicIPWithRetry(pipName string) error] *)
Definition DeletePublicIPWithRetry (az : Cloud) (pipName : string)
  : W -> outcome (option error) * W :=
  ExponentialBackoffOrPanic (requestBackoff az)
    (fun w =>
       let '((resp, err), w') :=
         PublicIPAddressesClient_Delete (ResourceGroup az) pipName w in
       (processRetryResponse resp err, w')).

(** [func (az *Cloud) CreateOrUpdateRouteTableWithRetry(routeTable network.RouteTable) error].
    The name of the route table is dereferenced for the log line only;
    the call is made with [az.RouteTableName]. *)
Definition CreateOrUpdateRouteTableWithRetry (az : Cloud) (routeTable : RouteTable)
  : W -> outcome (option error) * W :=
  ExponentialBackoffOrPanic (requestBackoff az)
    (fun w =>
       match rt_Name routeTable with
       | None => (Panics, w)
       | Some _ =>
           let '((resp, err), w') :=
             RouteTablesClient_CreateOrUpdate (ResourceGroup az) (RouteTableName az)
               routeTable w in
           (processRetryResponse resp err, w')
       end).

(** [func (az *Cloud) CreateOrUpdateRouteWithRetry(route network.Route) error] *)
Definition CreateOrUpdateRouteWithRetry (az : Cloud) (route : Route)
  : W -> outcome (option error) * W :=
  ExponentialBackoffOrPanic (requestBackoff az)
    (fun w =>
       match route_Name route with
       | None => (Panics, w)
       | Some name =>
           let '((resp, err), w') :=
             RoutesClient_CreateOrUpdate (ResourceGroup az) (RouteTableName az)
               name route w in
           (processRetryResponse resp err, w')
       end).

(** [func (az *Cloud) DeleteRouteWithRetry(routeName string) error] *)
Definition DeleteRouteWithRetry (az : Cloud) (routeName : string)
  : W -> outcome (option error) * W :=
  ExponentialBackoffOrPanic (requestBackoff az)
    (fun w =>
       let '((resp, err), w') :=
         RoutesClient_Delete (ResourceGroup az) (RouteTableName az) routeName w in
       (processRetryResponse resp err, w')).

(** [func (az *Cloud) CreateOrUpdateVMWithRetry(vmName string,
      newVM compute.VirtualMachine) error] *)
Definition CreateOrUpdateVMWithRetry (az : Cloud) (vmName : string)
  (newVM : VirtualMachine) : W -> outcome (option error) * W :=
  ExponentialBackoffOrPanic (requestBackoff az)
    (fun w =>
       let '((resp, err), w') :=
         VirtualMachinesClient_CreateOrUpdate (ResourceGroup az) vmName newVM w in
       (processRetryResponse resp err, w')).

(** *** The two other list wrappers

    [ListPIPWithRetry] (lines 243-299) and
    [VirtualMachineClientListWithRetry] (lines 84-138) are, statement
    for statement, [ListLBWithRetry] with another client, another page
    type and another element type: the same two closures, the same
    loop.  (The last statement of [VirtualMachineClientListWithRetry]
    returns the outer [err], which is nil there.)  [PageResponse]
    gives the result of a page, with its [Value] and [NextLink]. *)

(** [network.PublicIPAddressListResultPage] and
    [az.PublicIPAddressesClient.List] *)
Variable PublicIPAddressListResultPage : Type.
Variable zeroPublicIPAddressPage : PublicIPAddressListResultPage.
Variable PublicIPAddressPageResponse :
  PublicIPAddressListResultPage -> LoadBalancerListResult PublicIPAddress.
Variable PublicIPAddressPageNext :
  PublicIPAddressListResultPage -> St W (PublicIPAddressListResultPage * option error).
Variable PublicIPAddressesClient_List :
  string -> St W (PublicIPAddressListResultPage * option error).

(** [func (az *Cloud) ListPIPWithRetry() ([]network.PublicIPAddress, error)] *)
Definition ListPIPWithRetry (fuel : nat) (az : Cloud) (w : W)
  : option (list PublicIPAddress * option error * W) :=
  ListLBWithRetry PublicIPAddress PublicIPAddressListResultPage
    zeroPublicIPAddressPage PublicIPAddressPageResponse PublicIPAddressPageNext
    PublicIPAddressesClient_List fuel az w.

(** [compute.VirtualMachineListResultPage] and
    [az.VirtualMachinesClient.List] *)
Variable VirtualMachineListResultPage : Type.
Variable zeroVirtualMachinePage : VirtualMachineListResultPage.
Variable VirtualMachinePageResponse :
  VirtualMachineListResultPage -> LoadBalancerListResult VirtualMachine.
Variable VirtualMachinePageNext :
  VirtualMachineListResultPage -> St W (VirtualMachineListResultPage * option error).
Variable VirtualMachinesClient_List :
  string -> St W (VirtualMachineListResultPage * option error).

(** [func (az *Cloud) VirtualMachineClientListWithRetry()
      ([]compute.VirtualMachine, error)] *)
Definition VirtualMachineClientListWithRetry (fuel : nat) (az : Cloud) (w : W)
  : option (list VirtualMachine * option error * W) :=
  ListLBWithRetry VirtualMachine VirtualMachineListResultPage
    zeroVirtualMachinePage VirtualMachinePageResponse VirtualMachinePageNext
    VirtualMachinesClient_List fuel az w.

End Clients.

(** A list wrapper fetches each page with one call: each of its two
    closures, run under [az.requestBackoff()], does what one call of
    [List], or of [Next] on the current page, does; and when the first
    page cannot be fetched, or is the only one, the wrapper as a whole
    does what the one call of [List] does. *)
Definition fetchesOnce {W E Page : Type}
  (PageResponse : Page -> LoadBalancerListResult E)
  (PageNext : Page -> St W (Page * option error))
  (List : string -> St W (Page * option error))
  (az : Cloud)
  (wrapper : nat -> W -> option (list E * option error * W)) : Prop :=
  (forall result resultPage w,
      ExponentialBackoff (requestBackoff az)
        (listCondition E Page PageResponse List az) (result, resultPage, w)
      = ((List (ResourceGroup az) w).1.2,
         (PageResponse (List (ResourceGroup az) w).1.1,
          (List (ResourceGroup az) w).1.1,
          (List (ResourceGroup az) w).2)))
  /\ (forall result resultPage w,
        ExponentialBackoff (requestBackoff az)
          (listNextCondition E Page PageResponse PageNext) (result, resultPage, w)
        = ((PageNext resultPage w).1.2,
           (PageResponse (PageNext resultPage w).1.1,
            (PageNext resultPage w).1.1,
            (PageNext resultPage w).2)))
  /\ (forall fuel w e,
        (List (ResourceGroup az) w).1.2 = Some e ->
        wrapper fuel w = Some ([], Some e, (List (ResourceGroup az) w).2))
  /\ (forall fuel w,
        (List (ResourceGroup az) w).1.2 = None ->
        NextLink E (PageResponse (List (ResourceGroup az) w).1.1) = None ->
        (1 <= fuel)%nat ->
        wrapper fuel w
        = Some (values E (PageResponse (List (ResourceGroup az) w).1.1), None,
                (List (ResourceGroup az) w).2)).

(** *** A world that counts the calls

    Every call of a client adds one to the world and is answered with
    [200]; a list has a single, empty page. *)

Definition countedCall : St nat (autorest_Response * option error) :=
  fun w => (({| Response := Some {| StatusCode := 200 |} |}, None), S w).

Definition countedMachine (az : Cloud) (name : string) : St nat (nat * option error) :=
  fun w => ((w, None), S w).

Definition countedAddress (az : Cloud) (name : string)
  : St nat (string * option error) :=
  fun w => (("10.240.0.4", None), S w).

Definition countedPage {E} (p : LoadBalancerListResult E)
  : St nat (LoadBalancerListResult E * option error) :=
  fun w => ((p, None), S w).

Definition emptyPage {E} : LoadBalancerListResult E :=
  {| Value := None; NextLink := None |}.

End AzureBackoffClients.

(** ** azure_vmss.go *)

Module AzureVmss.

(** [func getScaleSetVMInstanceID(machineName string) (string, error)] *)
Definition getScaleSetVMInstanceID (machineName : string) : string * option error :=
  let nameLength := len machineName in
  if nameLength <? 6 then ("", Some ErrorNotVmssInstance)
  else
    let '(instanceID, err) :=
      ParseUint (sliceFrom (Z.to_nat (nameLength - 6)) machineName) 36 in
    if notNil err then ("", Some ErrorNotVmssInstance)
    else (Sprintf_d instanceID, None).

(** *** Types of the compute and network SDK

    The records list the fields that the sources read or write.  The
    property structs that the SDK embeds by pointer are flattened into
    their owner. *)

Record SubResource : Type := { ID : option string }.

(** [compute.VirtualMachineScaleSetIPConfiguration] *)
Record VirtualMachineScaleSetIPConfiguration : Type := {
  ip_Name : option string;
  ip_Primary : option bool;
  PrivateIPAddressVersion : string;
  LoadBalancerBackendAddressPools : option (list SubResource)
}.

(** [compute.VirtualMachineScaleSetNetworkConfiguration] *)
Record VirtualMachineScaleSetNetworkConfiguration : Type := {
  nic_Name : option string;
  nic_Primary : option bool;
  IPConfigurations : option (list VirtualMachineScaleSetIPConfiguration)
}.

Record InstanceViewStatus : Type := { Code : option string }.

Record VirtualMachineScaleSetVMInstanceView : Type := {
  Statuses : option (list InstanceViewStatus)
}.

Record VirtualMachineScaleSetVMNetworkProfileConfiguration : Type := {
  NetworkInterfaceConfigurations :
    option (list VirtualMachineScaleSetNetworkConfiguration)
}.

(** [compute.VirtualMachineScaleSetVM]; [Sku] and [HardwareProfile] are
    only copied, their content is a name. *)
Record VirtualMachineScaleSetVM : Type := {
  Sku : option string;
  Location : option string;
  HardwareProfile : option string;
  InstanceView : option VirtualMachineScaleSetVMInstanceView;
  NetworkProfileConfiguration :
    option VirtualMachineScaleSetVMNetworkProfileConfiguration
}.

Record VirtualMachineScaleSetNetworkProfile : Type := {
  vmss_NetworkInterfaceConfigurations :
    option (list VirtualMachineScaleSetNetworkConfiguration)
}.

Record VirtualMachineScaleSetVMProfile : Type := {
  NetworkProfile : option VirtualMachineScaleSetNetworkProfile
}.

(** [compute.VirtualMachineScaleSet] *)
Record VirtualMachineScaleSet : Type := {
  vmss_Name : option string;
  VirtualMachineProfile : option VirtualMachineScaleSetVMProfile
}.

(** [network.InterfaceIPConfiguration] and [network.BackendAddressPool] *)
Record InterfaceIPConfiguration : Type := { ipconf_ID : option string }.

Record BackendAddressPool : Type := {
  pool_ID : option string;
  BackendIPConfigurations : option (list InterfaceIPConfiguration)
}.

(** [v1.Service], the field read under the dual-stack feature gate. *)
Record Service : Type := { ClusterIP : string }.

(** [compute.IPv4] and [compute.IPv6] *)
Definition IPv4 : string := "IPv4".
Definition IPv6 : string := "IPv6".

(** *** The scale set, its caches and the world around it *)

(** The fields of [Cloud] read through [ss]. *)
Record Cloud : Type := {
  CloudProviderBackoff : bool;
  ResourceGroup : string
}.

(** [cacheReadType]: the two constants the sources name. *)
Inductive cacheReadType : Type := cacheReadTypeDefault | cacheReadTypeUnsafe.

(** The three [*timedCache] fields of [scaleSet]. *)
Inductive cacheName : Type := vmssCache | vmssVMCache | availabilitySetNodesCache.

(** A [*compute.VirtualMachineScaleSetVM]: the address of an object of
    the world. *)
Definition loc : Type := nat.

(** [vmssVirtualMachinesEntry], a value of the [sync.Map] kept under
    [vmssVirtualMachinesKey]. *)
Record vmssVirtualMachinesEntry : Type := {
  resourceGroup : string;
  vmssName : string;
  instanceID : string;
  virtualMachine : option loc
}.

(** What a [timedCache] hands out as [interface{}]. *)
Inductive cached : Type :=
| cachedNil
| cachedSyncMap (m : gmap string vmssVirtualMachinesEntry)
| cachedScaleSet (vmss : VirtualMachineScaleSet).

(** A [*http.Response], as far as the callers look at it. *)
Definition httpResponse : Type := option Z.

(** Calls that leave the process or a cache, in the order they are made. *)
Inductive event : Type :=
| CacheGet (cache : cacheName) (key : string) (crt : cacheReadType)
| CacheDelete (cache : cacheName) (key : string)
| GetNodeResourceGroupCall (nodeName : string)
| DeleteCacheForNode (nodeName : string)
| VMUpdate (resourceGroupName VMScaleSetName instanceID : string)
    (parameters : VirtualMachineScaleSetVM) (source : string)
| VMUpdateWithRetry (resourceGroupName VMScaleSetName instanceID : string)
    (parameters : VirtualMachineScaleSetVM) (source : string)
| GetScaleSet (name : string)
| CreateOrUpdateVMSS (vmss : VirtualMachineScaleSet)
| UpdateVMSSInstances (scaleSetName : string) (instanceIDs : list string).

(** Everything the functions below call that is not in the sources:
    functions of the Go libraries, constants and methods declared in
    other files of the package, the SDK clients, and the objects behind
    pointers.  [W] is the state of the world they act on. *)
Class Platform (W : Type) : Type := {
  (* Go libraries *)
  EqualFold : string -> string -> bool;
  IsIPv6String : string -> bool;
  scaleSetNameRE_FindStringSubmatch : string -> list string;
  IPv6DualStackEnabled : bool;
  (* constants of the package *)
  vmssVirtualMachinesKey : string;
  vmPowerStatePrefix : string;
  (* objects behind pointers *)
  load : loc -> W -> option VirtualMachineScaleSetVM;
  store : loc -> VirtualMachineScaleSetVM -> W -> W;
  (* azure_cache.go *)
  timedCache_Get : cacheName -> string -> cacheReadType -> St W (cached * option error);
  timedCache_Delete : cacheName -> string -> W -> W;
  (* methods and functions of other files *)
  useStandardLoadBalancer : Cloud -> bool;
  mapNodeNameToVMName : string -> string;
  isBackendPoolOnSameLB : string -> list string -> bool * string * option error;
  shouldRetryHTTPRequest : httpResponse -> option error -> bool;
  GetNodeResourceGroup : string -> St W (string * option error);
  deleteCacheForNode : string -> W -> W;
  UpdateVmssVMWithRetry :
    string -> string -> string -> VirtualMachineScaleSetVM -> string ->
    St W (option error);
  (* wrappers of azure_vmss.go around the cache and the SDK; they rest on
     RequestBackoff, shouldOmitCloudProviderBackoff and processHTTPResponse
     of other files *)
  getScaleSet : string -> St W (VirtualMachineScaleSet * bool * option error);
  createOrUpdateVMSS : VirtualMachineScaleSet -> St W (option error);
  updateVMSSInstances : string -> list string -> St W (option error);
  (* SDK client *)
  VirtualMachineScaleSetVMsClient_Update :
    string -> string -> string -> VirtualMachineScaleSetVM -> string ->
    St W (httpResponse * option error)
}.

(** Modelled from the spec: the constant [vmPowerStateStopped] is declared
    in another file of the package; it is the power state reported for a
    VM without instance view, "stopped". *)
Definition vmPowerStateStopped : string := "stopped".

(** What the closure [getter] of [getVmssVM] returns for the node
    [nodeName] when the cache answers with the map [m]; its third
    component is [None] when the map has no entry for the node, or an
    entry without virtual machine. *)
Definition entryOf (m : gmap string vmssVirtualMachinesEntry) (nodeName : string)
  : string * string * option loc * option error :=
  match m !! nodeName with
  | Some result =>
      (vmssName result, instanceID result, virtualMachine result, None)
  | None => ("", "", None, None)
  end.

(** The state a method runs in: the world and the calls made so far. *)
Record state (W : Type) : Type := mkState { world : W; log : list event }.
Arguments mkState {W} world log.
Arguments world {W} s.
Arguments log {W} s.

(** A method body: it returns or panics, and leaves a state. *)
Definition M (W A : Type) : Type := state W -> outcome A * state W.

#[global] Instance M_ret {W} : MRet (M W) := fun A a s => (Returns a, s).

#[global] Instance M_bind {W} : MBind (M W) :=
  fun A B k m s =>
    match m s with
    | (Returns a, s') => k a s'
    | (Panics, s') => (Panics, s')
    end.

Section ScaleSet.
Context {W : Type} {P : Platform W}.

Definition panic {A} : M W A := fun s => (Panics, s).

(** A call [e] of an operation of the platform. *)
Definition call {A} (e : event) (f : St W A) : M W A :=
  fun s => let (a, w') := f (world s) in (Returns a, mkState w' (log s ++ [e])).

(** [*p] for an optional value. *)
Definition deref {A} (p : option A) : M W A :=
  match p with
  | Some a => mret a
  | None => panic
  end.

(** [*vm] for a pointer to a virtual machine of the world. *)
Definition loadVM (vm : option loc) : M W VirtualMachineScaleSetVM :=
  fun s =>
    match vm with
    | Some l =>
        match load l (world s) with
        | Some v => (Returns v, s)
        | None => (Panics, s)
        end
    | None => (Panics, s)
    end.

(** An assignment through [vm]. *)
Definition storeVM (l : loc) (v : VirtualMachineScaleSetVM) : M W unit :=
  fun s => (Returns tt, mkState (store l v (world s)) (log s)).

(** [cache.Get(key, crt)] and [cache.Delete(key)] *)
Definition cacheGet (c : cacheName) (key : string) (crt : cacheReadType)
  : M W (cached * option error) :=
  call (CacheGet c key crt) (timedCache_Get c key crt).

Definition cacheDelete (c : cacheName) (key : string) : M W unit :=
  call (CacheDelete c key) (fun w => (tt, timedCache_Delete c key w)).

(** The type assertion of [cached] to a pointer to [sync.Map]. *)
Definition assertSyncMap (c : cached) : M W (gmap string vmssVirtualMachinesEntry) :=
  match c with
  | cachedSyncMap m => mret m
  | _ => panic
  end.

(** The closure [getter] of [getVmssVM] (lines 135-148). *)
Definition getVmssVM_getter (nodeName : string) (crt : cacheReadType)
  : M W (string * string * option loc * option error) :=
  '(cached, err) ← cacheGet vmssVMCache vmssVirtualMachinesKey crt;
  if notNil err then mret ("", "", None, err)
  else
    virtualMachines ← assertSyncMap cached;
    match virtualMachines !! nodeName with
    | Some result =>
        mret (vmssName result, instanceID result, virtualMachine result, None)
    | None => mret ("", "", None, None)
    end.

(** [func (ss *scaleSet) getVmssVM(nodeName string, crt cacheReadType)
      (string, string, *compute.VirtualMachineScaleSetVM, error)] *)
Definition getVmssVM (nodeName : string) (crt : cacheReadType)
  : M W (string * string * option loc * option error) :=
  let '(_, err) := getScaleSetVMInstanceID nodeName in
  if notNil err then mret ("", "", None, err)
  else
    '(vmssName, instanceID, vm, err) ← getVmssVM_getter nodeName crt;
    if notNil err then mret ("", "", None, err)
    else if notNil vm then mret (vmssName, instanceID, vm, None)
    else
      cacheDelete vmssVMCache vmssVirtualMachinesKey;;
      '(vmssName, instanceID, vm, err) ← getVmssVM_getter nodeName crt;
      if notNil err then mret ("", "", None, err)
      else if notNil vm then mret (vmssName, instanceID, vm, None)
      else mret ("", "", None, Some InstanceNotFound).

(** The loop over [statuses] in [GetPowerStatusByNodeName]: the first
    status code with the power state prefix, without the prefix. *)
Fixpoint firstPowerState (statuses : list InstanceViewStatus) : option string :=
  match statuses with
  | [] => None
  | status :: rest =>
      let state := to_String (Code status) in
      if HasPrefix state vmPowerStatePrefix
      then Some (TrimPrefix state vmPowerStatePrefix)
      else firstPowerState rest
  end.

(** [strings.HasPrefix(to.String(status.Code), vmPowerStatePrefix)] *)
Definition hasPowerState (status : InstanceViewStatus) : bool :=
  HasPrefix (to_String (Code status)) vmPowerStatePrefix.

(** [func (ss *scaleSet) GetPowerStatusByNodeName(name string)
      (powerState string, err error)] *)
Definition GetPowerStatusByNodeName (name : string) : M W (string * option error) :=
  '(_, _, vm, err) ← getVmssVM name cacheReadTypeDefault;
  if notNil err then mret ("", err)
  else
    v ← loadVM vm;
    match InstanceView v with
    | Some instanceView =>
        match Statuses instanceView with
        | Some statuses =>
            match firstPowerState statuses with
            | Some powerState => mret (powerState, None)
            | None => mret (vmPowerStateStopped, None)
            end
        | None => mret (vmPowerStateStopped, None)
        end
    | None => mret (vmPowerStateStopped, None)
    end.

End ScaleSet.

(** *** Primary network interface and IP configuration

    The functions return a pointer into the slice they are given:
    the index of the element. *)

(** [p != nil && *p == true] *)
Definition isTrue (p : option bool) : bool :=
  match p with
  | Some true => true
  | _ => false
  end.

(** [for idx := range l { if p(&l[idx]) { return idx } }] *)
Fixpoint findIndex {A} (p : A -> bool) (l : list A) : option nat :=
  match l with
  | [] => None
  | x :: l' => if p x then Some 0%nat else S <$> findIndex p l'
  end.

(** [func (ss *scaleSet) getPrimaryNetworkInterfaceConfiguration(
      networkConfigurations []compute.VirtualMachineScaleSetNetworkConfiguration,
      nodeName string)] *)
Definition getPrimaryNetworkInterfaceConfiguration
  (networkConfigurations : list VirtualMachineScaleSetNetworkConfiguration)
  (nodeName : string) : option nat * option error :=
  if (length networkConfigurations =? 1)%nat then (Some 0%nat, None)
  else
    match findIndex (fun networkConfig => isTrue (nic_Primary networkConfig))
            networkConfigurations with
    | Some idx => (Some idx, None)
    | None =>
        (None, Some (Errorf
           "failed to find a primary network configuration for the scale set VM %q"
           [nodeName]))
    end.

(** [func (ss *scaleSet) getPrimaryNetworkConfiguration(
      networkConfigurationList *[]compute.VirtualMachineScaleSetNetworkConfiguration,
      scaleSetName string)] *)
Definition getPrimaryNetworkConfiguration
  (networkConfigurationList : option (list VirtualMachineScaleSetNetworkConfiguration))
  (scaleSetName : string) : outcome (option nat * option error) :=
  match networkConfigurationList with
  | None => Panics
  | Some networkConfigurations =>
      if (length networkConfigurations =? 1)%nat then Returns (Some 0%nat, None)
      else
        match findIndex (fun networkConfig => isTrue (nic_Primary networkConfig))
                networkConfigurations with
        | Some idx => Returns (Some idx, None)
        | None =>
            Returns (None, Some (Errorf
              "failed to find a primary network configuration for the scale set %q"
              [scaleSetName]))
        end
  end.

(** [func (ss *scaleSet) getPrimaryIPConfigForScaleSet(
      config *compute.VirtualMachineScaleSetNetworkConfiguration,
      scaleSetName string)] *)
Definition getPrimaryIPConfigForScaleSet
  (config : VirtualMachineScaleSetNetworkConfiguration) (scaleSetName : string)
  : outcome (option nat * option error) :=
  match IPConfigurations config with
  | None => Panics
  | Some ipConfigurations =>
      if (length ipConfigurations =? 1)%nat then Returns (Some 0%nat, None)
      else
        match findIndex (fun ipConfig => isTrue (ip_Primary ipConfig))
                ipConfigurations with
        | Some idx => Returns (Some idx, None)
        | None =>
            Returns (None, Some (Errorf
              "failed to find a primary IP configuration for the scale set %q"
              [scaleSetName]))
        end
  end.

(** [func getPrimaryIPConfigFromVMSSNetworkConfig(
      config *compute.VirtualMachineScaleSetNetworkConfiguration)] *)
Definition getPrimaryIPConfigFromVMSSNetworkConfig
  (config : VirtualMachineScaleSetNetworkConfiguration)
  : outcome (option nat * option error) :=
  match IPConfigurations config with
  | None => Panics
  | Some ipConfigurations =>
      if (length ipConfigurations =? 1)%nat then Returns (Some 0%nat, None)
      else
        match findIndex (fun ipConfig => isTrue (ip_Primary ipConfig))
                ipConfigurations with
        | Some idx => Returns (Some idx, None)
        | None =>
            Returns (None, Some (Errorf
              "failed to find a primary IP configuration" []))
        end
  end.

(** [func (ss *scaleSet) getConfigForScaleSetByIPFamily(
      config *compute.VirtualMachineScaleSetNetworkConfiguration,
      nodeName string, IPv6 bool)] *)
Definition getConfigForScaleSetByIPFamily
  (config : VirtualMachineScaleSetNetworkConfiguration) (nodeName : string)
  (isIPv6 : bool) : outcome (option nat * option error) :=
  match IPConfigurations config with
  | None => Panics
  | Some ipConfigurations =>
      let ipVersion := if isIPv6 then IPv6 else IPv4 in
      match findIndex
              (fun ipConfig => String.eqb (PrivateIPAddressVersion ipConfig) ipVersion)
              ipConfigurations with
      | Some idx => Returns (Some idx, None)
      | None =>
          Returns (None, Some (Errorf
            "failed to find a  IPconfiguration(IPv6=%v) for the scale set VM %q"
            [if isIPv6 then "true" else "false"; nodeName]))
      end
  end.

(** The assignment
    [primaryIPConfiguration.LoadBalancerBackendAddressPools = &newBackendPools]
    seen from the slice of network configurations that holds the IP
    configuration: the pointers are the indices [nicIdx] and [ipIdx]. *)
Definition setPools (pools : list SubResource)
  (ipConfig : VirtualMachineScaleSetIPConfiguration)
  : VirtualMachineScaleSetIPConfiguration :=
  {| ip_Name := ip_Name ipConfig;
     ip_Primary := ip_Primary ipConfig;
     PrivateIPAddressVersion := PrivateIPAddressVersion ipConfig;
     LoadBalancerBackendAddressPools := Some pools |}.

Definition setIPConfigurationPools (ipIdx : nat) (pools : list SubResource)
  (networkConfig : VirtualMachineScaleSetNetworkConfiguration)
  : VirtualMachineScaleSetNetworkConfiguration :=
  {| nic_Name := nic_Name networkConfig;
     nic_Primary := nic_Primary networkConfig;
     IPConfigurations :=
       alter (setPools pools) ipIdx <$> IPConfigurations networkConfig |}.

Definition setBackendPools (nicIdx ipIdx : nat) (pools : list SubResource)
  (networkConfigurations : list VirtualMachineScaleSetNetworkConfiguration)
  : list VirtualMachineScaleSetNetworkConfiguration :=
  alter (setIPConfigurationPools ipIdx pools) nicIdx networkConfigurations.

(** The virtual machine [vm] points to, after that assignment. *)
Definition withNetworkInterfaceConfigurations
  (networkConfigurations : list VirtualMachineScaleSetNetworkConfiguration)
  (v : VirtualMachineScaleSetVM) : VirtualMachineScaleSetVM :=
  {| Sku := Sku v;
     Location := Location v;
     HardwareProfile := HardwareProfile v;
     InstanceView := InstanceView v;
     NetworkProfileConfiguration :=
       Some {| NetworkInterfaceConfigurations := Some networkConfigurations |} |}.

(** [newVM] of [EnsureHostInPool] and [ensureBackendPoolDeletedFromNode] *)
Definition newVMWith (v : VirtualMachineScaleSetVM)
  (networkInterfaceConfigurations : list VirtualMachineScaleSetNetworkConfiguration)
  : VirtualMachineScaleSetVM :=
  {| Sku := Sku v;
     Location := Location v;
     HardwareProfile := HardwareProfile v;
     InstanceView := None;
     NetworkProfileConfiguration :=
       Some {| NetworkInterfaceConfigurations := Some networkInterfaceConfigurations |} |}.

(** *** Slices that share an array

    [append(existingBackendPools[:i], existingBackendPools[i+1:]...)]
    does not allocate: the elements after [i] move one slot down in the
    array of [existingBackendPools], whose last slot keeps its value, and
    the result is the window on the first [len-1] slots of that array. *)
Definition removeInPlace {A} (i : nat) (arr : list A) : list A :=
  take i arr ++ drop (S i) arr ++ drop (length arr - 1) arr.

(** [newBackendPools] in the deletion loops: the fresh
    [[]compute.SubResource{}], or a window on the array of
    [existingBackendPools]. *)
Inductive poolSlice : Type :=
| freshSlice
| windowSlice (n : nat).

Definition readSlice {A} (arr : list A) (sl : poolSlice) : list A :=
  match sl with
  | freshSlice => []
  | windowSlice n => take n arr
  end.

Definition sliceLen (sl : poolSlice) : nat :=
  match sl with
  | freshSlice => 0%nat
  | windowSlice n => n
  end.

Section ScaleSetPools.
Context {W : Type} {P : Platform W}.

(** An outcome as a method body. *)
Definition liftO {A} (o : outcome A) : M W A := fun s => (o, s).

(** The loop of [EnsureHostInPool] over the existing pools
    (lines 838-843). *)
Fixpoint findPool (backendPoolID : string) (pools : list SubResource)
  : outcome bool :=
  match pools with
  | [] => Returns false
  | existingPool :: rest =>
      match ID existingPool with
      | None => Panics
      | Some id =>
          if EqualFold backendPoolID id then Returns true
          else findPool backendPoolID rest
      end
  end.

(** The choice of the IP configuration in [EnsureHostInPool]
    (lines 816-830): the primary one, or under the dual-stack feature
    gate the one of the IP family of the service. *)
Definition primaryIPConfigurationOf (service : option Service)
  (networkConfig : VirtualMachineScaleSetNetworkConfiguration) (vmName : string)
  : outcome (option nat * option error) :=
  if negb IPv6DualStackEnabled then
    getPrimaryIPConfigFromVMSSNetworkConfig networkConfig
  else
    match service with
    | None => Panics
    | Some svc =>
        let ipv6 := IsIPv6String (ClusterIP svc) in
        getConfigForScaleSetByIPFamily networkConfig vmName ipv6
    end.

(** The IDs that are not nil (lines 855-860). *)
Definition poolIDs (pools : list SubResource) : list string := omap ID pools.

(** The end of [EnsureHostInPool] and of
    [ensureBackendPoolDeletedFromNode]: the node resource group, the
    update with its retry, and the deferred [deleteCacheForNode]. *)
Definition updateVMSSVM (ss : Cloud) (vmName ssName instanceID : string)
  (newVM : VirtualMachineScaleSetVM) : M W (option error) :=
  '(nodeResourceGroup, err) ←
    call (GetNodeResourceGroupCall vmName) (GetNodeResourceGroup vmName);
  if notNil err then mret err
  else
    '(resp, err) ←
      call (VMUpdate nodeResourceGroup ssName instanceID newVM "network_update")
        (VirtualMachineScaleSetVMsClient_Update
           nodeResourceGroup ssName instanceID newVM "network_update");
    err ←
      (if CloudProviderBackoff ss && shouldRetryHTTPRequest resp err then
         retryErr ←
           call (VMUpdateWithRetry nodeResourceGroup ssName instanceID newVM
                   "network_update")
             (UpdateVmssVMWithRetry
                nodeResourceGroup ssName instanceID newVM "network_update");
         mret (if notNil retryErr then retryErr else err)
       else mret err);
    call (DeleteCacheForNode vmName) (fun w => (tt, deleteCacheForNode vmName w));;
    mret err.

(** [func (ss *scaleSet) EnsureHostInPool(service *v1.Service,
      nodeName types.NodeName, backendPoolID string, vmSetName string,
      isInternal bool) error] *)
Definition EnsureHostInPool (ss : Cloud) (service : option Service)
  (nodeName backendPoolID vmSetName : string) (isInternal : bool)
  : M W (option error) :=
  let vmName := mapNodeNameToVMName nodeName in
  '(ssName, instanceID, vm, err) ← getVmssVM vmName cacheReadTypeDefault;
  if notNil err then mret err
  else if negb (String.eqb vmSetName "") && negb (useStandardLoadBalancer ss)
          && negb (EqualFold vmSetName ssName)
  then mret None
  else
    v ← loadVM vm;
    profile ← deref (NetworkProfileConfiguration v);
    match NetworkInterfaceConfigurations profile with
    | None => mret None
    | Some networkInterfaceConfigurations =>
        let '(primaryNetworkInterfaceConfiguration, err) :=
          getPrimaryNetworkInterfaceConfiguration networkInterfaceConfigurations vmName in
        if notNil err then mret err
        else
          nicIdx ← deref primaryNetworkInterfaceConfiguration;
          networkConfig ← deref (networkInterfaceConfigurations !! nicIdx);
          '(primaryIPConfiguration, err) ←
            liftO (primaryIPConfigurationOf service networkConfig vmName);
          if notNil err then mret err
          else
            ipIdx ← deref primaryIPConfiguration;
            ipConfigurations ← deref (IPConfigurations networkConfig);
            ipConfig ← deref (ipConfigurations !! ipIdx);
            let newBackendPools :=
              default [] (LoadBalancerBackendAddressPools ipConfig) in
            foundPool ← liftO (findPool backendPoolID newBackendPools);
            if (foundPool : bool) then mret None
            else
              let '(isSameLB, oldLBName, err) :=
                if useStandardLoadBalancer ss && (0 <? length newBackendPools)%nat
                then isBackendPoolOnSameLB backendPoolID (poolIDs newBackendPools)
                else (true, "", None) in
              if notNil err then mret err
              else if negb isSameLB then mret None
              else
                let newBackendPools :=
                  newBackendPools ++ [ {| ID := Some backendPoolID |} ] in
                let networkInterfaceConfigurations :=
                  setBackendPools nicIdx ipIdx newBackendPools
                    networkInterfaceConfigurations in
                l ← deref vm;
                storeVM l (withNetworkInterfaceConfigurations
                             networkInterfaceConfigurations v);;
                let newVM := newVMWith v networkInterfaceConfigurations in
                updateVMSSVM ss vmName ssName instanceID newVM
    end.

(** The loop of the three deletion functions (lines 1247-1254, and
    1173-1180, 1358-1365), run for [i] from [len-1] down to [0] on the
    array [arr] of [existingBackendPools]; the first argument is [i+1]. *)
Fixpoint deleteLoop (backendPoolID : string) (n : nat) (arr : list SubResource)
  (newBackendPools : poolSlice) (foundPool : bool)
  : outcome (list SubResource * poolSlice * bool) :=
  match n with
  | O => Returns (arr, newBackendPools, foundPool)
  | S i =>
      match arr !! i with
      | None => Panics
      | Some curPool =>
          match ID curPool with
          | None => Panics
          | Some id =>
              if EqualFold backendPoolID id then
                deleteLoop backendPoolID i (removeInPlace i arr)
                  (windowSlice (length arr - 1)) true
              else deleteLoop backendPoolID i arr newBackendPools foundPool
          end
      end
  end.

(** [func (ss *scaleSet) ensureBackendPoolDeletedFromNode(
      service *v1.Service, nodeName, backendPoolID string) error] *)
Definition ensureBackendPoolDeletedFromNode (ss : Cloud) (service : option Service)
  (nodeName backendPoolID : string) : M W (option error) :=
  '(ssName, instanceID, vm, err) ← getVmssVM nodeName cacheReadTypeDefault;
  if notNil err then mret err
  else
    v ← loadVM vm;
    profile ← deref (NetworkProfileConfiguration v);
    match NetworkInterfaceConfigurations profile with
    | None => mret None
    | Some networkInterfaceConfigurations =>
        let '(primaryNetworkInterfaceConfiguration, err) :=
          getPrimaryNetworkInterfaceConfiguration networkInterfaceConfigurations nodeName in
        if notNil err then mret err
        else
          nicIdx ← deref primaryNetworkInterfaceConfiguration;
          networkConfig ← deref (networkInterfaceConfigurations !! nicIdx);
          '(primaryIPConfiguration, err) ←
            liftO (getPrimaryIPConfigFromVMSSNetworkConfig networkConfig);
          if notNil err then mret err
          else
            ipIdx ← deref primaryIPConfiguration;
            ipConfigurations ← deref (IPConfigurations networkConfig);
            ipConfig ← deref (ipConfigurations !! ipIdx);
            match LoadBalancerBackendAddressPools ipConfig with
            | None | Some [] => mret None
            | Some existingBackendPools =>
                '(arr, newBackendPools, foundPool) ←
                  liftO (deleteLoop backendPoolID (length existingBackendPools)
                           existingBackendPools freshSlice false);
                if negb foundPool then mret None
                else
                  let networkInterfaceConfigurations :=
                    setBackendPools nicIdx ipIdx (readSlice arr newBackendPools)
                      networkInterfaceConfigurations in
                  l ← deref vm;
                  storeVM l (withNetworkInterfaceConfigurations
                               networkInterfaceConfigurations v);;
                  let newVM := newVMWith v networkInterfaceConfigurations in
                  updateVMSSVM ss nodeName ssName instanceID newVM
            end
    end.

(** [func extractScaleSetNameByProviderID(providerID string) (string, error)] *)
Definition extractScaleSetNameByProviderID (providerID : string)
  : string * option error :=
  match scaleSetNameRE_FindStringSubmatch providerID with
  | [_; name] => (name, None)
  | _ => ("", Some ErrorNotVmssInstance)
  end.

(** The scale set [vmss] after the assignment to its primary IP
    configuration. *)
Definition vmssWithNetworkInterfaceConfigurations
  (networkConfigurations : list VirtualMachineScaleSetNetworkConfiguration)
  (vmss : VirtualMachineScaleSet) : VirtualMachineScaleSet :=
  {| vmss_Name := vmss_Name vmss;
     VirtualMachineProfile :=
       Some {| NetworkProfile :=
         Some {| vmss_NetworkInterfaceConfigurations := Some networkConfigurations |} |} |}.

(** [func (ss *scaleSet) ensureScaleSetBackendPoolDeleted(
      service *v1.Service, poolID, ssName string) error] *)
Definition ensureScaleSetBackendPoolDeleted (ss : Cloud) (service : option Service)
  (poolID ssName : string) : M W (option error) :=
  '(virtualMachineScaleSet, exists_, err) ←
    call (GetScaleSet ssName) (getScaleSet ssName);
  if notNil err then mret err
  else if negb exists_ then mret None
  else
    vmProfile ← deref (VirtualMachineProfile virtualMachineScaleSet);
    networkProfile ← deref (NetworkProfile vmProfile);
    let networkConfigureList := vmss_NetworkInterfaceConfigurations networkProfile in
    '(primaryNetworkConfiguration, err) ←
      liftO (getPrimaryNetworkConfiguration networkConfigureList ssName);
    if notNil err then mret err
    else
      networkConfigurations ← deref networkConfigureList;
      nicIdx ← deref primaryNetworkConfiguration;
      networkConfig ← deref (networkConfigurations !! nicIdx);
      '(primaryIPConfiguration, err) ←
        liftO (getPrimaryIPConfigForScaleSet networkConfig ssName);
      if notNil err then mret err
      else
        ipIdx ← deref primaryIPConfiguration;
        ipConfigurations ← deref (IPConfigurations networkConfig);
        ipConfig ← deref (ipConfigurations !! ipIdx);
        match LoadBalancerBackendAddressPools ipConfig with
        | None | Some [] => mret None
        | Some existingBackendPools =>
            '(arr, newBackendPools, foundPool) ←
              liftO (deleteLoop poolID (length existingBackendPools)
                       existingBackendPools freshSlice false);
            if negb foundPool then mret None
            else
              let virtualMachineScaleSet :=
                vmssWithNetworkInterfaceConfigurations
                  (setBackendPools nicIdx ipIdx (readSlice arr newBackendPools)
                     networkConfigurations)
                  virtualMachineScaleSet in
              err ← call (CreateOrUpdateVMSS virtualMachineScaleSet)
                      (createOrUpdateVMSS virtualMachineScaleSet);
              if notNil err then mret err
              else
                err ← call (UpdateVMSSInstances ssName ["*"])
                        (updateVMSSInstances ssName ["*"]);
                if notNil err then mret err
                else if (sliceLen newBackendPools =? 0)%nat then
                  call (CreateOrUpdateVMSS virtualMachineScaleSet)
                    (createOrUpdateVMSS virtualMachineScaleSet);;
                  mret None
                else mret None
        end.

(** The scale sets named by the IP configurations of a backend pool
    (lines 1415-1427). *)
Fixpoint scaleSetsOf (ipConfigurations : list InterfaceIPConfiguration)
  (scalesets : gset string) : gset string :=
  match ipConfigurations with
  | [] => scalesets
  | ipConfiguration :: rest =>
      match ipconf_ID ipConfiguration with
      | None => scaleSetsOf rest scalesets
      | Some id =>
          let '(ssName, err) := extractScaleSetNameByProviderID id in
          if notNil err then scaleSetsOf rest scalesets
          else scaleSetsOf rest ({[ ssName ]} ∪ scalesets)
      end
  end.

(** The first loop of [EnsureBackendPoolDeleted] (lines 1413-1430). *)
Fixpoint collectScaleSets (poolID : string) (backendAddressPools : list BackendAddressPool)
  : outcome (gset string) :=
  match backendAddressPools with
  | [] => Returns ∅
  | backendPool :: rest =>
      match pool_ID backendPool with
      | None => Panics
      | Some id =>
          if EqualFold id poolID then
            match BackendIPConfigurations backendPool with
            | Some ipConfigurations => Returns (scaleSetsOf ipConfigurations ∅)
            | None => collectScaleSets poolID rest
            end
          else collectScaleSets poolID rest
      end
  end.

(** The second loop of [EnsureBackendPoolDeleted] (lines 1432-1443). *)
Fixpoint ensureScaleSetsDeleted (ss : Cloud) (service : option Service)
  (poolID vmSetName : string) (scalesets : list string) : M W (option error) :=
  match scalesets with
  | [] => mret None
  | ssName :: rest =>
      if negb (useStandardLoadBalancer ss) && negb (EqualFold ssName vmSetName)
      then ensureScaleSetsDeleted ss service poolID vmSetName rest
      else
        err ← ensureScaleSetBackendPoolDeleted ss service poolID ssName;
        if notNil err then mret err
        else ensureScaleSetsDeleted ss service poolID vmSetName rest
  end.

(** [func (ss *scaleSet) EnsureBackendPoolDeleted(service *v1.Service,
      poolID, vmSetName string,
      backendAddressPools *[]network.BackendAddressPool) error].
    Go leaves the order in which [range] visits a set unspecified; the
    embedding visits [elements scalesets]. *)
Definition EnsureBackendPoolDeleted (ss : Cloud) (service : option Service)
  (poolID vmSetName : string)
  (backendAddressPools : option (list BackendAddressPool)) : M W (option error) :=
  match backendAddressPools with
  | None => mret None
  | Some pools =>
      scalesets ← liftO (collectScaleSets poolID pools);
      ensureScaleSetsDeleted ss service poolID vmSetName (elements scalesets)
  end.

(** *** Notions used to state the properties *)

(** [strings.EqualFold(backendPoolID, *pool.ID)], false for a nil ID. *)
Definition matchesPool (backendPoolID : string) (pool : SubResource) : bool :=
  match ID pool with
  | Some id => EqualFold backendPoolID id
  | None => false
  end.

(** The pools that a deletion keeps, and those it is to remove. *)
Definition keptPools (backendPoolID : string) (pools : list SubResource)
  : list SubResource :=
  filter (fun pool => matchesPool backendPoolID pool = false) pools.

Definition matchingPools (backendPoolID : string) (pools : list SubResource)
  : list SubResource :=
  filter (fun pool => matchesPool backendPoolID pool = true) pools.

(** The calls that update a scale-set virtual machine. *)
Definition isVMUpdate (e : event) : bool :=
  match e with
  | VMUpdate _ _ _ _ _ | VMUpdateWithRetry _ _ _ _ _ => true
  | _ => false
  end.

(** The virtual machine [v] has the network configurations
    [networkConfigurations]; [nicIdx] is its primary network interface
    configuration, in which [choose] picks the IP configuration [ipIdx],
    whose [LoadBalancerBackendAddressPools] is [pools]. *)
Definition selectedPools
  (choose : VirtualMachineScaleSetNetworkConfiguration ->
            outcome (option nat * option error))
  (vmName : string) (v : VirtualMachineScaleSetVM)
  (networkConfigurations : list VirtualMachineScaleSetNetworkConfiguration)
  (nicIdx ipIdx : nat) (pools : option (list SubResource)) : Prop :=
  exists profile networkConfig ipConfigurations ipConfig,
    NetworkProfileConfiguration v = Some profile
    /\ NetworkInterfaceConfigurations profile = Some networkConfigurations
    /\ getPrimaryNetworkInterfaceConfiguration networkConfigurations vmName
       = (Some nicIdx, None)
    /\ networkConfigurations !! nicIdx = Some networkConfig
    /\ choose networkConfig = Returns (Some ipIdx, None)
    /\ IPConfigurations networkConfig = Some ipConfigurations
    /\ ipConfigurations !! ipIdx = Some ipConfig
    /\ LoadBalancerBackendAddressPools ipConfig = pools.

(** The backend pools of the IP configuration [ipIdx] of the network
    configuration [nicIdx]. *)
Definition poolsAt (nicIdx ipIdx : nat)
  (networkConfigurations : list VirtualMachineScaleSetNetworkConfiguration)
  : option (list SubResource) :=
  networkConfig ← networkConfigurations !! nicIdx;
  ipConfigurations ← IPConfigurations networkConfig;
  ipConfig ← ipConfigurations !! ipIdx;
  LoadBalancerBackendAddressPools ipConfig.

End ScaleSetPools.

(** *** A small world

    A platform to run the functions on: the cache of scale-set virtual
    machines is filled from a fixed listing when it is read while empty,
    every update succeeds, and the remaining choices are those of
    [simConfig]. *)

Record simConfig : Type := {
  sim_standardLB : bool;      (* ss.useStandardLoadBalancer() *)
  sim_dualStack : bool;       (* the IPv6DualStack feature gate *)
  sim_sameLB : bool           (* the answer of isBackendPoolOnSameLB *)
}.

Record simWorld : Type := {
  sim_objects : list VirtualMachineScaleSetVM;
  sim_cache : option (gmap string vmssVirtualMachinesEntry);
  sim_azure : gmap string vmssVirtualMachinesEntry
}.

Definition simGet (c : cacheName) (key : string) (crt : cacheReadType)
  : St simWorld (cached * option error) :=
  fun w =>
    match c with
    | vmssVMCache =>
        match sim_cache w with
        | Some m => ((cachedSyncMap m, None), w)
        | None =>
            ((cachedSyncMap (sim_azure w), None),
             {| sim_objects := sim_objects w;
                sim_cache := Some (sim_azure w);
                sim_azure := sim_azure w |})
        end
    | _ => ((cachedNil, None), w)
    end.

Definition simDelete (c : cacheName) (key : string) (w : simWorld) : simWorld :=
  match c with
  | vmssVMCache =>
      {| sim_objects := sim_objects w; sim_cache := None; sim_azure := sim_azure w |}
  | _ => w
  end.

Definition simStore (l : loc) (v : VirtualMachineScaleSetVM) (w : simWorld) : simWorld :=
  {| sim_objects := <[l := v]> (sim_objects w);
     sim_cache := sim_cache w;
     sim_azure := sim_azure w |}.

Definition simDeleteCacheForNode (nodeName : string) (w : simWorld) : simWorld :=
  {| sim_objects := sim_objects w;
     sim_cache := delete nodeName <$> sim_cache w;
     sim_azure := sim_azure w |}.

Definition simPlatform (cfg : simConfig) : Platform simWorld := {|
  EqualFold := EqualFoldASCII;
  IsIPv6String := fun _ => false;
  scaleSetNameRE_FindStringSubmatch := fun _ => [];
  IPv6DualStackEnabled := sim_dualStack cfg;
  vmssVirtualMachinesKey := "k8svmssVirtualMachinesKey";
  vmPowerStatePrefix := "PowerState/";
  load := fun l w => sim_objects w !! l;
  store := simStore;
  timedCache_Get := simGet;
  timedCache_Delete := simDelete;
  useStandardLoadBalancer := fun _ => sim_standardLB cfg;
  mapNodeNameToVMName := fun nodeName => nodeName;
  isBackendPoolOnSameLB := fun _ _ =>
    (sim_sameLB cfg, if sim_sameLB cfg then "" else "other", None);
  shouldRetryHTTPRequest := fun _ err => notNil err;
  GetNodeResourceGroup := fun _ w => (("rg", None), w);
  deleteCacheForNode := simDeleteCacheForNode;
  UpdateVmssVMWithRetry := fun _ _ _ _ _ w => (None, w);
  getScaleSet := fun _ w =>
    (({| vmss_Name := None; VirtualMachineProfile := None |}, false, None), w);
  createOrUpdateVMSS := fun _ w => (None, w);
  updateVMSSInstances := fun _ _ w => (None, w);
  VirtualMachineScaleSetVMsClient_Update := fun _ _ _ _ _ w => ((Some 200, None), w)
|}.

Definition basicLB : simConfig :=
  {| sim_standardLB := false; sim_dualStack := false; sim_sameLB := true |}.

Definition standardLBOtherLB : simConfig :=
  {| sim_standardLB := true; sim_dualStack := false; sim_sameLB := false |}.

Definition simCloud : Cloud := {| CloudProviderBackoff := false; ResourceGroup := "rg" |}.

(** A virtual machine with one network interface and one IP
    configuration that is in the backend pools [pools]. *)
Definition vmWithPools (pools : option (list SubResource))
  (instanceView : option VirtualMachineScaleSetVMInstanceView)
  : VirtualMachineScaleSetVM :=
  {| Sku := Some "Standard_D2";
     Location := Some "westus";
     HardwareProfile := None;
     InstanceView := instanceView;
     NetworkProfileConfiguration := Some {|
       NetworkInterfaceConfigurations := Some [ {|
         nic_Name := Some "nic0";
         nic_Primary := Some true;
         IPConfigurations := Some [ {|
           ip_Name := Some "ipconfig0";
           ip_Primary := Some true;
           PrivateIPAddressVersion := IPv4;
           LoadBalancerBackendAddressPools := pools |} ] |} ] |} |}.

(** The node [vmss-a000001] is instance 1 of the scale set [vmss-a]. *)
Definition nodeA : string := "vmss-a000001".

Definition listingA : gmap string vmssVirtualMachinesEntry :=
  {[ nodeA := {| resourceGroup := "rg"; vmssName := "vmss-a";
                 instanceID := "1"; virtualMachine := Some 0%nat |} ]}.

(** A world with the single node [nodeA], its cache not yet filled. *)
Definition worldA (v : VirtualMachineScaleSetVM) : simWorld :=
  {| sim_objects := [v]; sim_cache := None; sim_azure := listingA |}.

(** The same world once the cache has been read. *)
Definition cachedWorldA (v : VirtualMachineScaleSetVM) : simWorld :=
  {| sim_objects := [v]; sim_cache := Some listingA; sim_azure := listingA |}.

(** A virtual machine that is running. *)
Definition runningVM : VirtualMachineScaleSetVM :=
  vmWithPools None (Some {| Statuses := Some
    [ {| Code := Some "ProvisioningState/succeeded" |};
      {| Code := Some "PowerState/running" |} ] |}).

(** A world without any scale-set virtual machine. *)
Definition emptyWorld : simWorld :=
  {| sim_objects := []; sim_cache := None; sim_azure := ∅ |}.

(** The backend pool of the load balancer [kubernetes], the same ID in
    upper case, and the backend pool of the load balancer [other]. *)
Definition poolA : string :=
  "/subscriptions/sub/resourceGroups/rg/providers/Microsoft.Network/loadBalancers/kubernetes/backendAddressPools/kubernetes".
Definition poolAUpper : string :=
  "/SUBSCRIPTIONS/SUB/RESOURCEGROUPS/RG/PROVIDERS/MICROSOFT.NETWORK/LOADBALANCERS/KUBERNETES/BACKENDADDRESSPOOLS/KUBERNETES".
Definition poolB : string :=
  "/subscriptions/sub/resourceGroups/rg/providers/Microsoft.Network/loadBalancers/other/backendAddressPools/other".

End AzureVmss.

(** ** azure_vmss.go: scale sets of nodes and of services *)

Module AzureVmssSets.
Import AzureVmss.

(** [v1.Node], the fields the sources read: [Name] and
    [Spec.ProviderID]. *)
Record Node : Type := { node_Name : string; ProviderID : string }.

(** What the functions below call in other files of the package. *)
Class NodePlatform (W : Type) : Type := {
  (* azure_standard.go *)
  isMasterNode : Node -> bool;
  getLastSegment : string -> string * option error;
  (* azure_loadbalancer.go *)
  getServiceLoadBalancerMode : option Service -> bool * bool * list string;
  (* azure.go; it reads the node caches of the cloud *)
  ShouldNodeExcludedFromLoadBalancer : Node -> W -> bool;
  excludeMasterNodesFromStandardLB : Cloud -> bool;
  (* ss.Config.PrimaryScaleSetName *)
  PrimaryScaleSetName : Cloud -> string
}.

(** [sort.Strings]: ascending in the order of Go strings, byte by
    byte. *)
Fixpoint insertString (x : string) (l : list string) : list string :=
  match l with
  | [] => [x]
  | y :: l' => if String.leb x y then x :: l else y :: insertString x l'
  end.

Fixpoint sortStrings (l : list string) : list string :=
  match l with
  | [] => []
  | x :: l' => insertString x (sortStrings l')
  end.

Section ScaleSets.
Context {W : Type} {P : Platform W} {N : NodePlatform W}.

(** The condition of the callback given to [virtualMachines.Range] in
    [getVmssVMByInstanceID] (lines 210-212). *)
Definition matchesEntry (resourceGroup scaleSetName instanceID : string)
  (vmEntry : vmssVirtualMachinesEntry) : bool :=
  EqualFold (AzureVmss.resourceGroup vmEntry) resourceGroup
  && EqualFold (vmssName vmEntry) scaleSetName
  && EqualFold (AzureVmss.instanceID vmEntry) instanceID.

(** The closure [getter] of [getVmssVMByInstanceID] (lines 201-222).
    [Range] stops at the first entry that matches; Go leaves the order
    in which it visits the entries unspecified, the embedding visits
    [map_to_list virtualMachines]. *)
Definition getVmssVMByInstanceID_getter
  (resourceGroup scaleSetName instanceID : string) (crt : cacheReadType)
  : M W (option loc * bool * option error) :=
  '(cached, err) ← cacheGet vmssVMCache vmssVirtualMachinesKey crt;
  if notNil err then mret (None, false, err)
  else
    virtualMachines ← assertSyncMap cached;
    match List.find
            (fun kv => matchesEntry resourceGroup scaleSetName instanceID kv.2)
            (map_to_list virtualMachines) with
    | Some (_, vmEntry) => mret (virtualMachine vmEntry, true, None)
    | None => mret (None, false, None)
    end.

(** [func (ss *scaleSet) getVmssVMByInstanceID(resourceGroup, scaleSetName,
      instanceID string, crt cacheReadType)
      ( *compute.VirtualMachineScaleSetVM, error)] *)
Definition getVmssVMByInstanceID
  (resourceGroup scaleSetName instanceID : string) (crt : cacheReadType)
  : M W (option loc * option error) :=
  '(vm, found, err) ←
    getVmssVMByInstanceID_getter resourceGroup scaleSetName instanceID crt;
  if notNil err then mret (None, err)
  else if (found : bool) then mret (vm, None)
  else
    cacheDelete vmssVMCache vmssVirtualMachinesKey;;
    '(vm, found, err) ←
      getVmssVMByInstanceID_getter resourceGroup scaleSetName instanceID crt;
    if notNil err then mret (None, err)
    else if negb found then mret (None, Some InstanceNotFound)
    else mret (vm, None).

(** The loop of [getAgentPoolScaleSets] (lines 587-608) over the nodes
    still to visit. *)
Fixpoint agentPoolScaleSetsLoop (nodes : list Node) (agentPoolScaleSets : list string)
  : M W (option (list string) * option error) :=
  match nodes with
  | [] => mret (Some agentPoolScaleSets, None)
  | node :: rest =>
      if isMasterNode node then agentPoolScaleSetsLoop rest agentPoolScaleSets
      else
        excluded ← (fun s =>
          (Returns (ShouldNodeExcludedFromLoadBalancer node (world s)), s));
        if (excluded : bool) then agentPoolScaleSetsLoop rest agentPoolScaleSets
        else
          let nodeName := node_Name node in
          '(ssName, _, _, err) ← getVmssVM nodeName cacheReadTypeDefault;
          if notNil err then mret (None, err)
          else if String.eqb ssName "" then
            agentPoolScaleSetsLoop rest agentPoolScaleSets
          else agentPoolScaleSetsLoop rest (agentPoolScaleSets ++ [ssName])
  end.

(** [func (ss *scaleSet) getAgentPoolScaleSets(nodes []*v1.Node) ( *[]string, error)] *)
Definition getAgentPoolScaleSets (nodes : list Node)
  : M W (option (list string) * option error) :=
  agentPoolScaleSetsLoop nodes [].

(** The loops that validate the names of the service annotation
    (lines 643-656).  [found] is declared before the outer loop and is
    not reset between two names; a name that matches is replaced by the
    name of the scale set. *)
Fixpoint validateVMSetNames (scaleSetNames serviceVMSetNames : list string)
  (found : bool) : list string * option error :=
  match serviceVMSetNames with
  | [] => ([], None)
  | name :: rest =>
      let hit := List.find (fun ssName => EqualFold ssName name) scaleSetNames in
      let found := found || notNil hit in
      if negb found then
        ([], Some (Errorf "scale set (%s) - not found" [name]))
      else
        let '(rest', err) := validateVMSetNames scaleSetNames rest found in
        (default name hit :: rest', err)
  end.

(** [func (ss *scaleSet) GetVMSetNames(service *v1.Service, nodes []*v1.Node)
      (vmSetNames *[]string, err error)] *)
Definition GetVMSetNames (ss : Cloud) (service : option Service) (nodes : list Node)
  : M W (option (list string) * option error) :=
  let '(hasMode, isAuto, serviceVMSetNames) := getServiceLoadBalancerMode service in
  if negb hasMode then mret (Some [PrimaryScaleSetName ss], None)
  else
    '(scaleSetNames, err) ← getAgentPoolScaleSets nodes;
    if notNil err then mret (None, err)
    else
      names ← deref scaleSetNames;
      if (length names =? 0)%nat then
        mret (None, Some (Errorf "No scale sets found for nodes, node count(%d)"
                            [Sprintf_d (Z.of_nat (length nodes))]))
      else
        let names := sortStrings names in
        if negb isAuto then
          if (length serviceVMSetNames =? 0)%nat then
            mret (None, Some (Errorf
              "service annotation for LoadBalancerMode is empty, it should have __auto__ or availability sets value"
              []))
          else
            let '(serviceVMSetNames, err) :=
              validateVMSetNames names serviceVMSetNames false in
            if notNil err then mret (None, err)
            else mret (Some serviceVMSetNames, None)
        else mret (None, None).

(** The loop of [getNodesScaleSets] (lines 962-991).  The method only
    reads the world. *)
Fixpoint nodesScaleSetsLoop (ss : Cloud) (w : W) (nodes : list Node)
  (scalesets : gmap string (gset string)) (standardNodes : list Node)
  : option (gmap string (gset string)) * option (list Node) * option error :=
  match nodes with
  | [] => (Some scalesets, Some standardNodes, None)
  | curNode :: rest =>
      if useStandardLoadBalancer ss && excludeMasterNodesFromStandardLB ss
         && isMasterNode curNode
      then nodesScaleSetsLoop ss w rest scalesets standardNodes
      else if ShouldNodeExcludedFromLoadBalancer curNode w
      then nodesScaleSetsLoop ss w rest scalesets standardNodes
      else
        let '(curScaleSetName, err) :=
          extractScaleSetNameByProviderID (ProviderID curNode) in
        if notNil err then
          nodesScaleSetsLoop ss w rest scalesets (standardNodes ++ [curNode])
        else
          let scalesets :=
            match scalesets !! curScaleSetName with
            | Some _ => scalesets
            | None => <[curScaleSetName := ∅]> scalesets
            end in
          let '(instanceID, err) := getLastSegment (ProviderID curNode) in
          if notNil err then (None, None, err)
          else
            nodesScaleSetsLoop ss w rest
              (<[curScaleSetName :=
                   {[ instanceID ]} ∪ default ∅ (scalesets !! curScaleSetName)]>
                 scalesets)
              standardNodes
  end.

(** The two tests at the head of the loop of [getNodesScaleSets]
    (lines 963-971): the node is left out of the backend pool. *)
Definition excludedFromBackendPool (ss : Cloud) (w : W) (node : Node) : bool :=
  useStandardLoadBalancer ss && excludeMasterNodesFromStandardLB ss
  && isMasterNode node
  || ShouldNodeExcludedFromLoadBalancer node w.

(** [func (ss *scaleSet) getNodesScaleSets(nodes []*v1.Node)
      (map[string]sets.String, []*v1.Node, error)] *)
Definition getNodesScaleSets (ss : Cloud) (nodes : list Node) (w : W)
  : option (gmap string (gset string)) * option (list Node) * option error :=
  nodesScaleSetsLoop ss w nodes ∅ [].

(** The instance [instanceID] of the scale set [scaleSetName] is that
    of a node of [nodes] which is not left out of the backend pool. *)
Definition instanceOf (ss : Cloud) (w : W) (nodes : list Node)
  (scaleSetName instanceID : string) : Prop :=
  exists node,
    node ∈ nodes
    /\ excludedFromBackendPool ss w node = false
    /\ extractScaleSetNameByProviderID (ProviderID node) = (scaleSetName, None)
    /\ getLastSegment (ProviderID node) = (instanceID, None).

(** The scale set [vmss] has the network configurations
    [networkConfigurations]; [nicIdx] is its primary network
    configuration and [ipIdx] the primary IP configuration of that one,
    whose [LoadBalancerBackendAddressPools] is [pools]. *)
Definition scaleSetPools (scaleSetName : string) (vmss : VirtualMachineScaleSet)
  (networkConfigurations : list VirtualMachineScaleSetNetworkConfiguration)
  (nicIdx ipIdx : nat) (pools : option (list SubResource)) : Prop :=
  exists vmProfile networkProfile networkConfig ipConfigurations ipConfig,
    VirtualMachineProfile vmss = Some vmProfile
    /\ NetworkProfile vmProfile = Some networkProfile
    /\ vmss_NetworkInterfaceConfigurations networkProfile = Some networkConfigurations
    /\ getPrimaryNetworkConfiguration (Some networkConfigurations) scaleSetName
       = Returns (Some nicIdx, None)
    /\ networkConfigurations !! nicIdx = Some networkConfig
    /\ getPrimaryIPConfigForScaleSet networkConfig scaleSetName
       = Returns (Some ipIdx, None)
    /\ IPConfigurations networkConfig = Some ipConfigurations
    /\ ipConfigurations !! ipIdx = Some ipConfig
    /\ LoadBalancerBackendAddressPools ipConfig = pools.

(** [func (ss *scaleSet) ensureHostsInVMSetPool(service *v1.Service,
      backendPoolID string, vmSetName string, instanceIDs []string,
      isInternal bool) error] *)
Definition ensureHostsInVMSetPool (ss : Cloud) (service : option Service)
  (backendPoolID vmSetName : string) (instanceIDs : list string)
  (isInternal : bool) : M W (option error) :=
  '(virtualMachineScaleSet, exists_, err) ←
    call (GetScaleSet vmSetName) (getScaleSet vmSetName);
  if notNil err then mret err
  else if negb exists_ then
    mret (Some (Errorf "Scale set %q not found" [vmSetName]))
  else
    vmProfile ← deref (VirtualMachineProfile virtualMachineScaleSet);
    networkProfile ← deref (NetworkProfile vmProfile);
    let networkConfigureList := vmss_NetworkInterfaceConfigurations networkProfile in
    '(primaryNetworkConfiguration, err) ←
      liftO (getPrimaryNetworkConfiguration networkConfigureList vmSetName);
    if notNil err then mret err
    else
      networkConfigurations ← deref networkConfigureList;
      nicIdx ← deref primaryNetworkConfiguration;
      networkConfig ← deref (networkConfigurations !! nicIdx);
      '(primaryIPConfiguration, err) ←
        liftO (getPrimaryIPConfigForScaleSet networkConfig vmSetName);
      if notNil err then mret err
      else
        ipIdx ← deref primaryIPConfiguration;
        ipConfigurations ← deref (IPConfigurations networkConfig);
        ipConfig ← deref (ipConfigurations !! ipIdx);
        let newBackendPools :=
          default [] (LoadBalancerBackendAddressPools ipConfig) in
        foundPool ← liftO (findPool backendPoolID newBackendPools);
        let updateInstances : M W (option error) :=
          call (UpdateVMSSInstances vmSetName instanceIDs)
            (updateVMSSInstances vmSetName instanceIDs) in
        if (foundPool : bool) then updateInstances
        else
          let '(isSameLB, oldLBName, err) :=
            if useStandardLoadBalancer ss && (0 <? length newBackendPools)%nat
            then isBackendPoolOnSameLB backendPoolID (poolIDs newBackendPools)
            else (true, "", None) in
          if notNil err then mret err
          else if negb isSameLB then mret None
          else
            let newBackendPools :=
              newBackendPools ++ [ {| ID := Some backendPoolID |} ] in
            let virtualMachineScaleSet :=
              vmssWithNetworkInterfaceConfigurations
                (setBackendPools nicIdx ipIdx newBackendPools networkConfigurations)
                virtualMachineScaleSet in
            err ← call (CreateOrUpdateVMSS virtualMachineScaleSet)
                    (createOrUpdateVMSS virtualMachineScaleSet);
            if notNil err then mret err
            else updateInstances.

End ScaleSets.

(** *** Sample platforms *)

(** The platform [simPlatform cfg] with a scale set behind [getScaleSet]
    (none for [None]), a fixed answer of the client to an update of a
    virtual machine, and provider IDs of the form
    [<scale set>/<instance>]. *)
Definition scaleSetPlatform (cfg : simConfig) (vmss : option VirtualMachineScaleSet)
  (updateAnswer : httpResponse * option error) : Platform simWorld := {|
  EqualFold := EqualFoldASCII;
  IsIPv6String := fun _ => false;
  scaleSetNameRE_FindStringSubmatch := fun providerID =>
    match String.index 0 "/" providerID with
    | Some i => [providerID; String.substring 0 i providerID]
    | None => []
    end;
  IPv6DualStackEnabled := sim_dualStack cfg;
  vmssVirtualMachinesKey := "k8svmssVirtualMachinesKey";
  vmPowerStatePrefix := "PowerState/";
  load := fun l w => sim_objects w !! l;
  store := simStore;
  timedCache_Get := simGet;
  timedCache_Delete := simDelete;
  useStandardLoadBalancer := fun _ => sim_standardLB cfg;
  mapNodeNameToVMName := fun nodeName => nodeName;
  isBackendPoolOnSameLB := fun _ _ =>
    (sim_sameLB cfg, if sim_sameLB cfg then "" else "other", None);
  shouldRetryHTTPRequest := fun _ err => notNil err;
  GetNodeResourceGroup := fun _ w => (("rg", None), w);
  deleteCacheForNode := simDeleteCacheForNode;
  UpdateVmssVMWithRetry := fun _ _ _ _ _ w => (None, w);
  getScaleSet := fun _ w =>
    match vmss with
    | Some v => ((v, true, None), w)
    | None => (({| vmss_Name := None; VirtualMachineProfile := None |}, false, None), w)
    end;
  createOrUpdateVMSS := fun _ w => (None, w);
  updateVMSSInstances := fun _ _ w => (None, w);
  VirtualMachineScaleSetVMsClient_Update := fun _ _ _ _ _ w => (updateAnswer, w)
|}.

(** A scale set with one network configuration and one IP configuration
    that is in the backend pools [pools]. *)
Definition scaleSetWithPools (pools : option (list SubResource))
  : VirtualMachineScaleSet :=
  {| vmss_Name := Some "vmss-a";
     VirtualMachineProfile := Some {|
       NetworkProfile := Some {|
         vmss_NetworkInterfaceConfigurations := Some [ {|
           nic_Name := Some "nic0";
           nic_Primary := Some true;
           IPConfigurations := Some [ {|
             ip_Name := Some "ipconfig0";
             ip_Primary := Some true;
             PrivateIPAddressVersion := IPv4;
             LoadBalancerBackendAddressPools := pools |} ] |} ] |} |} |}.

(** Nodes are told apart by their names: a master has the name
    [master]; the instance is what follows the first [/] of a provider
    ID; a service either names no mode or lists the scale sets
    [annotated]. *)
Definition simNodes (annotated : option (list string)) : NodePlatform simWorld := {|
  isMasterNode := fun node => String.eqb (node_Name node) "master";
  getLastSegment := fun id =>
    match String.index 0 "/" id with
    | Some i => (sliceFrom (S i) id, None)
    | None => ("", Some (ErrorString "resource name was missing from identifier"))
    end;
  getServiceLoadBalancerMode := fun _ =>
    match annotated with
    | Some names => (true, false, names)
    | None => (false, false, [])
    end;
  ShouldNodeExcludedFromLoadBalancer := fun _ _ => false;
  excludeMasterNodesFromStandardLB := fun _ => true;
  PrimaryScaleSetName := fun _ => "vmss-a"
|}.

(** A virtual machine that is being deleted: it has lost its network
    interface configurations. *)
Definition deletingVM : VirtualMachineScaleSetVM :=
  {| Sku := Some "Standard_D2";
     Location := Some "westus";
     HardwareProfile := None;
     InstanceView := None;
     NetworkProfileConfiguration :=
       Some {| NetworkInterfaceConfigurations := None |} |}.

(** A cloud with the backoff enabled. *)
Definition simCloudBackoff : Cloud :=
  {| CloudProviderBackoff := true; ResourceGroup := "rg" |}.

End AzureVmssSets.

(** ** azure_vmss.go: [getScaleSet]

    The method behind the operation [getScaleSet] of the platform, over
    the cache and the backoff configuration. *)

Module AzureVmssGetScaleSet.
Import Wait AzureBackoffWrappers AzureVmss.

(** The configuration of the backoff, read through [ss]
    (azure_config.go and azure_backoff.go). *)
Class BackoffConfig : Type := {
  shouldOmitCloudProviderBackoff : Cloud -> bool;
  RequestBackoff : Cloud -> Backoff
}.

(** [var result compute.VirtualMachineScaleSet]: the zero value. *)
Definition zeroVirtualMachineScaleSet : VirtualMachineScaleSet :=
  {| vmss_Name := None; VirtualMachineProfile := None |}.

Section GetScaleSet.
Context {W : Type} {P : Platform W} {B : BackoffConfig}.

(** The closure of [getScaleSetWithRetry] (lines 1477-1492); it assigns
    the captured [result] and [exists].  The cache it reads is
    [ss.vmssVMCache], under the name of the scale set. *)
Definition getScaleSetCondition (name : string)
  : VirtualMachineScaleSet * bool * state W ->
    outcome (bool * option error) * (VirtualMachineScaleSet * bool * state W) :=
  fun '(result, exists_, s) =>
    match cacheGet vmssVMCache name cacheReadTypeDefault s with
    | (Returns (cached, retryErr), s') =>
        if notNil retryErr then (Returns (false, None), (result, exists_, s'))
        else
          match cached with
          | cachedNil => (Returns (true, None), (result, exists_, s'))
          | cachedScaleSet vmss => (Returns (true, None), (vmss, true, s'))
          | cachedSyncMap _ => (Panics, (result, exists_, s'))
          end
    | (Panics, s') => (Panics, (result, exists_, s'))
    end.

(** [func (ss *scaleSet) getScaleSetWithRetry(service *v1.Service, name string)
      (compute.VirtualMachineScaleSet, bool, error)] *)
Definition getScaleSetWithRetry (ss : Cloud) (service : option Service)
  (name : string) : M W (VirtualMachineScaleSet * bool * option error) :=
  fun s =>
    let result := zeroVirtualMachineScaleSet in
    let exists_ := false in
    let '(err, (result, exists_, s')) :=
      ExponentialBackoffOrPanic (RequestBackoff ss) (getScaleSetCondition name)
        (result, exists_, s) in
    match err with
    | Returns err => (Returns (result, exists_, err), s')
    | Panics => (Panics, s')
    end.

(** [func (ss *scaleSet) getScaleSet(service *v1.Service, name string)
      (compute.VirtualMachineScaleSet, bool, error)] *)
Definition getScaleSet (ss : Cloud) (service : option Service) (name : string)
  : M W (VirtualMachineScaleSet * bool * option error) :=
  if shouldOmitCloudProviderBackoff ss then
    let result := zeroVirtualMachineScaleSet in
    let exists_ := false in
    '(cached, err) ← cacheGet vmssVMCache name cacheReadTypeDefault;
    if notNil err then mret (result, false, None)
    else
      match cached with
      | cachedNil => mret (result, exists_, err)
      | cachedScaleSet vmss => mret (vmss, true, err)
      | cachedSyncMap _ => panic
      end
  else getScaleSetWithRetry ss service name.

End GetScaleSet.

(** A cache that fails every read, over a world that counts the reads. *)
Definition failingCache : Platform nat := {|
  EqualFold := EqualFoldASCII;
  IsIPv6String := fun _ => false;
  scaleSetNameRE_FindStringSubmatch := fun _ => [];
  IPv6DualStackEnabled := false;
  vmssVirtualMachinesKey := "k8svmssVirtualMachinesKey";
  vmPowerStatePrefix := "PowerState/";
  load := fun _ _ => None;
  store := fun _ _ w => w;
  timedCache_Get := fun _ _ _ w =>
    ((cachedNil, Some (ErrorString "cache unavailable")), S w);
  timedCache_Delete := fun _ _ w => w;
  useStandardLoadBalancer := fun _ => false;
  mapNodeNameToVMName := fun nodeName => nodeName;
  isBackendPoolOnSameLB := fun _ _ => (true, "", None);
  shouldRetryHTTPRequest := fun _ err => notNil err;
  GetNodeResourceGroup := fun _ w => (("rg", None), w);
  deleteCacheForNode := fun _ w => w;
  UpdateVmssVMWithRetry := fun _ _ _ _ _ w => (None, w);
  AzureVmss.getScaleSet := fun _ w =>
    (({| vmss_Name := None; VirtualMachineProfile := None |}, false, None), w);
  createOrUpdateVMSS := fun _ w => (None, w);
  updateVMSSInstances := fun _ _ w => (None, w);
  VirtualMachineScaleSetVMsClient_Update := fun _ _ _ _ _ w => ((Some 200, None), w)
|}.

(** No backoff, and a backoff of three steps. *)
Definition withoutBackoff : BackoffConfig := {|
  shouldOmitCloudProviderBackoff := fun _ => true;
  RequestBackoff := fun _ =>
    {| Duration := 0; Factor := 0%float; Jitter := 0%float; Steps := 0 |}
|}.

Definition threeSteps : BackoffConfig := {|
  shouldOmitCloudProviderBackoff := fun _ => false;
  RequestBackoff := fun _ =>
    {| Duration := 1; Factor := 2%float; Jitter := 0%float; Steps := 3 |}
|}.

End AzureVmssGetScaleSet.

(** * Properties *)

(** ** The backoff loop *)

Module WaitFacts.
Import Wait.

Lemma backoffLoop_one {S} (condition : ConditionFunc S) (s : S) :
  backoffLoop 1 condition s =
    let '((ok, err), s') := condition s in
    (if notNil err || ok then err else Some ErrWaitTimeout, s').
Proof.
  simpl. destruct (condition s) as [[ok err] s'].
  destruct (notNil err || ok); reflexivity.
Qed.

Lemma backoffLoop_zero {S} (condition : ConditionFunc S) (s : S) :
  backoffLoop 0 condition s = (Some ErrWaitTimeout, s).
Proof. reflexivity. Qed.

(** A condition that reports its own error never runs twice. *)
Lemma backoffLoop_no_retry {S} (condition : ConditionFunc S) (n : nat) (s : S) :
  (forall s0, notNil (condition s0).1.2 || (condition s0).1.1 = true) ->
  backoffLoop (Datatypes.S n) condition s = ((condition s).1.2, (condition s).2).
Proof.
  intros Hc. simpl. specialize (Hc s).
  destruct (condition s) as [[ok err] s']. simpl in *.
  rewrite Hc. reflexivity.
Qed.

End WaitFacts.

(** ** azure_backoff.go *)

Module AzureBackoffSpec.
Import Wait WaitFacts AzureBackoff.

Lemma isSuccessHTTPResponse_2xx (resp : autorest_Response) (r : http_Response) :
  Response resp = Some r ->
  isSuccessHTTPResponse resp = Returns (bool_decide (200 <= StatusCode r <= 299)).
Proof.
  intros Hr. unfold isSuccessHTTPResponse. rewrite Hr. f_equal.
  destruct (Z.ltb_spec 199 (StatusCode r)), (Z.ltb_spec (StatusCode r) 300);
    simpl; symmetry;
    first [ apply bool_decide_eq_true; lia | apply bool_decide_eq_false; lia ].
Qed.

Lemma shouldRetryAPIRequest_4xx_5xx
  (resp : autorest_Response) (r : http_Response) (err : option error) :
  Response resp = Some r ->
  shouldRetryAPIRequest resp err
    = Returns (bool_decide (err <> None \/ 400 <= StatusCode r <= 599)).
Proof.
  intros Hr. unfold shouldRetryAPIRequest. rewrite Hr.
  destruct err as [e|]; simpl.
  - reflexivity.
  - f_equal.
    destruct (Z.ltb_spec 399 (StatusCode r)), (Z.ltb_spec (StatusCode r) 600);
      simpl; symmetry;
      first [ apply bool_decide_eq_true; right; lia
            | apply bool_decide_eq_false; intros [?|?]; [congruence | lia] ].
Qed.

Lemma processRetryResponse_eq_cases
  (resp : autorest_Response) (r : http_Response) (err : option error) :
  Response resp = Some r ->
  processRetryResponse resp err
    = Returns (processRetryResponse_cases (StatusCode r) err).
Proof.
  intros Hr. unfold processRetryResponse, processRetryResponse_cases.
  rewrite (isSuccessHTTPResponse_2xx resp r Hr),
    (shouldRetryAPIRequest_4xx_5xx resp r err Hr).
  destruct (decide (200 <= StatusCode r <= 299)) as [H2|H2].
  - rewrite bool_decide_eq_true_2 by assumption. reflexivity.
  - rewrite bool_decide_eq_false_2 by assumption.
    destruct (decide (err <> None \/ 400 <= StatusCode r <= 599)) as [H4|H4].
    + rewrite bool_decide_eq_true_2 by assumption. reflexivity.
    + rewrite bool_decide_eq_false_2 by assumption. reflexivity.
Qed.

(** C2 (as amended).  For a response that carries an HTTP status code,
    [processRetryResponse] falls into three cases: for the codes 200..299,
    whatever [err] is, it returns [(true, nil)]; outside 2xx it returns
    [(false, nil)] exactly when [err] is not nil or the code is in
    400..599; in every other case it returns [(true, err)], and [err] is
    nil there.  So it returns [(true, nil)] exactly when the code is in
    200..299, or [err] is nil and the code is outside 400..599. *)
Theorem processRetryResponse_three_cases
  (resp : autorest_Response) (r : http_Response) (err : option error) :
  Response resp = Some r ->
  processRetryResponse resp err
    = Returns (processRetryResponse_cases (StatusCode r) err)
  /\ (200 <= StatusCode r <= 299 ->
      processRetryResponse resp err = Returns (true, None))
  /\ (processRetryResponse resp err = Returns (true, None) <->
      200 <= StatusCode r <= 299
      \/ (err = None /\ ~ 400 <= StatusCode r <= 599))
  /\ (~ 200 <= StatusCode r <= 299 ->
      (processRetryResponse resp err = Returns (false, None)
       <-> (err <> None \/ 400 <= StatusCode r <= 599)))
  /\ (~ 200 <= StatusCode r <= 299 ->
      ~ (err <> None \/ 400 <= StatusCode r <= 599) ->
      err = None /\ processRetryResponse resp err = Returns (true, err)).
Proof.
  intros Hr.
  rewrite (processRetryResponse_eq_cases resp r err Hr).
  unfold processRetryResponse_cases.
  split; [reflexivity|]. split; [|split; [|split]].
  - intros H2. destruct (decide (200 <= StatusCode r <= 299)); [reflexivity|].
    contradiction.
  - destruct (decide (200 <= StatusCode r <= 299)) as [H2|H2].
    { split; [intros _; left; exact H2 | reflexivity]. }
    destruct (decide (err <> None \/ 400 <= StatusCode r <= 599)) as [H4|H4].
    + split; [discriminate|].
      intros [H|[Herr Hcode]]; [contradiction|].
      destruct H4 as [H4|H4]; contradiction.
    + split.
      * intros [= ->]. right. split; [reflexivity|].
        intros Hcode. apply H4. right. exact Hcode.
      * intros [H|[-> _]]; [contradiction | reflexivity].
  - intros H2.
    destruct (decide (200 <= StatusCode r <= 299)); [contradiction|].
    destruct (decide (err <> None \/ 400 <= StatusCode r <= 599)) as [H4|H4].
    + split; [intros _; exact H4 | reflexivity].
    + split; [discriminate | contradiction].
  - intros H2 H4.
    destruct (decide (200 <= StatusCode r <= 299)); [contradiction|].
    destruct (decide (err <> None \/ 400 <= StatusCode r <= 599));
      [contradiction|].
    split; [|reflexivity].
    destruct err as [e|]; [|reflexivity].
    exfalso. apply H4. left. discriminate.
Qed.

Lemma processRetryResponse_three_cases_witness :
  processRetryResponse {| Response := Some {| StatusCode := 404 |} |} None
    = Returns (false, None).
Proof.
  pose proof (processRetryResponse_three_cases
    {| Response := Some {| StatusCode := 404 |} |}
    {| StatusCode := 404 |} None eq_refl) as [H _].
  exact H.
Defined.

(** C2, counterexample.  A redirect that comes with no error is not in
    200..299, and [processRetryResponse] still returns [(true, nil)]: the
    fall-through stops the backoff with the error of the request, which
    is nil. *)
Lemma processRetryResponse_redirect_counterexample :
  processRetryResponse {| Response := Some {| StatusCode := 302 |} |} None
    = Returns (true, None)
  /\ ~ (200 <= 302 <= 299).
Proof. split; [reflexivity | lia]. Qed.

(** *** [GetVirtualMachineWithRetry] *)

Section GetVirtualMachineFacts.
Context {W : Type} (VirtualMachine : Type) (zeroVirtualMachine : VirtualMachine).
Context (getVirtualMachine : Cloud -> string -> St W (VirtualMachine * option error)).
Context (az : Cloud) (name : string).

#[local] Abbreviation condition := (getVirtualMachineCondition VirtualMachine getVirtualMachine az name).
#[local] Abbreviation attempt := (attempt VirtualMachine getVirtualMachine az name).
#[local] Abbreviation worldAfter := (worldAfter VirtualMachine getVirtualMachine az name).

(** When every attempt fails the loop times out, and the captured
    variables hold the result of the last attempt. *)
Lemma backoffLoop_all_fail (n : nat) :
  forall (m0 : VirtualMachine) (e0 : option error) (w : W),
    (forall i, (i <= n)%nat -> (attempt i w).2 <> None) ->
    backoffLoop (S n) condition (m0, e0, w)
      = (Some ErrWaitTimeout, ((attempt n w).1, (attempt n w).2, worldAfter (S n) w)).
Proof.
  induction n as [|n IH]; intros m0 e0 w Hfail.
  - specialize (Hfail 0%nat (le_n _)). unfold attempt in *. simpl in *.
    unfold getVirtualMachineCondition.
    destruct (getVirtualMachine az name w) as [[m re] w']. simpl in *.
    destruct re as [e|]; [reflexivity | congruence].
  - assert (H0 := Hfail 0%nat (Nat.le_0_l _)).
    change (backoffLoop (S (S n)) condition (m0, e0, w)) with
      (let '((ok, err), s') := condition (m0, e0, w) in
       if notNil err || ok then (err, s') else backoffLoop (S n) condition s').
    unfold attempt in H0. simpl in H0.
    unfold getVirtualMachineCondition at 1.
    destruct (getVirtualMachine az name w) as [[m re] w'] eqn:Hw. simpl in H0.
    destruct re as [e|]; [|congruence]. simpl notNil. cbv iota beta.
    simpl orb. cbv iota.
    rewrite (IH m (Some e) w').
    + unfold attempt. simpl. rewrite Hw. reflexivity.
    + intros i Hi. specialize (Hfail (S i) (le_n_S _ _ Hi)).
      unfold attempt in *. simpl in Hfail. rewrite Hw in Hfail. exact Hfail.
Qed.

(** The loop itself only ever reports success or its own timeout, and
    the captured [retryErr] is the initial one or comes from a call of
    [getVirtualMachine]. *)
Lemma backoffLoop_retryErr (n : nat) :
  forall (m0 : VirtualMachine) (e0 : option error) (w : W) err m re w',
    backoffLoop n condition (m0, e0, w) = (err, (m, re, w')) ->
    (err = None \/ err = Some ErrWaitTimeout)
    /\ (re = e0 \/ exists w0, re = (getVirtualMachine az name w0).1.2).
Proof.
  induction n as [|n IH]; intros m0 e0 w err m re w' Hrun.
  - simpl in Hrun. injection Hrun as <- <- <- <-. split; [right|left]; reflexivity.
  - simpl in Hrun. unfold getVirtualMachineCondition at 1 in Hrun.
    destruct (getVirtualMachine az name w) as [[m1 e1] w1] eqn:Hw.
    destruct e1 as [e|]; simpl in Hrun.
    + apply IH in Hrun as [Herr [->|Hre]]; (split; [exact Herr|]).
      * right. exists w. rewrite Hw. reflexivity.
      * right. exact Hre.
    + injection Hrun as <- <- <- <-. split; [left; reflexivity|].
      right. exists w. rewrite Hw. reflexivity.
Qed.

(** C8.  [GetVirtualMachineWithRetry] does not hand out the timeout of
    the backoff loop: as long as [getVirtualMachine] does not itself
    return [wait.ErrWaitTimeout], neither does the wrapper; and when
    every attempt fails, the machine and the error returned are those of
    the most recent attempt. *)
Theorem GetVirtualMachineWithRetry_last_error (w : W) :
  ((forall w0, (getVirtualMachine az name w0).1.2 <> Some ErrWaitTimeout) ->
     (GetVirtualMachineWithRetry VirtualMachine zeroVirtualMachine
        getVirtualMachine az name w).1.2 <> Some ErrWaitTimeout)
  /\ (forall n : nat,
        Z.to_nat (Steps (requestBackoff az)) = S n ->
        (forall i, (i <= n)%nat -> (attempt i w).2 <> None) ->
        GetVirtualMachineWithRetry VirtualMachine zeroVirtualMachine
          getVirtualMachine az name w
          = (attempt n w, worldAfter (S n) w)).
Proof.
  unfold GetVirtualMachineWithRetry, ExponentialBackoff. split.
  - intros Hnot.
    destruct (backoffLoop _ condition (zeroVirtualMachine, None, w))
      as [err [[m re] w']] eqn:Hrun.
    apply backoffLoop_retryErr in Hrun as [Herr Hre]. simpl.
    destruct (decide (err = Some ErrWaitTimeout)) as [->|Hne].
    + destruct Hre as [->|[w0 ->]]; [discriminate | apply Hnot].
    + exact Hne.
  - intros n -> Hfail. rewrite (backoffLoop_all_fail n _ _ _ Hfail).
    rewrite decide_True by reflexivity.
    destruct (attempt n w); reflexivity.
Qed.

End GetVirtualMachineFacts.

Lemma GetVirtualMachineWithRetry_last_error_witness :
  GetVirtualMachineWithRetry nat 0%nat throttledTwice cloudWithBackoff "vm-0" 0%nat
  = ((1%nat, Some (ErrorString "throttled")), 2%nat).
Proof.
  refine (proj2 (GetVirtualMachineWithRetry_last_error nat 0%nat throttledTwice
                   cloudWithBackoff "vm-0" 0%nat) 1%nat eq_refl _).
  intros [|[|i]] Hi; simpl; [discriminate | discriminate | lia].
Defined.

(** *** [ListLBWithRetry] *)

Section ListLBFacts.
Context {W : Type} (LoadBalancer Page : Type) (zeroPage : Page).
Context (PageResponse : Page -> LoadBalancerListResult LoadBalancer).
Context (PageNext : Page -> St W (Page * option error)).
Context (LoadBalancerClient_List : string -> St W (Page * option error)).

#[local] Abbreviation listNextCondition := (listNextCondition LoadBalancer Page PageResponse PageNext).
#[local] Abbreviation listCondition := (listCondition LoadBalancer Page PageResponse LoadBalancerClient_List).
#[local] Abbreviation listLoop := (listLoop LoadBalancer Page PageResponse PageNext).
#[local] Abbreviation pagesFrom := (pagesFrom LoadBalancer Page PageResponse PageNext).
#[local] Abbreviation nextPage := (nextPage LoadBalancer Page PageResponse PageNext).
#[local] Abbreviation firstPage :=
  (firstPage LoadBalancer Page zeroPage PageResponse LoadBalancerClient_List).
#[local] Abbreviation ListLBWithRetry :=
  (ListLBWithRetry LoadBalancer Page zeroPage PageResponse PageNext LoadBalancerClient_List).

(** Under the backoff a page is fetched with at most one call: the
    closures report the error of the SDK, which ends the loop. *)
Lemma listNext_nextPage (az : Cloud) (s : listState LoadBalancer Page) :
  ExponentialBackoff (requestBackoff az) listNextCondition s = nextPage az s.
Proof.
  unfold ExponentialBackoff, nextPage, AzureBackoff.nextPage.
  destruct (decide (1 <= Steps (requestBackoff az))) as [Hsteps|Hsteps].
  - destruct (Z.to_nat (Steps (requestBackoff az))) as [|n] eqn:Hn; [lia|].
    rewrite backoffLoop_no_retry.
    + destruct s as [[result page] w]. simpl.
      destruct (PageNext page w) as [[page' [e|]] w']; reflexivity.
    + intros [[result page] w]. simpl.
      destruct (PageNext page w) as [[page' [e|]] w']; reflexivity.
  - replace (Z.to_nat (Steps (requestBackoff az))) with 0%nat by lia.
    reflexivity.
Qed.

Lemma listFirst_firstPage (az : Cloud) (w : W) :
  ExponentialBackoff (requestBackoff az) (listCondition az)
    ({| Value := None; NextLink := None |}, zeroPage, w)
  = firstPage az w.
Proof.
  unfold ExponentialBackoff, firstPage, AzureBackoff.firstPage.
  destruct (decide (1 <= Steps (requestBackoff az))) as [Hsteps|Hsteps].
  - destruct (Z.to_nat (Steps (requestBackoff az))) as [|n] eqn:Hn; [lia|].
    rewrite backoffLoop_no_retry.
    + simpl.
      destruct (LoadBalancerClient_List (ResourceGroup az) w)
        as [[page' [e|]] w']; reflexivity.
    + intros [[result page] w0]. simpl.
      destruct (LoadBalancerClient_List (ResourceGroup az) w0)
        as [[page' [e|]] w']; reflexivity.
  - replace (Z.to_nat (Steps (requestBackoff az))) with 0%nat by lia.
    reflexivity.
Qed.

Lemma listLoop_done (fuel : nat) (az : Cloud) (allLBs : list LoadBalancer)
  (s : listState LoadBalancer Page) :
  listLoop fuel az false allLBs s = Some (allLBs, None, s.2).
Proof. destruct s as [[result page] w], fuel; reflexivity. Qed.

Lemma listLoop_turn (fuel : nat) (az : Cloud) (allLBs : list LoadBalancer)
  (s : listState LoadBalancer Page) :
  listLoop (S fuel) az true allLBs s =
    match NextLink LoadBalancer s.1.1 with
    | Some _ =>
        let '(err, s') :=
          ExponentialBackoff (requestBackoff az) listNextCondition s in
        match err with
        | Some e => Some (allLBs ++ values LoadBalancer s.1.1, Some e, s'.2)
        | None =>
            listLoop fuel az (hasValues LoadBalancer s'.1.1)
              (allLBs ++ values LoadBalancer s.1.1) s'
        end
    | None => Some (allLBs ++ values LoadBalancer s.1.1, None, s.2)
    end.
Proof. destruct s as [[result page] w]. reflexivity. Qed.

(** The loop appends the values of the pages it walks through. *)
Lemma listLoop_pagesFrom (az : Cloud) (s : listState LoadBalancer Page)
  (vs : list (list LoadBalancer)) (err : option error) (w' : W) :
  pagesFrom az s vs err w' ->
  forall (allLBs : list LoadBalancer) (fuel : nat),
    (length vs <= fuel)%nat ->
    listLoop fuel az (hasValues LoadBalancer s.1.1) allLBs s
      = Some (allLBs ++ concat vs, err, w').
Proof.
  induction 1 as [s Hv | s Hv Hl | s link e s' Hv Hl Hf
                 | s link s' vs err w' Hv Hl Hf Hrest IH];
    intros allLBs fuel Hfuel; rewrite Hv.
  - rewrite listLoop_done, concat_nil, app_nil_r. reflexivity.
  - destruct fuel as [|fuel]; [simpl in Hfuel; lia|].
    rewrite listLoop_turn, Hl, concat_cons, concat_nil, app_nil_r.
    reflexivity.
  - destruct fuel as [|fuel]; [simpl in Hfuel; lia|].
    rewrite listLoop_turn, Hl, listNext_nextPage, Hf.
    rewrite concat_cons, concat_nil, app_nil_r. reflexivity.
  - destruct fuel as [|fuel]; [simpl in Hfuel; lia|].
    rewrite listLoop_turn, Hl, listNext_nextPage, Hf.
    rewrite IH by (simpl in Hfuel; lia).
    rewrite concat_cons, app_assoc. reflexivity.
Qed.

(** C6.  Once the first page is there, [ListLBWithRetry] returns the
    concatenation, in order, of the values of the pages reached by
    following [NextLink], up to a page without values or without
    [NextLink]; when a later page cannot be fetched, it returns what it
    has accumulated together with that error.  When the first page cannot
    be fetched it returns no load balancer and the error. *)
Theorem ListLBWithRetry_concat_pages (az : Cloud) (w : W) :
  (forall e s,
      firstPage az w = (Some e, s) ->
      forall fuel, ListLBWithRetry fuel az w = Some ([], Some e, s.2))
  /\ (forall s vs err w',
        firstPage az w = (None, s) ->
        pagesFrom az s vs err w' ->
        forall fuel, (length vs <= fuel)%nat ->
          ListLBWithRetry fuel az w = Some (concat vs, err, w')).
Proof.
  unfold ListLBWithRetry, AzureBackoff.ListLBWithRetry.
  rewrite listFirst_firstPage. split.
  - intros e s Hfirst fuel. rewrite Hfirst. reflexivity.
  - intros s vs err w' Hfirst Hpages fuel Hfuel.
    rewrite Hfirst.
    apply (listLoop_pagesFrom az s vs err w' Hpages [] fuel Hfuel).
Qed.

End ListLBFacts.

Lemma ListLBWithRetry_concat_pages_witness :
  ListLBWithRetry string scriptedPage {| Value := None; NextLink := None |}
    id scriptedNext scriptedList 2 cloudWithoutBackoff twoPages
  = Some (["lb-a"; "lb-b"; "lb-c"], None, []).
Proof.
  refine (proj2 (ListLBWithRetry_concat_pages string scriptedPage _ id
                   scriptedNext scriptedList cloudWithoutBackoff twoPages)
            _ [["lb-a"; "lb-b"]; ["lb-c"]] None [] eq_refl _ 2%nat (le_n _)).
  eapply pagesFrom_next; [reflexivity | reflexivity | reflexivity |].
  apply (pagesFrom_last string scriptedPage id scriptedNext cloudWithoutBackoff
           ({| Value := Some ["lb-c"]; NextLink := None |},
            {| Value := Some ["lb-c"]; NextLink := None |}, [])
           eq_refl eq_refl).
Defined.

End AzureBackoffSpec.

(** ** Go strings and numbers *)

Module GoFacts.

Lemma length_sliceFrom (i : nat) (s : string) :
  (i <= String.length s)%nat ->
  String.length (sliceFrom i s) = (String.length s - i)%nat.
Proof.
  revert s. induction i as [|i IH]; intros s Hi.
  - simpl. lia.
  - destruct s as [|c s]; simpl in *; [lia|]. apply IH. lia.
Qed.

Lemma digitOf_range (c : ascii) (d : Z) : digitOf c = Some d -> 0 <= d < 36.
Proof.
  unfold digitOf.
  destruct (N.leb_spec 48 (N_of_ascii c)), (N.leb_spec (N_of_ascii c) 57);
    simpl; try (intros [= <-]; lia);
    destruct (N.leb_spec 97 (lower c)), (N.leb_spec (lower c) 122);
    simpl; try discriminate; intros [= <-]; lia.
Qed.

(** On a string short enough not to overflow, the loop of [ParseUint]
    computes the base-36 value. *)
Lemma parseUintLoop_base36 (s : string) :
  forall n : Z,
    0 <= n ->
    (n + 1) * 36 ^ Z.of_nat (String.length s) <= 2 ^ 64 ->
    parseUintLoop 36 (maxUint64 / 36 + 1) maxUint64 s n =
      match base36From s n with
      | Some v => (v, None)
      | None => (0, Some syntaxError)
      end.
Proof.
  induction s as [|c s IH]; intros n Hn Hbound; [reflexivity|].
  cbn [parseUintLoop base36From].
  destruct (digitOf c) as [d|] eqn:Hd; [|reflexivity].
  apply digitOf_range in Hd.
  cbn [String.length] in Hbound. rewrite Nat2Z.inj_succ, Z.pow_succ_r in Hbound by lia.
  assert (Hpow : 0 < 36 ^ Z.of_nat (String.length s))
    by (apply Z.pow_pos_nonneg; lia).
  assert (Hn36 : (n + 1) * 36 <= 2 ^ 64) by nia.
  destruct (Z.geb_spec d 36) as [?|_]; [lia|].
  assert (Hcut : maxUint64 / 36 + 1 = 512409557603043101) by reflexivity.
  rewrite Hcut.
  change (2 ^ 64) with 18446744073709551616 in *.
  destruct (Z.geb_spec n 512409557603043101) as [?|_]; [lia|].
  cbv zeta.
  rewrite (Z.mod_small (n * 36)) by lia.
  rewrite (Z.mod_small (n * 36 + d)) by lia.
  destruct (Z.ltb_spec (n * 36 + d) (n * 36)) as [?|_]; [lia|].
  unfold maxUint64. change (2 ^ 64 - 1) with 18446744073709551615.
  destruct (Z.gtb_spec (n * 36 + d) 18446744073709551615) as [?|_]; [lia|].
  simpl orb. cbv iota.
  apply IH; [lia|]. nia.
Qed.

Lemma ParseUint_six_bytes (s : string) :
  String.length s = 6%nat ->
  ParseUint s 36 =
    match base36 s with
    | Some v => (v, None)
    | None => (0, Some syntaxError)
    end.
Proof.
  intros Hlen. unfold ParseUint, len. rewrite Hlen. simpl Z.eqb. cbv iota.
  simpl andb. cbv iota zeta.
  rewrite parseUintLoop_base36.
  - destruct s; [discriminate|]. reflexivity.
  - lia.
  - rewrite Hlen. vm_compute. discriminate.
Qed.

(** The checks of [ParseUint] at work: thirteen digits [z] overflow 64
    bits, twelve do not; signs and underscores are no digits. *)
Example ParseUint_out_of_range :
  ParseUint "zzzzzzzzzzzzz" 36 = (maxUint64, Some rangeError)
  /\ ParseUint "zzzzzzzzzzzz" 36 = (36 ^ 12 - 1, None).
Proof. split; vm_compute; reflexivity. Qed.

Example ParseUint_no_digit :
  ParseUint "+0000a" 36 = (0, Some syntaxError)
  /\ ParseUint "00_00a" 36 = (0, Some syntaxError)
  /\ ParseUint "" 36 = (0, Some syntaxError)
  /\ ParseUint "00000Z" 36 = (35, None).
Proof. repeat split; vm_compute; reflexivity. Qed.

(** [TrimPrefix] takes the prefix off. *)
Lemma HasPrefix_sliceFrom (prefix s : string) :
  HasPrefix s prefix = true ->
  (prefix ++ sliceFrom (String.length prefix) s)%string = s.
Proof.
  unfold HasPrefix. revert s.
  induction prefix as [|a prefix IH]; intros s Hp; [reflexivity|].
  destruct s as [|b s]; simpl in Hp; [discriminate|].
  destruct (Ascii.ascii_dec a b) as [->|]; [|discriminate].
  change (String b (prefix ++ sliceFrom (String.length prefix) s)%string
          = String b s).
  f_equal. apply IH, Hp.
Qed.

Lemma TrimPrefix_strips (prefix s : string) :
  HasPrefix s prefix = true ->
  (prefix ++ TrimPrefix s prefix)%string = s.
Proof.
  intros Hp. unfold TrimPrefix. rewrite Hp. apply HasPrefix_sliceFrom, Hp.
Qed.

End GoFacts.

(** ** azure_vmss.go *)

Module AzureVmssSpec.
Import GoFacts AzureVmss.

(** *** [getScaleSetVMInstanceID] *)

(** C7.  [getScaleSetVMInstanceID] returns [ErrorNotVmssInstance] for a
    machine name of fewer than 6 bytes and for one whose last 6 bytes are
    not a base-36 number; for every other name it returns the decimal
    representation of the base-36 value of the last 6 bytes. *)
Theorem getScaleSetVMInstanceID_base36 (machineName : string) :
  ((String.length machineName < 6)%nat
   \/ base36 (sliceFrom (String.length machineName - 6) machineName) = None ->
   getScaleSetVMInstanceID machineName = ("", Some ErrorNotVmssInstance))
  /\ (forall v : Z,
        (6 <= String.length machineName)%nat ->
        base36 (sliceFrom (String.length machineName - 6) machineName) = Some v ->
        getScaleSetVMInstanceID machineName = (Sprintf_d v, None)).
Proof.
  unfold getScaleSetVMInstanceID, len.
  destruct (Z.ltb_spec (Z.of_nat (String.length machineName)) 6) as [Hshort|Hlong].
  - split; [reflexivity|]. intros v Hlen _. lia.
  - replace (Z.to_nat (Z.of_nat (String.length machineName) - 6))
      with (String.length machineName - 6)%nat by lia.
    rewrite ParseUint_six_bytes by (rewrite length_sliceFrom; lia).
    split.
    + intros [Hlen|Hnone]; [lia|]. rewrite Hnone. reflexivity.
    + intros v _ Hsome. rewrite Hsome. reflexivity.
Qed.

Lemma getScaleSetVMInstanceID_base36_witness :
  getScaleSetVMInstanceID "k8s-agentpool-vmss00000a" = ("10", None).
Proof.
  exact (proj2 (getScaleSetVMInstanceID_base36 "k8s-agentpool-vmss00000a")
           10 ltac:(simpl; lia) eq_refl).
Defined.

Section ScaleSetFacts.
Context {W : Type} {P : Platform W}.

(** *** [getVmssVM] *)

Lemma getVmssVM_getter_run (nodeName : string) (crt : cacheReadType) (s : state W) :
  getVmssVM_getter nodeName crt s =
    let '((cached, err), w') :=
      timedCache_Get vmssVMCache vmssVirtualMachinesKey crt (world s) in
    let s' := mkState w'
      (log s ++ [CacheGet vmssVMCache vmssVirtualMachinesKey crt]) in
    if notNil err then (Returns ("", "", None, err), s')
    else
      match cached with
      | cachedSyncMap m => (Returns (entryOf m nodeName), s')
      | _ => (Panics, s')
      end.
Proof.
  unfold getVmssVM_getter, cacheGet, call, mbind, M_bind, entryOf.
  destruct (timedCache_Get vmssVMCache vmssVirtualMachinesKey crt (world s))
    as [[c err] w'].
  destruct err as [e|]; [reflexivity|]. simpl.
  destruct c as [|m|vmss]; try reflexivity.
  simpl. destruct (m !! nodeName); reflexivity.
Qed.

(** [getVmssVM] on a node name that [getScaleSetVMInstanceID] accepts, in
    terms of its closure. *)
Lemma getVmssVM_run (nodeName : string) (crt : cacheReadType) (s : state W) :
  (getScaleSetVMInstanceID nodeName).2 = None ->
  getVmssVM nodeName crt s =
    match getVmssVM_getter nodeName crt s with
    | (Returns (ssName, id, vm, err), s1) =>
        if notNil err then (Returns ("", "", None, err), s1)
        else if notNil vm then (Returns (ssName, id, vm, None), s1)
        else
          match getVmssVM_getter nodeName crt
                  (mkState
                     (timedCache_Delete vmssVMCache vmssVirtualMachinesKey (world s1))
                     (log s1 ++ [CacheDelete vmssVMCache vmssVirtualMachinesKey]))
          with
          | (Returns (ssName, id, vm, err), s2) =>
              if notNil err then (Returns ("", "", None, err), s2)
              else if notNil vm then (Returns (ssName, id, vm, None), s2)
              else (Returns ("", "", None, Some InstanceNotFound), s2)
          | (Panics, s2) => (Panics, s2)
          end
    | (Panics, s1) => (Panics, s1)
    end.
Proof.
  intros Hacc. unfold getVmssVM.
  destruct (getScaleSetVMInstanceID nodeName) as [i err]. simpl in Hacc.
  subst err. simpl. unfold mbind, M_bind.
  destruct (getVmssVM_getter nodeName crt s) as [[[[[n1 i1] vm1] e1]|] s1];
    [|reflexivity].
  destruct e1 as [e|]; [reflexivity|]. destruct vm1 as [l|]; [reflexivity|].
  simpl. unfold cacheDelete, call. simpl.
  destruct (getVmssVM_getter nodeName crt _) as [[[[[n2 i2] vm2] e2]|] s2];
    [|reflexivity].
  destruct e2 as [e|]; [reflexivity|]. destruct vm2; reflexivity.
Qed.

Lemma entryOf_no_error (m : gmap string vmssVirtualMachinesEntry) (nodeName : string) :
  (entryOf m nodeName).2 = None.
Proof. unfold entryOf. destruct (m !! nodeName); reflexivity. Qed.

(** C1 (as amended).  For a node name that [getScaleSetVMInstanceID]
    rejects, [getVmssVM] returns [ErrorNotVmssInstance] without touching
    the cache.  For every other node name it reads [vmssVMCache] under
    [vmssVirtualMachinesKey]; when the entry of the node is there, that
    is all; when it is absent, it deletes that key, reads once more, and
    returns [InstanceNotFound] with empty names if the entry is still
    absent. *)
Theorem getVmssVM_refresh_on_miss
  (nodeName : string) (crt : cacheReadType) (s : state W) :
  ((getScaleSetVMInstanceID nodeName).2 <> None ->
     getVmssVM nodeName crt s
       = (Returns ("", "", None, Some ErrorNotVmssInstance), s))
  /\ ((getScaleSetVMInstanceID nodeName).2 = None ->
      forall m1 w1,
        timedCache_Get vmssVMCache vmssVirtualMachinesKey crt (world s)
          = ((cachedSyncMap m1, None), w1) ->
        (forall l, (entryOf m1 nodeName).1.2 = Some l ->
           getVmssVM nodeName crt s
             = (Returns (entryOf m1 nodeName),
                mkState w1
                  (log s ++ [CacheGet vmssVMCache vmssVirtualMachinesKey crt])))
        /\ ((entryOf m1 nodeName).1.2 = None ->
            forall m2 w2,
              timedCache_Get vmssVMCache vmssVirtualMachinesKey crt
                (timedCache_Delete vmssVMCache vmssVirtualMachinesKey w1)
                = ((cachedSyncMap m2, None), w2) ->
              getVmssVM nodeName crt s
                = (Returns
                     (if notNil (entryOf m2 nodeName).1.2
                      then entryOf m2 nodeName
                      else ("", "", None, Some InstanceNotFound)),
                   mkState w2
                     (log s ++
                        [CacheGet vmssVMCache vmssVirtualMachinesKey crt;
                         CacheDelete vmssVMCache vmssVirtualMachinesKey;
                         CacheGet vmssVMCache vmssVirtualMachinesKey crt])))).
Proof.
  split.
  - intros Hrej. unfold getVmssVM, getScaleSetVMInstanceID in *.
    destruct (len nodeName <? 6); [reflexivity|].
    destruct (ParseUint _ 36) as [n [e|]]; [reflexivity|].
    simpl in Hrej. congruence.
  - intros Hacc m1 w1 Hget1.
    rewrite (getVmssVM_run nodeName crt s Hacc).
    rewrite getVmssVM_getter_run, Hget1. simpl.
    pose proof (entryOf_no_error m1 nodeName) as He1.
    destruct (entryOf m1 nodeName) as [[[n1 i1] vm1] e1]. simpl in He1.
    subst e1. simpl. split.
    + intros l ->. reflexivity.
    + intros -> m2 w2 Hget2. simpl.
      rewrite getVmssVM_getter_run. simpl. rewrite Hget2. simpl.
      pose proof (entryOf_no_error m2 nodeName) as He2.
      destruct (entryOf m2 nodeName) as [[[n2 i2] vm2] e2]. simpl in He2.
      subst e2. simpl. rewrite <- !app_assoc. simpl.
      destruct vm2; reflexivity.
Qed.

(** An error of the cache is returned as it is, with empty names. *)
Lemma getVmssVM_cache_error
  (nodeName : string) (crt : cacheReadType) (s : state W) c e w1 :
  (getScaleSetVMInstanceID nodeName).2 = None ->
  timedCache_Get vmssVMCache vmssVirtualMachinesKey crt (world s)
    = ((c, Some e), w1) ->
  getVmssVM nodeName crt s
    = (Returns ("", "", None, Some e),
       mkState w1 (log s ++ [CacheGet vmssVMCache vmssVirtualMachinesKey crt])).
Proof.
  intros Hacc Hget. rewrite (getVmssVM_run nodeName crt s Hacc).
  rewrite getVmssVM_getter_run, Hget. reflexivity.
Qed.

(** Whenever [getVmssVM] returns without error, it returns a virtual
    machine. *)
Lemma getVmssVM_found
  (nodeName : string) (crt : cacheReadType) (s s' : state W) ssName id vm :
  getVmssVM nodeName crt s = (Returns (ssName, id, vm, None), s') ->
  vm <> None.
Proof.
  destruct (getScaleSetVMInstanceID nodeName) as [i err] eqn:Hid.
  destruct err as [e|].
  - unfold getVmssVM. rewrite Hid. simpl. intros [=].
  - rewrite getVmssVM_run by (rewrite Hid; reflexivity).
    destruct (getVmssVM_getter nodeName crt s) as [[[[[n1 i1] vm1] e1]|] s1];
      [|intros [=]].
    destruct e1 as [e|]; [intros [=]|].
    destruct vm1 as [l|]; simpl; [intros [=]; subst; discriminate|].
    destruct (getVmssVM_getter nodeName crt _) as [[[[[n2 i2] vm2] e2]|] s2];
      [|intros [=]].
    destruct e2 as [e|]; [intros [=]|].
    destruct vm2 as [l|]; simpl; intros [=]; subst; discriminate.
Qed.

(** *** [GetPowerStatusByNodeName] *)

Lemma firstPowerState_first (pre post : list InstanceViewStatus)
  (status : InstanceViewStatus) :
  Forall (fun x => hasPowerState x = false) pre ->
  hasPowerState status = true ->
  firstPowerState (pre ++ status :: post)
    = Some (TrimPrefix (to_String (Code status)) vmPowerStatePrefix).
Proof.
  unfold hasPowerState. intros Hpre Hstatus.
  induction Hpre as [|x pre Hx _ IH]; simpl.
  - rewrite Hstatus. reflexivity.
  - rewrite Hx. exact IH.
Qed.

Lemma firstPowerState_none (statuses : list InstanceViewStatus) :
  Forall (fun x => hasPowerState x = false) statuses ->
  firstPowerState statuses = None.
Proof.
  unfold hasPowerState. induction 1 as [|x l Hx _ IH]; simpl; [reflexivity|].
  rewrite Hx. exact IH.
Qed.

(** C9.  When the scale-set VM of the node is found,
    [GetPowerStatusByNodeName] returns "stopped" and no error if the VM
    has no instance view or the instance view has no statuses; if there
    are statuses, it returns the first status code that starts with the
    power state prefix, without that prefix.  (With statuses none of
    which has the prefix it returns "stopped" as well.) *)
Theorem GetPowerStatusByNodeName_power_state
  (name : string) (s s' : state W) (ssName id : string) (l : loc)
  (v : VirtualMachineScaleSetVM) :
  getVmssVM name cacheReadTypeDefault s = (Returns (ssName, id, Some l, None), s') ->
  load l (world s') = Some v ->
  ((InstanceView v = None
    \/ (exists iv, InstanceView v = Some iv /\ Statuses iv = None)) ->
     GetPowerStatusByNodeName name s = (Returns ("stopped", None), s'))
  /\ (forall iv statuses,
        InstanceView v = Some iv -> Statuses iv = Some statuses ->
        (forall pre status post,
            statuses = pre ++ status :: post ->
            Forall (fun x => hasPowerState x = false) pre ->
            hasPowerState status = true ->
            exists powerState,
              GetPowerStatusByNodeName name s = (Returns (powerState, None), s')
              /\ to_String (Code status)
                 = (vmPowerStatePrefix ++ powerState)%string)
        /\ (Forall (fun x => hasPowerState x = false) statuses ->
            GetPowerStatusByNodeName name s = (Returns ("stopped", None), s'))).
Proof.
  intros Hget Hload.
  assert (Hrun : GetPowerStatusByNodeName name s =
    match InstanceView v with
    | Some instanceView =>
        match Statuses instanceView with
        | Some statuses =>
            match firstPowerState statuses with
            | Some powerState => (Returns (powerState, None), s')
            | None => (Returns (vmPowerStateStopped, None), s')
            end
        | None => (Returns (vmPowerStateStopped, None), s')
        end
    | None => (Returns (vmPowerStateStopped, None), s')
    end).
  { unfold GetPowerStatusByNodeName, mbind, M_bind. rewrite Hget. simpl.
    unfold loadVM. rewrite Hload.
    destruct (InstanceView v) as [iv|]; [|reflexivity].
    destruct (Statuses iv) as [statuses|]; [|reflexivity].
    destruct (firstPowerState statuses); reflexivity. }
  rewrite Hrun. split.
  - intros [->|[iv [-> ->]]]; reflexivity.
  - intros iv statuses -> ->. split.
    + intros pre status post -> Hpre Hstatus.
      rewrite (firstPowerState_first pre post status Hpre Hstatus).
      eexists. split; [reflexivity|].
      symmetry. apply TrimPrefix_strips. exact Hstatus.
    + intros Hnone. rewrite (firstPowerState_none statuses Hnone). reflexivity.
Qed.

(** *** The deletion loop *)

Lemma drop_last {A} (l : list A) (d : A) :
  last l = Some d -> drop (length l - 1) l = [d].
Proof.
  intros [l' ->]%last_Some. rewrite length_app. simpl.
  replace (length l' + 1 - 1)%nat with (length l') by lia.
  apply drop_app_length.
Qed.

Lemma removeInPlace_middle {A} (pre post : list A) (x d : A) :
  last (pre ++ x :: post) = Some d ->
  removeInPlace (length pre) (pre ++ x :: post) = pre ++ post ++ [d].
Proof.
  intros Hlast. unfold removeInPlace.
  rewrite take_app_length, (drop_last _ d Hlast).
  f_equal. f_equal.
  rewrite (cons_middle x pre post), app_assoc.
  apply drop_app_length'. rewrite length_app. simpl. lia.
Qed.

Lemma keptPools_matchingPools_length (backendPoolID : string)
  (pools : list SubResource) :
  (length (keptPools backendPoolID pools)
   + length (matchingPools backendPoolID pools))%nat = length pools.
Proof.
  unfold keptPools, matchingPools.
  induction pools as [|p pools IH]; [reflexivity|].
  rewrite !filter_cons.
  destruct (matchesPool backendPoolID p); simpl;
    repeat case_decide; try congruence; simpl; lia.
Qed.

(** The loop on the first [length pre] slots of the array [pre ++ done]:
    the pools of [pre] that are kept stay in order, [done] moves down
    behind them, and every removal leaves one more copy of the last
    element [d] at the end of the array. *)
Lemma deleteLoop_array (backendPoolID : string) (pre : list SubResource) :
  forall (done : list SubResource) (d : SubResource)
         (sl : poolSlice) (found : bool),
    Forall (fun pool => ID pool <> None) pre ->
    last (pre ++ done) = Some d ->
    deleteLoop backendPoolID (length pre) (pre ++ done) sl found =
      Returns
        (keptPools backendPoolID pre ++ done
           ++ replicate (length (matchingPools backendPoolID pre)) d,
         if (length (matchingPools backendPoolID pre) =? 0)%nat then sl
         else windowSlice (length (pre ++ done) - 1),
         found || negb (length (matchingPools backendPoolID pre) =? 0)%nat).
Proof.
  unfold keptPools, matchingPools.
  induction pre as [|cur pre IH] using rev_ind; intros done d sl found Hids Hlast.
  - simpl. rewrite app_nil_r, orb_false_r. reflexivity.
  - apply Forall_app in Hids as [Hpre Hcur].
    rewrite Forall_singleton in Hcur.
    rewrite length_app. simpl length.
    replace (length pre + 1)%nat with (S (length pre)) by lia.
    cbn [deleteLoop]. rewrite <- app_assoc. simpl app.
    rewrite list_lookup_middle by reflexivity.
    rewrite <- app_assoc in Hlast. simpl app in Hlast.
    rewrite !filter_app, !filter_cons, !filter_nil.
    destruct (ID cur) as [id|] eqn:Hid; [|congruence].
    assert (Hm : matchesPool backendPoolID cur = EqualFold backendPoolID id)
      by (unfold matchesPool; rewrite Hid; reflexivity).
    destruct (EqualFold backendPoolID id) eqn:Hfold.
    + rewrite decide_False by (rewrite Hm; discriminate).
      rewrite decide_True by exact Hm.
      rewrite (removeInPlace_middle pre done cur d Hlast).
      assert (Hlast' : last (pre ++ done ++ [d]) = Some d)
        by (rewrite !app_assoc; apply last_snoc).
      rewrite (IH (done ++ [d]) d _ _ Hpre Hlast').
      rewrite !length_app. simpl length. rewrite app_nil_r.
      set (k := length (filter
                  (fun pool => matchesPool backendPoolID pool = true) pre)).
      replace (k + 1)%nat with (S k) by lia.
      simpl Nat.eqb. simpl negb. rewrite orb_true_r. cbv iota.
      f_equal. f_equal.
      f_equal;
        [ rewrite <- ?app_assoc; reflexivity
        | destruct (k =? 0)%nat; f_equal; lia ].
    + rewrite decide_True by exact Hm.
      rewrite decide_False by (rewrite Hm; discriminate).
      rewrite (IH (cur :: done) d sl found Hpre Hlast).
      rewrite !length_app. simpl length. rewrite !Nat.add_0_r.
      rewrite <- !app_assoc. reflexivity.
Qed.

(** The loop on a whole list of pools that all carry an ID: it finds a
    pool exactly when one matches, and then [newBackendPools] is the kept
    pools followed by one copy of the last pool for every match beyond
    the first. *)
Lemma deleteLoop_pools (backendPoolID : string)
  (pools : list SubResource) (d : SubResource) :
  Forall (fun pool => ID pool <> None) pools ->
  last pools = Some d ->
  exists arr sl,
    deleteLoop backendPoolID (length pools) pools freshSlice false
      = Returns (arr, sl,
                 negb (length (matchingPools backendPoolID pools) =? 0)%nat)
    /\ (matchingPools backendPoolID pools <> [] ->
        readSlice arr sl
          = keptPools backendPoolID pools
            ++ replicate (length (matchingPools backendPoolID pools) - 1) d).
Proof.
  intros Hids Hlast.
  pose proof (deleteLoop_array backendPoolID pools [] d freshSlice false) as Hrun.
  rewrite app_nil_r in Hrun. specialize (Hrun Hids Hlast).
  eexists _, _. split; [exact Hrun|].
  intros Hmatch.
  pose proof (keptPools_matchingPools_length backendPoolID pools) as Hlen.
  destruct (matchingPools backendPoolID pools) as [|m ms] eqn:Hm; [congruence|].
  simpl length in *. simpl Nat.eqb. cbv iota. simpl readSlice.
  replace (S (length ms) - 1)%nat with (length ms) by lia.
  change (replicate (S (length ms)) d) with ([d] ++ replicate (length ms) d).
  rewrite replicate_cons_app.
  rewrite !app_assoc. rewrite take_app_length'; [reflexivity|].
  rewrite length_app, length_replicate. lia.
Qed.

(** *** Updates of a scale-set virtual machine *)

(** [getVmssVM] only talks to the cache. *)
Lemma getVmssVM_getter_log (nodeName : string) (crt : cacheReadType) (s : state W) :
  log (getVmssVM_getter nodeName crt s).2
    = log s ++ [CacheGet vmssVMCache vmssVirtualMachinesKey crt].
Proof.
  rewrite getVmssVM_getter_run.
  destruct (timedCache_Get _ _ _ (world s)) as [[c [e|]] w']; [reflexivity|].
  destruct c; reflexivity.
Qed.

Lemma getVmssVM_no_update (nodeName : string) (crt : cacheReadType) (s : state W) :
  exists evs,
    log (getVmssVM nodeName crt s).2 = log s ++ evs
    /\ Forall (fun e => isVMUpdate e = false) evs.
Proof.
  destruct (getScaleSetVMInstanceID nodeName) as [i err] eqn:Hid.
  destruct err as [e|].
  - exists []. unfold getVmssVM. rewrite Hid, app_nil_r. split; constructor.
  - rewrite getVmssVM_run by (rewrite Hid; reflexivity).
    pose proof (getVmssVM_getter_log nodeName crt s) as Hlog1.
    destruct (getVmssVM_getter nodeName crt s) as [[[[[n1 i1] vm1] e1]|] s1];
      simpl in Hlog1.
    2:{ eexists. split; [exact Hlog1|]. repeat constructor. }
    destruct e1 as [e|]; simpl.
    { eexists. split; [exact Hlog1|]. repeat constructor. }
    destruct vm1 as [l|]; simpl.
    { eexists. split; [exact Hlog1|]. repeat constructor. }
    match goal with
    | |- context [getVmssVM_getter nodeName crt ?s2] =>
        pose proof (getVmssVM_getter_log nodeName crt s2) as Hlog2;
        destruct (getVmssVM_getter nodeName crt s2)
          as [[[[[n2 i2] vm2] e2]|] s3]
    end; simpl in Hlog2; rewrite Hlog1, <- !app_assoc in Hlog2.
    2:{ eexists. split; [exact Hlog2|]. repeat constructor. }
    destruct e2 as [e|]; simpl.
    { eexists. split; [exact Hlog2|]. repeat constructor. }
    destruct vm2; simpl; (eexists; split; [exact Hlog2|]; repeat constructor).
Qed.

(** The tail of [EnsureHostInPool] and [ensureBackendPoolDeletedFromNode],
    call by call. *)
Lemma updateVMSSVM_run (ss : Cloud) (vmName ssName id : string)
  (newVM : VirtualMachineScaleSetVM) (s : state W) :
  updateVMSSVM ss vmName ssName id newVM s =
    let '((rg, err), w1) := GetNodeResourceGroup vmName (world s) in
    if notNil err then
      (Returns err, mkState w1 (log s ++ [GetNodeResourceGroupCall vmName]))
    else
      let '((resp, err), w2) :=
        VirtualMachineScaleSetVMsClient_Update rg ssName id newVM "network_update" w1 in
      if CloudProviderBackoff ss && shouldRetryHTTPRequest resp err then
        let '(retryErr, w3) :=
          UpdateVmssVMWithRetry rg ssName id newVM "network_update" w2 in
        (Returns (if notNil retryErr then retryErr else err),
         mkState (deleteCacheForNode vmName w3)
           (log s ++ [GetNodeResourceGroupCall vmName;
                      VMUpdate rg ssName id newVM "network_update";
                      VMUpdateWithRetry rg ssName id newVM "network_update";
                      DeleteCacheForNode vmName]))
      else
        (Returns err,
         mkState (deleteCacheForNode vmName w2)
           (log s ++ [GetNodeResourceGroupCall vmName;
                      VMUpdate rg ssName id newVM "network_update";
                      DeleteCacheForNode vmName])).
Proof.
  unfold updateVMSSVM, mbind, M_bind, call. simpl.
  destruct (GetNodeResourceGroup vmName (world s)) as [[rg [e|]] w1];
    [reflexivity|]. simpl.
  destruct (VirtualMachineScaleSetVMsClient_Update _ _ _ _ _ w1)
    as [[resp err] w2]. simpl.
  destruct (CloudProviderBackoff ss && shouldRetryHTTPRequest resp err); simpl.
  - destruct (UpdateVmssVMWithRetry _ _ _ _ _ w2) as [retryErr w3]. simpl.
    rewrite <- !app_assoc. reflexivity.
  - rewrite <- !app_assoc. reflexivity.
Qed.

(** Once the node resource group is known, the update is issued. *)
Lemma updateVMSSVM_issues_update (ss : Cloud) (vmName ssName id : string)
  (newVM : VirtualMachineScaleSetVM) (s : state W) (rg : string) (w1 : W) :
  GetNodeResourceGroup vmName (world s) = ((rg, None), w1) ->
  exists evs,
    log (updateVMSSVM ss vmName ssName id newVM s).2
      = log s ++ GetNodeResourceGroupCall vmName
               :: VMUpdate rg ssName id newVM "network_update" :: evs.
Proof.
  intros Hrg. rewrite updateVMSSVM_run, Hrg. simpl.
  destruct (VirtualMachineScaleSetVMsClient_Update _ _ _ _ _ w1)
    as [[resp err] w2].
  destruct (CloudProviderBackoff ss && shouldRetryHTTPRequest resp err).
  - destruct (UpdateVmssVMWithRetry _ _ _ _ _ w2) as [retryErr w3].
    eexists. reflexivity.
  - eexists. reflexivity.
Qed.

Lemma findPool_found (backendPoolID : string) (pools : list SubResource) :
  Forall (fun pool => ID pool <> None) pools ->
  Exists (fun pool => matchesPool backendPoolID pool = true) pools ->
  findPool backendPoolID pools = Returns true.
Proof.
  unfold matchesPool. intros Hids Hex.
  induction Hids as [|p pools Hp _ IH]; [inversion Hex|]. simpl.
  destruct (ID p) as [id|] eqn:Hid; [|congruence].
  destruct (EqualFold backendPoolID id) eqn:Hfold; [reflexivity|].
  apply IH. inversion Hex as [? ? Hm|? ? Hrest]; subst; [|exact Hrest].
  rewrite Hid in Hm. congruence.
Qed.

Lemma findPool_not_found (backendPoolID : string) (pools : list SubResource) :
  Forall (fun pool => ID pool <> None) pools ->
  Forall (fun pool => matchesPool backendPoolID pool = false) pools ->
  findPool backendPoolID pools = Returns false.
Proof.
  unfold matchesPool. intros Hids Hall.
  induction Hids as [|p pools Hp _ IH]; [reflexivity|]. simpl.
  apply Forall_cons in Hall as [Hm Hrest].
  destruct (ID p) as [id|] eqn:Hid; [|congruence]. rewrite Hm. apply IH, Hrest.
Qed.

(** The pools of the chosen IP configuration after the assignment. *)
Lemma poolsAt_setBackendPools (nicIdx ipIdx : nat) (pools : list SubResource)
  (networkConfigurations : list VirtualMachineScaleSetNetworkConfiguration)
  networkConfig ipConfigurations ipConfig :
  networkConfigurations !! nicIdx = Some networkConfig ->
  IPConfigurations networkConfig = Some ipConfigurations ->
  ipConfigurations !! ipIdx = Some ipConfig ->
  poolsAt nicIdx ipIdx (setBackendPools nicIdx ipIdx pools networkConfigurations)
    = Some pools.
Proof.
  intros Hnic Hips Hip. unfold poolsAt, setBackendPools.
  rewrite list_lookup_alter_eq, Hnic. simpl. rewrite Hips. simpl.
  rewrite list_lookup_alter_eq, Hip. reflexivity.
Qed.

(** *** [EnsureHostInPool] *)

(** The part of [EnsureHostInPool] after the lookups, on the pools of the
    chosen IP configuration. *)
Lemma EnsureHostInPool_run
  (ss : Cloud) (service : option Service)
  (nodeName backendPoolID vmSetName : string) (isInternal : bool)
  (s s1 : state W) (ssName id : string) (l : loc) (v : VirtualMachineScaleSetVM)
  (nics : list VirtualMachineScaleSetNetworkConfiguration)
  (nicIdx ipIdx : nat) (pools : option (list SubResource)) :
  getVmssVM (mapNodeNameToVMName nodeName) cacheReadTypeDefault s
    = (Returns (ssName, id, Some l, None), s1) ->
  load l (world s1) = Some v ->
  (vmSetName = "" \/ useStandardLoadBalancer ss = true
   \/ EqualFold vmSetName ssName = true) ->
  selectedPools
    (fun networkConfig =>
       primaryIPConfigurationOf service networkConfig (mapNodeNameToVMName nodeName))
    (mapNodeNameToVMName nodeName) v nics nicIdx ipIdx pools ->
  EnsureHostInPool ss service nodeName backendPoolID vmSetName isInternal s =
    match findPool backendPoolID (default [] pools) with
    | Panics => (Panics, s1)
    | Returns true => (Returns None, s1)
    | Returns false =>
        let '(isSameLB, oldLBName, err) :=
          if useStandardLoadBalancer ss && (0 <? length (default [] pools))%nat
          then isBackendPoolOnSameLB backendPoolID (poolIDs (default [] pools))
          else (true, "", None) in
        if notNil err then (Returns err, s1)
        else if negb isSameLB then (Returns None, s1)
        else
          let nics' :=
            setBackendPools nicIdx ipIdx
              (default [] pools ++ [ {| ID := Some backendPoolID |} ]) nics in
          updateVMSSVM ss (mapNodeNameToVMName nodeName) ssName id
            (newVMWith v nics')
            (mkState (store l (withNetworkInterfaceConfigurations nics' v) (world s1))
               (log s1))
    end.
Proof.
  intros Hget Hload Hset (profile & nic & ipcs & ipc & Hprofile & Hnics & Hnic
                          & Hnth & Hchoose & Hipcs & Hip & Hpools).
  unfold EnsureHostInPool, mbind, M_bind. rewrite Hget. simpl.
  assert (Hguard : negb (String.eqb vmSetName "")
                   && negb (useStandardLoadBalancer ss)
                   && negb (EqualFold vmSetName ssName) = false).
  { destruct Hset as [->|[->| ->]]; simpl.
    - reflexivity.
    - destruct (negb (String.eqb vmSetName "")); reflexivity.
    - apply andb_false_r. }
  rewrite Hguard. unfold loadVM. rewrite Hload.
  rewrite Hprofile. simpl. rewrite Hnics, Hnic. simpl.
  rewrite Hnth. simpl. unfold liftO. rewrite Hchoose. simpl.
  rewrite Hipcs. simpl. rewrite Hip. simpl. rewrite Hpools.
  destruct (findPool backendPoolID (default [] pools)) as [[|]|]; try reflexivity.
  destruct (if useStandardLoadBalancer ss && (0 <? length (default [] pools))%nat
            then isBackendPoolOnSameLB backendPoolID (poolIDs (default [] pools))
            else (true, "", None)) as [[isSameLB oldLBName] [e|]];
    [reflexivity|]. simpl.
  destruct isSameLB; reflexivity.
Qed.

(** C3 (as amended).  Take a node whose scale-set VM is found, is not
    skipped for its scale set, and has an IP configuration chosen by
    [EnsureHostInPool] whose pools all carry an ID.  If one of these
    pools matches [backendPoolID] without regard to case,
    [EnsureHostInPool] returns nil with no update and no assignment: it
    ends in the state the lookup left, reached through cache calls only.
    If none matches and, on a standard load balancer with pools already
    there, the new pool is on the same load balancer, it appends exactly
    one [SubResource] with [backendPoolID] to that list and then, once
    the node resource group is known, issues the update with the new
    list. *)
Theorem EnsureHostInPool_membership
  (ss : Cloud) (service : option Service)
  (nodeName backendPoolID vmSetName : string) (isInternal : bool)
  (s s1 : state W) (ssName id : string) (l : loc) (v : VirtualMachineScaleSetVM)
  (nics : list VirtualMachineScaleSetNetworkConfiguration)
  (nicIdx ipIdx : nat) (pools : option (list SubResource)) :
  getVmssVM (mapNodeNameToVMName nodeName) cacheReadTypeDefault s
    = (Returns (ssName, id, Some l, None), s1) ->
  load l (world s1) = Some v ->
  (vmSetName = "" \/ useStandardLoadBalancer ss = true
   \/ EqualFold vmSetName ssName = true) ->
  selectedPools
    (fun networkConfig =>
       primaryIPConfigurationOf service networkConfig (mapNodeNameToVMName nodeName))
    (mapNodeNameToVMName nodeName) v nics nicIdx ipIdx pools ->
  Forall (fun pool => ID pool <> None) (default [] pools) ->
  (Exists (fun pool => matchesPool backendPoolID pool = true) (default [] pools) ->
     EnsureHostInPool ss service nodeName backendPoolID vmSetName isInternal s
       = (Returns None, s1)
     /\ exists evs, log s1 = log s ++ evs
                    /\ Forall (fun e => isVMUpdate e = false) evs)
  /\ (Forall (fun pool => matchesPool backendPoolID pool = false) (default [] pools) ->
      (useStandardLoadBalancer ss && (0 <? length (default [] pools))%nat = true ->
       exists oldLBName,
         isBackendPoolOnSameLB backendPoolID (poolIDs (default [] pools))
           = (true, oldLBName, None)) ->
      let newBackendPools := default [] pools ++ [ {| ID := Some backendPoolID |} ] in
      let nics' := setBackendPools nicIdx ipIdx newBackendPools nics in
      let s2 := mkState (store l (withNetworkInterfaceConfigurations nics' v) (world s1))
                  (log s1) in
      poolsAt nicIdx ipIdx nics' = Some newBackendPools
      /\ EnsureHostInPool ss service nodeName backendPoolID vmSetName isInternal s
         = updateVMSSVM ss (mapNodeNameToVMName nodeName) ssName id
             (newVMWith v nics') s2
      /\ forall rg w, GetNodeResourceGroup (mapNodeNameToVMName nodeName) (world s2)
                        = ((rg, None), w) ->
           exists evs,
             log (EnsureHostInPool ss service nodeName backendPoolID vmSetName
                    isInternal s).2
               = log s1 ++ GetNodeResourceGroupCall (mapNodeNameToVMName nodeName)
                        :: VMUpdate rg ssName id (newVMWith v nics') "network_update"
                        :: evs).
Proof.
  intros Hget Hload Hset Hsel Hids.
  rewrite (EnsureHostInPool_run ss service nodeName backendPoolID vmSetName
             isInternal s s1 ssName id l v nics nicIdx ipIdx pools
             Hget Hload Hset Hsel).
  split.
  - intros Hex. rewrite (findPool_found _ _ Hids Hex). split; [reflexivity|].
    pose proof (getVmssVM_no_update (mapNodeNameToVMName nodeName)
                  cacheReadTypeDefault s) as Hlog.
    rewrite Hget in Hlog. exact Hlog.
  - intros Hnone Hlb newBackendPools nics' s2.
    rewrite (findPool_not_found _ _ Hids Hnone).
    assert (Hsame :
      (if useStandardLoadBalancer ss && (0 <? length (default [] pools))%nat
       then isBackendPoolOnSameLB backendPoolID (poolIDs (default [] pools))
       else (true, "", None)).1.1 = true
      /\ (if useStandardLoadBalancer ss && (0 <? length (default [] pools))%nat
          then isBackendPoolOnSameLB backendPoolID (poolIDs (default [] pools))
          else (true, "", None)).2 = None).
    { destruct (useStandardLoadBalancer ss && (0 <? length (default [] pools))%nat);
        [|split; reflexivity].
      destruct (Hlb eq_refl) as [old ->]. split; reflexivity. }
    destruct (if useStandardLoadBalancer ss && (0 <? length (default [] pools))%nat
              then isBackendPoolOnSameLB backendPoolID (poolIDs (default [] pools))
              else (true, "", None)) as [[isSameLB oldLBName] err].
    simpl in Hsame. destruct Hsame as [-> ->]. simpl.
    destruct Hsel as (profile & nic & ipcs & ipc & _ & _ & _
                      & Hnth & _ & Hipcs & Hip & _).
    split; [|split].
    + apply (poolsAt_setBackendPools _ _ _ _ nic ipcs ipc Hnth Hipcs Hip).
    + reflexivity.
    + intros rg w Hrg.
      apply (updateVMSSVM_issues_update ss _ ssName id _ s2 rg w Hrg).
Qed.

(** *** [ensureBackendPoolDeletedFromNode] *)

(** What [ensureBackendPoolDeletedFromNode] does with the pools of the
    primary IP configuration when they all carry an ID: nothing without a
    match; with matches, it assigns the kept pools, followed by one copy
    of the last pool for every match beyond the first, and updates the
    virtual machine with them. *)
Lemma ensureBackendPoolDeletedFromNode_pools
  (ss : Cloud) (service : option Service) (nodeName backendPoolID : string)
  (s s1 : state W) (ssName id : string) (l : loc) (v : VirtualMachineScaleSetVM)
  (nics : list VirtualMachineScaleSetNetworkConfiguration)
  (nicIdx ipIdx : nat) (pools : option (list SubResource)) (d : SubResource) :
  getVmssVM nodeName cacheReadTypeDefault s
    = (Returns (ssName, id, Some l, None), s1) ->
  load l (world s1) = Some v ->
  selectedPools getPrimaryIPConfigFromVMSSNetworkConfig nodeName v nics
    nicIdx ipIdx pools ->
  Forall (fun pool => ID pool <> None) (default [] pools) ->
  last (default [] pools) = Some d ->
  ensureBackendPoolDeletedFromNode ss service nodeName backendPoolID s =
    if (length (matchingPools backendPoolID (default [] pools)) =? 0)%nat
    then (Returns None, s1)
    else
      let newBackendPools :=
        keptPools backendPoolID (default [] pools)
        ++ replicate (length (matchingPools backendPoolID (default [] pools)) - 1) d in
      let nics' := setBackendPools nicIdx ipIdx newBackendPools nics in
      updateVMSSVM ss nodeName ssName id (newVMWith v nics')
        (mkState (store l (withNetworkInterfaceConfigurations nics' v) (world s1))
           (log s1)).
Proof.
  intros Hget Hload (profile & nic & ipcs & ipc & Hprofile & Hnics & Hnic
                     & Hnth & Hchoose & Hipcs & Hip & Hpools) Hids Hlast.
  unfold ensureBackendPoolDeletedFromNode, mbind, M_bind. rewrite Hget. simpl.
  unfold loadVM. rewrite Hload. rewrite Hprofile. simpl.
  rewrite Hnics, Hnic. simpl. rewrite Hnth. simpl.
  unfold liftO. rewrite Hchoose. simpl. rewrite Hipcs. simpl.
  rewrite Hip. simpl. rewrite Hpools.
  destruct pools as [[|p ps]|]; try discriminate.
  set (existing := p :: ps) in *. simpl default in *.
  destruct (deleteLoop_pools backendPoolID existing d Hids Hlast)
    as (arr & sl & Hloop & Hread).
  unfold existing at 1. cbv iota. fold existing.
  rewrite Hloop. simpl.
  destruct (matchingPools backendPoolID existing) as [|m ms] eqn:Hm;
    [reflexivity|].
  simpl negb. cbv iota. simpl Nat.eqb. cbv iota.
  rewrite Hread by discriminate. reflexivity.
Qed.

(** *** [EnsureBackendPoolDeleted] *)

(** C10.  Called with a nil [backendAddressPools], [EnsureBackendPoolDeleted]
    returns nil at once: the state is the one it was called in, no call
    has been made and the world has not changed. *)
Theorem EnsureBackendPoolDeleted_nil
  (ss : Cloud) (service : option Service) (poolID vmSetName : string)
  (s : state W) :
  EnsureBackendPoolDeleted ss service poolID vmSetName None s = (Returns None, s)
  /\ log (EnsureBackendPoolDeleted ss service poolID vmSetName None s).2 = log s
  /\ world (EnsureBackendPoolDeleted ss service poolID vmSetName None s).2 = world s.
Proof. repeat split. Qed.

End ScaleSetFacts.

(** *** The properties on the small world *)

#[local] Abbreviation keyGet :=
  (CacheGet vmssVMCache "k8svmssVirtualMachinesKey" cacheReadTypeDefault).
#[local] Abbreviation keyDelete :=
  (CacheDelete vmssVMCache "k8svmssVirtualMachinesKey").

(** A node with the name of a scale-set instance that no scale set has:
    one read, the deletion of the key, one more read. *)
Lemma getVmssVM_refresh_on_miss_witness :
  getVmssVM (P := simPlatform basicLB) "vmss-b000002" cacheReadTypeDefault
    (mkState emptyWorld [])
  = (Returns ("", "", None, Some InstanceNotFound),
     mkState {| sim_objects := []; sim_cache := Some ∅; sim_azure := ∅ |}
       [keyGet; keyDelete; keyGet]).
Proof.
  exact (proj2 (proj2 (getVmssVM_refresh_on_miss (P := simPlatform basicLB)
                         "vmss-b000002" cacheReadTypeDefault
                         (mkState emptyWorld [])) eq_refl ∅ _ eq_refl)
           eq_refl ∅ _ eq_refl).
Defined.

(** C1, counterexample.  In a world without scale-set virtual machines the
    entry of the node [node1] is absent before and after a refresh; yet
    [getVmssVM] neither reads nor refreshes the cache, and the error it
    returns is not [InstanceNotFound]. *)
Lemma getVmssVM_short_name_counterexample :
  sim_cache emptyWorld = None
  /\ sim_azure emptyWorld !! "node1" = None
  /\ getVmssVM (P := simPlatform basicLB) "node1" cacheReadTypeDefault
       (mkState emptyWorld [])
     = (Returns ("", "", None, Some ErrorNotVmssInstance), mkState emptyWorld [])
  /\ (getVmssVM (P := simPlatform basicLB) "node1" cacheReadTypeDefault
        (mkState emptyWorld [])).1
     <> Returns ("", "", None, Some InstanceNotFound)
  /\ log (getVmssVM (P := simPlatform basicLB) "node1" cacheReadTypeDefault
            (mkState emptyWorld [])).2
     <> [keyGet; keyDelete; keyGet].
Proof.
  repeat split; try reflexivity; vm_compute; discriminate.
Qed.

(** A running node: the provisioning state comes first and has no power
    state prefix. *)
Lemma GetPowerStatusByNodeName_power_state_witness :
  exists powerState,
    GetPowerStatusByNodeName (P := simPlatform basicLB) nodeA
      (mkState (worldA runningVM) [])
    = (Returns (powerState, None), mkState (cachedWorldA runningVM) [keyGet])
    /\ "PowerState/running" = ("PowerState/" ++ powerState)%string.
Proof.
  refine (proj1 (proj2 (GetPowerStatusByNodeName_power_state
            (P := simPlatform basicLB) nodeA
            (mkState (worldA runningVM) [])
            (mkState (cachedWorldA runningVM) [keyGet])
            "vmss-a" "1" 0%nat runningVM eq_refl eq_refl) _ _ eq_refl eq_refl)
            [ {| Code := Some "ProvisioningState/succeeded" |} ]
            {| Code := Some "PowerState/running" |} [] eq_refl _ eq_refl).
  repeat constructor.
Defined.

(** A node that is in the pool already. *)
Lemma EnsureHostInPool_membership_witness :
  EnsureHostInPool (P := simPlatform basicLB) simCloud None nodeA poolAUpper
    "vmss-a" false
    (mkState (worldA (vmWithPools (Some [ {| ID := Some poolA |} ]) None)) [])
  = (Returns None,
     mkState (cachedWorldA (vmWithPools (Some [ {| ID := Some poolA |} ]) None))
       [keyGet]).
Proof.
  refine (proj1 (proj1 (EnsureHostInPool_membership (P := simPlatform basicLB)
            simCloud None nodeA poolAUpper "vmss-a" false
            (mkState (worldA (vmWithPools (Some [ {| ID := Some poolA |} ]) None)) [])
            (mkState (cachedWorldA
               (vmWithPools (Some [ {| ID := Some poolA |} ]) None)) [keyGet])
            "vmss-a" "1" 0%nat
            (vmWithPools (Some [ {| ID := Some poolA |} ]) None)
            _ 0%nat 0%nat (Some [ {| ID := Some poolA |} ])
            eq_refl eq_refl (or_intror (or_intror eq_refl)) _ _) _)).
  - do 4 eexists. repeat split; reflexivity.
  - repeat constructor. discriminate.
  - constructor. reflexivity.
Defined.

(** Adding the node to the same pool twice: the first call updates the
    virtual machine, the second finds the pool, spelled in upper case,
    in the object the first call assigned to, and makes cache calls
    only. *)
Example EnsureHostInPool_twice :
  let first :=
    EnsureHostInPool (P := simPlatform basicLB) simCloud None nodeA poolA
      "vmss-a" false (mkState (worldA (vmWithPools None None)) []) in
  let second :=
    EnsureHostInPool (P := simPlatform basicLB) simCloud None nodeA poolAUpper
      "vmss-a" false (mkState (world first.2) []) in
  first.1 = Returns None
  /\ log first.2
     = [keyGet;
        GetNodeResourceGroupCall nodeA;
        VMUpdate "rg" "vmss-a" "1"
          (vmWithPools (Some [ {| ID := Some poolA |} ]) None) "network_update";
        DeleteCacheForNode nodeA]
  /\ second.1 = Returns None
  /\ log second.2 = [keyGet; keyDelete; keyGet]
  /\ sim_objects (world second.2)
     = [vmWithPools (Some [ {| ID := Some poolA |} ]) None].
Proof. repeat split; vm_compute; reflexivity. Qed.

(** C3, counterexample.  Two nodes whose pools do not contain
    [poolA] and to which [EnsureHostInPool] nevertheless appends nothing
    and sends no update: on a basic load balancer, a node of another
    scale set than [vmSetName]; on a standard load balancer, a node that
    is in a pool of another load balancer. *)
Lemma EnsureHostInPool_skips_node_counterexample :
  (findPool (P := simPlatform basicLB) poolA [] = Returns false
   /\ EnsureHostInPool (P := simPlatform basicLB) simCloud None nodeA poolA
        "vmss-b" false (mkState (worldA (vmWithPools None None)) [])
      = (Returns None,
         mkState
           {| sim_objects := [vmWithPools None None];
              sim_cache := Some listingA;
              sim_azure := listingA |}
           [keyGet]))
  /\ (findPool (P := simPlatform standardLBOtherLB) poolA [ {| ID := Some poolB |} ]
      = Returns false
      /\ EnsureHostInPool (P := simPlatform standardLBOtherLB) simCloud None nodeA
           poolA "" false
           (mkState (worldA (vmWithPools (Some [ {| ID := Some poolB |} ]) None)) [])
         = (Returns None,
            mkState
              {| sim_objects := [vmWithPools (Some [ {| ID := Some poolB |} ]) None];
                 sim_cache := Some listingA;
                 sim_azure := listingA |}
              [keyGet])).
Proof.
  repeat split; vm_compute; reflexivity.
Qed.

(** C4, at a list that names the pool twice.  The pools are [poolA],
    [poolB] and [poolA] in upper case; removing every pool equal to
    [poolA] without regard to case would leave [poolB] alone, but the
    virtual machine is updated with [poolB] followed by the upper-case
    [poolA], and that list is what the IP configuration is left with. *)
Theorem ensureBackendPoolDeletedFromNode_duplicate_pool :
  keptPools (P := simPlatform basicLB) poolA
    [ {| ID := Some poolA |}; {| ID := Some poolB |}; {| ID := Some poolAUpper |} ]
  = [ {| ID := Some poolB |} ]
  /\ ensureBackendPoolDeletedFromNode (P := simPlatform basicLB) simCloud None
       nodeA poolA
       (mkState (worldA (vmWithPools (Some
          [ {| ID := Some poolA |}; {| ID := Some poolB |};
            {| ID := Some poolAUpper |} ]) None)) [])
     = (Returns None,
        mkState
          {| sim_objects :=
               [vmWithPools (Some
                  [ {| ID := Some poolB |}; {| ID := Some poolAUpper |} ]) None];
             sim_cache := Some ∅;
             sim_azure := listingA |}
          [keyGet;
           GetNodeResourceGroupCall nodeA;
           VMUpdate "rg" "vmss-a" "1"
             (vmWithPools (Some
                [ {| ID := Some poolB |}; {| ID := Some poolAUpper |} ]) None)
             "network_update";
           DeleteCacheForNode nodeA]).
Proof.
  split; vm_compute; reflexivity.
Qed.

End AzureVmssSpec.

(** ** azure_backoff.go: the other wrappers *)

Module AzureBackoffWrappersSpec.
Import Wait WaitFacts AzureBackoff AzureBackoffWrappers.

(** *** Conditions that retry on every error *)

Section RetryFacts.
Context {W A : Type} (call : St W (A * option error)).
Context (condition : ConditionFunc (A * W)).
Hypothesis condition_call : forall a w,
  condition (a, w)
  = ((negb (notNil (call w).1.2), None), ((call w).1.1, (call w).2)).

(** The attempt that first succeeds ends the loop. *)
Lemma backoffLoop_first_success (n k : nat) :
  forall (a : A) (w : W),
    (k < n)%nat ->
    (forall i, (i < k)%nat -> (resultOfCall call i w).2 <> None) ->
    (resultOfCall call k w).2 = None ->
    backoffLoop n condition (a, w)
    = (None, ((resultOfCall call k w).1, worldAfterCalls call (S k) w)).
Proof.
  revert n. induction k as [|k IH]; intros n a w Hk Hfail Hok.
  - destruct n as [|n]; [lia|]. simpl. rewrite condition_call.
    unfold resultOfCall in *. simpl in *. rewrite Hok. reflexivity.
  - destruct n as [|n]; [lia|]. simpl. rewrite condition_call.
    assert (H0 := Hfail 0%nat (Nat.lt_0_succ _)).
    unfold resultOfCall in H0. simpl in H0.
    destruct ((call w).1.2) as [e|] eqn:He; [|congruence]. simpl.
    rewrite (IH n _ _ (proj2 (Nat.succ_lt_mono _ _) Hk)); [reflexivity| |exact Hok].
    intros i Hi. apply (Hfail (S i)). lia.
Qed.

(** When every attempt fails the loop times out after [n] calls. *)
Lemma backoffLoop_every_failure (n : nat) :
  forall (a : A) (w : W),
    (forall i, (i < n)%nat -> (resultOfCall call i w).2 <> None) ->
    backoffLoop n condition (a, w)
    = (Some ErrWaitTimeout,
       (match n with O => a | S k => (resultOfCall call k w).1 end,
        worldAfterCalls call n w)).
Proof.
  induction n as [|n IH]; intros a w Hfail; [reflexivity|].
  simpl backoffLoop. rewrite condition_call.
  assert (H0 := Hfail 0%nat (Nat.lt_0_succ _)).
  unfold resultOfCall in H0. simpl in H0.
  destruct ((call w).1.2) as [e|] eqn:He; [|congruence]. simpl.
  rewrite IH.
  - destruct n; reflexivity.
  - intros i Hi. apply (Hfail (S i)). lia.
Qed.

End RetryFacts.

Section LookupFacts.
Context {W : Type}.
Context (VirtualMachineScaleSetVM : Type) (zeroVM : VirtualMachineScaleSetVM).
Context (getVmssVirtualMachine :
  Cloud -> string -> St W (VirtualMachineScaleSetVM * bool * option error)).
Context (getIPForMachine : Cloud -> string -> St W (string * option error)).

Lemma getIPForMachineCondition_call (az : Cloud) (name : string) (a : string) (w : W) :
  getIPForMachineCondition getIPForMachine az name (a, w)
  = ((negb (notNil (getIPForMachine az name w).1.2), None),
     ((getIPForMachine az name w).1.1, (getIPForMachine az name w).2)).
Proof.
  unfold getIPForMachineCondition.
  destruct (getIPForMachine az name w) as [[ip [e|]] w']; reflexivity.
Qed.

Lemma getScaleSetsVMCondition_call (az : Cloud) (name : string)
  (a : VirtualMachineScaleSetVM * bool) (w : W) :
  getScaleSetsVMCondition VirtualMachineScaleSetVM getVmssVirtualMachine az name (a, w)
  = ((negb (notNil (getVmssVirtualMachine az name w).1.2), None),
     ((getVmssVirtualMachine az name w).1.1, (getVmssVirtualMachine az name w).2)).
Proof.
  unfold getScaleSetsVMCondition. destruct a as [m b].
  destruct (getVmssVirtualMachine az name w) as [[[m' b'] [e|]] w']; reflexivity.
Qed.

(** X1.  [GetIPForMachineWithRetry] returns the address of the first
    attempt of [getIPForMachine] that succeeds, with a nil error, and
    makes no further call.  When all the attempts the backoff allows
    fail, it returns [wait.ErrWaitTimeout] itself: unlike
    [GetVirtualMachineWithRetry] it does not put the error of the last
    attempt in its place. *)
Theorem GetIPForMachineWithRetry_first_success (az : Cloud) (name : string) (w : W) :
  let n := Z.to_nat (Steps (requestBackoff az)) in
  let call := getIPForMachine az name in
  (forall k : nat,
      (k < n)%nat ->
      (forall i, (i < k)%nat -> (resultOfCall call i w).2 <> None) ->
      (resultOfCall call k w).2 = None ->
      GetIPForMachineWithRetry getIPForMachine az name w
      = (((resultOfCall call k w).1, None), worldAfterCalls call (S k) w))
  /\ ((forall i, (i < n)%nat -> (resultOfCall call i w).2 <> None) ->
      (GetIPForMachineWithRetry getIPForMachine az name w).1.2 = Some ErrWaitTimeout
      /\ (GetIPForMachineWithRetry getIPForMachine az name w).2
         = worldAfterCalls call n w).
Proof.
  intros n call. unfold GetIPForMachineWithRetry, ExponentialBackoff. fold n.
  split.
  - intros k Hk Hfail Hok.
    rewrite (backoffLoop_first_success call _
               (getIPForMachineCondition_call az name) n k "" w Hk Hfail Hok).
    reflexivity.
  - intros Hfail.
    rewrite (backoffLoop_every_failure call _
               (getIPForMachineCondition_call az name) n "" w Hfail).
    split; reflexivity.
Qed.

(** X2.  [GetScaleSetsVMWithRetry] takes its number of attempts from
    [az.resourceRequestBackoff] whether or not [CloudProviderBackoff] is
    set: with no step there it calls nothing and returns the zero
    machine, [false] and [wait.ErrWaitTimeout]; otherwise it returns the
    machine and the flag of the first attempt that succeeds, and
    [wait.ErrWaitTimeout] when all attempts fail. *)
Theorem GetScaleSetsVMWithRetry_own_backoff (az : Cloud) (name : string) (w : W) :
  let n := Z.to_nat (Steps (resourceRequestBackoff az)) in
  let call := getVmssVirtualMachine az name in
  (n = 0%nat ->
     GetScaleSetsVMWithRetry VirtualMachineScaleSetVM zeroVM getVmssVirtualMachine az name w
     = ((zeroVM, false, Some ErrWaitTimeout), w))
  /\ (forall k : nat,
        (k < n)%nat ->
        (forall i, (i < k)%nat -> (resultOfCall call i w).2 <> None) ->
        (resultOfCall call k w).2 = None ->
        GetScaleSetsVMWithRetry VirtualMachineScaleSetVM zeroVM getVmssVirtualMachine az name w
        = (((resultOfCall call k w).1, None), worldAfterCalls call (S k) w))
  /\ ((forall i, (i < n)%nat -> (resultOfCall call i w).2 <> None) ->
      (GetScaleSetsVMWithRetry VirtualMachineScaleSetVM zeroVM
         getVmssVirtualMachine az name w).1.2 = Some ErrWaitTimeout
      /\ (GetScaleSetsVMWithRetry VirtualMachineScaleSetVM zeroVM
            getVmssVirtualMachine az name w).2 = worldAfterCalls call n w).
Proof.
  intros n call. unfold GetScaleSetsVMWithRetry, ExponentialBackoff. fold n.
  split; [|split].
  - intros ->. reflexivity.
  - intros k Hk Hfail Hok.
    rewrite (backoffLoop_first_success call _
               (getScaleSetsVMCondition_call az name) n k (zeroVM, false) w Hk Hfail Hok).
    destruct (resultOfCall call k w) as [[m b] e]. reflexivity.
  - intros Hfail.
    rewrite (backoffLoop_every_failure call _
               (getScaleSetsVMCondition_call az name) n (zeroVM, false) w Hfail).
    destruct n as [|k]; [split; reflexivity|].
    destruct (resultOfCall call k w) as [[m b] e]. split; reflexivity.
Qed.

End LookupFacts.

Lemma GetIPForMachineWithRetry_first_success_witness :
  GetIPForMachineWithRetry addressAfterTwo
    {| CloudProviderBackoff := true;
       resourceRequestBackoff :=
         {| Duration := 1; Factor := 2%float; Jitter := 0%float; Steps := 5 |};
       ResourceGroup := "rg" |} "vm-0" 0%nat
  = (("10.240.0.4", None), 3%nat)
  /\ (GetIPForMachineWithRetry addressAfterTwo cloudWithBackoff "vm-0" 0%nat).1.2
     = Some ErrWaitTimeout.
Proof.
  split.
  - refine (proj1 (GetIPForMachineWithRetry_first_success addressAfterTwo
                     _ "vm-0" 0%nat) 2%nat _ _ eq_refl).
    + vm_compute. lia.
    + intros [|[|i]] Hi; simpl; [discriminate | discriminate | lia].
  - refine (proj1 (proj2 (GetIPForMachineWithRetry_first_success addressAfterTwo
                            cloudWithBackoff "vm-0" 0%nat) _)).
    intros [|[|i]] Hi; simpl; [discriminate | discriminate | ].
    vm_compute in Hi. lia.
Defined.

Lemma GetScaleSetsVMWithRetry_own_backoff_witness :
  GetScaleSetsVMWithRetry string ""
    (fun az name w =>
       let '((ip, err), w') := addressAfterTwo az name w in ((ip, true, err), w'))
    cloudWithoutBackoff "vm-0" 0%nat
  = (("", false, Some ErrWaitTimeout), 0%nat).
Proof.
  refine (proj1 (GetScaleSetsVMWithRetry_own_backoff string "" _
                   cloudWithoutBackoff "vm-0" 0%nat) eq_refl).
Defined.

(** *** Wrappers that read the HTTP response *)

Lemma processRetryResponse_nil_error (resp : autorest_Response)
  (err : option error) (ok : bool) (e : option error) :
  processRetryResponse resp err = Returns (ok, e) -> e = None.
Proof.
  unfold processRetryResponse, isSuccessHTTPResponse, shouldRetryAPIRequest.
  destruct (Response resp) as [r|]; [|discriminate].
  destruct ((199 <? StatusCode r) && (StatusCode r <? 300)); [congruence|].
  destruct err as [e0|]; simpl; [congruence|].
  destruct ((399 <? StatusCode r) && (StatusCode r <? 600)); congruence.
Qed.

Section GuardedFacts.
Context {S : Type} (condition : S -> outcome (bool * option error) * S).

(** A condition that never reports an error leaves the loop with no
    error or with the timeout of the loop. *)
Lemma backoffLoop_guarded_errors (n : nat) :
  (forall s ok e s', condition s = (Returns (ok, e), s') -> e = None) ->
  forall (b : bool) (s : S) err s',
    backoffLoop n (guarded condition) (b, s) = (err, (false, s')) ->
    err = None \/ err = Some ErrWaitTimeout.
Proof.
  intros Hc. induction n as [|n IH]; intros b s err s' Hrun.
  - simpl in Hrun. injection Hrun as <- _ _. right. reflexivity.
  - simpl in Hrun. destruct (condition s) as [[[ok e]|] s1] eqn:Hs.
    + apply Hc in Hs as ->. simpl in Hrun. destruct ok.
      * injection Hrun as <- _. left. reflexivity.
      * apply IH in Hrun. exact Hrun.
    + simpl in Hrun. discriminate.
Qed.

Lemma ExponentialBackoffOrPanic_no_step (backoff : Backoff) (s : S) :
  Steps backoff <= 0 ->
  ExponentialBackoffOrPanic backoff condition s = (Returns (Some ErrWaitTimeout), s).
Proof.
  intros Hsteps. unfold ExponentialBackoffOrPanic, ExponentialBackoff.
  replace (Z.to_nat (Steps backoff)) with 0%nat by lia. reflexivity.
Qed.

Lemma ExponentialBackoffOrPanic_panic (backoff : Backoff) (s s' : S) :
  1 <= Steps backoff ->
  condition s = (Panics, s') ->
  ExponentialBackoffOrPanic backoff condition s = (Panics, s').
Proof.
  intros Hsteps Hs. unfold ExponentialBackoffOrPanic, ExponentialBackoff.
  destruct (Z.to_nat (Steps backoff)) as [|n] eqn:Hn; [lia|].
  simpl. rewrite Hs. reflexivity.
Qed.

Lemma ExponentialBackoffOrPanic_done (backoff : Backoff) (s s' : S)
  (err : option error) :
  1 <= Steps backoff ->
  condition s = (Returns (true, err), s') ->
  ExponentialBackoffOrPanic backoff condition s = (Returns err, s').
Proof.
  intros Hsteps Hs. unfold ExponentialBackoffOrPanic, ExponentialBackoff.
  destruct (Z.to_nat (Steps backoff)) as [|n] eqn:Hn; [lia|].
  simpl. rewrite Hs. simpl. rewrite orb_true_r. reflexivity.
Qed.

End GuardedFacts.

Lemma processRetryResponse_singleAttempt (resp : autorest_Response)
  (err : option error) :
  match processRetryResponse resp err with
  | Panics => Panics
  | Returns (ok, e) =>
      Returns (if notNil e || ok then e else Some ErrWaitTimeout)
  end = singleAttempt resp err.
Proof.
  unfold processRetryResponse, isSuccessHTTPResponse, shouldRetryAPIRequest,
    singleAttempt.
  destruct (Response resp) as [r|]; [|reflexivity].
  destruct (decide (200 <= StatusCode r <= 299)) as [H2|H2].
  { destruct (Z.ltb_spec 199 (StatusCode r)); [|lia].
    destruct (Z.ltb_spec (StatusCode r) 300); [|lia]. reflexivity. }
  assert ((199 <? StatusCode r) && (StatusCode r <? 300) = false) as ->.
  { destruct (Z.ltb_spec 199 (StatusCode r)), (Z.ltb_spec (StatusCode r) 300);
      try reflexivity; lia. }
  destruct (decide (err <> None \/ 400 <= StatusCode r <= 599)) as [H4|H4].
  - destruct err as [e0|]; [reflexivity|].
    destruct H4 as [H4|H4]; [congruence|]. simpl.
    destruct (Z.ltb_spec 399 (StatusCode r)); [|lia].
    destruct (Z.ltb_spec (StatusCode r) 600); [|lia]. reflexivity.
  - destruct err as [e0|]; [exfalso; apply H4; left; discriminate|]. simpl.
    assert ((399 <? StatusCode r) && (StatusCode r <? 600) = false) as ->.
    { destruct (Z.ltb_spec 399 (StatusCode r)), (Z.ltb_spec (StatusCode r) 600);
        try reflexivity. exfalso. apply H4. right. lia. }
    reflexivity.
Qed.

Section HttpFacts.
Context {W : Type}.
Context (SecurityGroupsClient_CreateOrUpdate :
  string -> string -> SecurityGroup -> St W (autorest_Response * option error)).
Context (LoadBalancerClient_Delete :
  string -> string -> St W (autorest_Response * option error)).

(** X3.  The error of the SDK never comes out of [DeleteLBWithRetry]:
    whenever it returns, the error is nil or [wait.ErrWaitTimeout].
    With [CloudProviderBackoff] unset it makes exactly one call, and a
    call that fails or is answered with a 4xx or 5xx status is reported
    as [wait.ErrWaitTimeout]; a status outside 200..299 and 400..599
    with no error counts as success; an answer that carries no HTTP
    response makes it panic. *)
Theorem DeleteLBWithRetry_hides_error (az : Cloud) (lbName : string) (w : W) :
  (forall err w',
      DeleteLBWithRetry LoadBalancerClient_Delete az lbName w = (Returns err, w') ->
      err = None \/ err = Some ErrWaitTimeout)
  /\ (CloudProviderBackoff az = false ->
      DeleteLBWithRetry LoadBalancerClient_Delete az lbName w
      = (singleAttempt (LoadBalancerClient_Delete (ResourceGroup az) lbName w).1.1
           (LoadBalancerClient_Delete (ResourceGroup az) lbName w).1.2,
         (LoadBalancerClient_Delete (ResourceGroup az) lbName w).2)).
Proof.
  split.
  - intros err w'. unfold DeleteLBWithRetry, ExponentialBackoffOrPanic, ExponentialBackoff.
    match goal with
    | |- context [backoffLoop ?n (guarded ?c) ?s] =>
        destruct (backoffLoop n (guarded c) s) as [e [p s1]] eqn:Hrun
    end.
    destruct p; [discriminate|]. intros [= <- <-].
    eapply backoffLoop_guarded_errors; [|exact Hrun].
    intros s ok e0 s'. simpl.
    destruct (LoadBalancerClient_Delete (ResourceGroup az) lbName s) as [[resp e1] s2].
    intros [= Hp _]. eapply processRetryResponse_nil_error, Hp.
  - intros Hoff. unfold DeleteLBWithRetry, ExponentialBackoffOrPanic,
      ExponentialBackoff, requestBackoff. rewrite Hoff. simpl.
    destruct (LoadBalancerClient_Delete (ResourceGroup az) lbName w) as [[resp e1] w1].
    simpl. rewrite <- processRetryResponse_singleAttempt.
    destruct (processRetryResponse resp e1) as [[ok e]|]; [|reflexivity].
    simpl. destruct (notNil e || ok); reflexivity.
Qed.

(** X4.  [CreateOrUpdateSGWithRetry] dereferences [sg.Name] in each
    attempt before it calls the client: a security group without a name
    makes it panic with nothing sent, unless the backoff has no step, in
    which case it returns [wait.ErrWaitTimeout] for any security group
    without calling the client.  With a name and a step, a first answer
    with a status in 200..299 ends it with a nil error after that one
    call, whatever error came along with the answer. *)
Theorem CreateOrUpdateSGWithRetry_attempt (az : Cloud) (sg : SecurityGroup) (w : W) :
  (sg_Name sg = None -> 1 <= Steps (requestBackoff az) ->
     CreateOrUpdateSGWithRetry SecurityGroupsClient_CreateOrUpdate az sg w = (Panics, w))
  /\ (Steps (requestBackoff az) <= 0 ->
      CreateOrUpdateSGWithRetry SecurityGroupsClient_CreateOrUpdate az sg w
      = (Returns (Some ErrWaitTimeout), w))
  /\ (forall name r err w',
        sg_Name sg = Some name -> 1 <= Steps (requestBackoff az) ->
        SecurityGroupsClient_CreateOrUpdate (ResourceGroup az) name sg w
        = (({| Response := Some r |}, err), w') ->
        200 <= StatusCode r <= 299 ->
        CreateOrUpdateSGWithRetry SecurityGroupsClient_CreateOrUpdate az sg w
        = (Returns None, w')).
Proof.
  unfold CreateOrUpdateSGWithRetry. split; [|split].
  - intros Hname Hsteps.
    apply ExponentialBackoffOrPanic_panic; [exact Hsteps|].
    rewrite Hname. reflexivity.
  - intros Hsteps. apply ExponentialBackoffOrPanic_no_step. exact Hsteps.
  - intros name r err w' Hname Hsteps Hcall Hcode.
    apply ExponentialBackoffOrPanic_done; [exact Hsteps|].
    rewrite Hname, Hcall. unfold processRetryResponse, isSuccessHTTPResponse.
    simpl.
    destruct (Z.ltb_spec 199 (StatusCode r)); [|lia].
    destruct (Z.ltb_spec (StatusCode r) 300); [|lia]. reflexivity.
Qed.

End HttpFacts.

Lemma DeleteLBWithRetry_hides_error_witness :
  DeleteLBWithRetry unavailableOnce cloudWithoutBackoff "lb" 0%nat
  = (Returns (Some ErrWaitTimeout), 1%nat)
  /\ (Some ErrWaitTimeout = None \/ Some ErrWaitTimeout = Some ErrWaitTimeout).
Proof.
  split.
  - exact (proj2 (DeleteLBWithRetry_hides_error unavailableOnce
                    cloudWithoutBackoff "lb" 0%nat) eq_refl).
  - exact (proj1 (DeleteLBWithRetry_hides_error unavailableOnce
                    cloudWithoutBackoff "lb" 0%nat) _ 1%nat eq_refl).
Defined.

Lemma CreateOrUpdateSGWithRetry_attempt_witness :
  CreateOrUpdateSGWithRetry
    (fun resourceGroup name (sg : SecurityGroup) => unavailableOnce resourceGroup name)
    cloudWithBackoff {| sg_Name := None |} 0%nat = (Panics, 0%nat)
  /\ CreateOrUpdateSGWithRetry
       (fun resourceGroup name (sg : SecurityGroup) => unavailableOnce resourceGroup name)
       cloudWithBackoff {| sg_Name := Some "nsg" |} 1%nat = (Returns None, 2%nat).
Proof.
  split.
  - refine (proj1 (CreateOrUpdateSGWithRetry_attempt _ cloudWithBackoff
                     {| sg_Name := None |} 0%nat) eq_refl _).
    vm_compute. discriminate.
  - refine (proj2 (proj2 (CreateOrUpdateSGWithRetry_attempt _ cloudWithBackoff
                            {| sg_Name := Some "nsg" |} 1%nat))
              "nsg" {| StatusCode := 200 |} None 2%nat eq_refl _ eq_refl _).
    + vm_compute. discriminate.
    + simpl. lia.
Defined.

(** *** [ListLBWithRetry]: what it returns comes from the pages *)

Section ListLBSound.
Context {W : Type} (LoadBalancer Page : Type) (zeroPage : Page).
Context (PageResponse : Page -> LoadBalancerListResult LoadBalancer).
Context (PageNext : Page -> St W (Page * option error)).
Context (LoadBalancerClient_List : string -> St W (Page * option error)).

Lemma listLoop_sound (az : Cloud) (fuel : nat) :
  forall (allLBs : list LoadBalancer) (s : listState LoadBalancer Page) lbs err w',
    listLoop LoadBalancer Page PageResponse PageNext fuel az
      (hasValues LoadBalancer s.1.1) allLBs s = Some (lbs, err, w') ->
    exists vs,
      pagesFrom LoadBalancer Page PageResponse PageNext az s vs err w'
      /\ lbs = allLBs ++ concat vs /\ (length vs <= fuel)%nat.
Proof.
  induction fuel as [|fuel IH]; intros allLBs s lbs err w' Hrun;
    destruct (hasValues LoadBalancer s.1.1) eqn:Hv.
  - destruct s as [[result page] w]. discriminate.
  - rewrite AzureBackoffSpec.listLoop_done in Hrun. injection Hrun as <- <- <-.
    exists []. split; [apply pagesFrom_empty; exact Hv|].
    split; [rewrite concat_nil, app_nil_r; reflexivity | simpl; lia].
  - rewrite AzureBackoffSpec.listLoop_turn in Hrun.
    destruct (NextLink LoadBalancer s.1.1) as [link|] eqn:Hl.
    + rewrite AzureBackoffSpec.listNext_nextPage in Hrun.
      destruct (nextPage LoadBalancer Page PageResponse PageNext az s)
        as [[e|] s1] eqn:Hn.
      * injection Hrun as <- <- <-. exists [values LoadBalancer s.1.1].
        split; [eapply pagesFrom_fail; eassumption|].
        split; [rewrite concat_cons, concat_nil, app_nil_r; reflexivity|simpl; lia].
      * apply IH in Hrun as (vs & Hp & -> & Hlen).
        exists (values LoadBalancer s.1.1 :: vs).
        split; [eapply pagesFrom_next; eassumption|].
        split; [rewrite concat_cons, app_assoc; reflexivity | simpl; lia].
    + injection Hrun as <- <- <-. exists [values LoadBalancer s.1.1].
      split; [apply pagesFrom_last; assumption|].
      split; [rewrite concat_cons, concat_nil, app_nil_r; reflexivity|simpl; lia].
  - rewrite AzureBackoffSpec.listLoop_done in Hrun. injection Hrun as <- <- <-.
    exists []. split; [apply pagesFrom_empty; exact Hv|].
    split; [rewrite concat_nil, app_nil_r; reflexivity | simpl; lia].
Qed.

(** X5.  Whatever [ListLBWithRetry] returns comes from the pages of the
    service: either the first page could not be fetched, and it returns
    no load balancer and that error; or it returns the values, in
    order, of a chain of pages that starts at the first page, follows
    [NextLink], and stops at a page without values, at a page without
    [NextLink] or at a page whose successor could not be fetched, with
    the error of that fetch if any.  No load balancer is invented,
    dropped or reordered. *)
Theorem ListLBWithRetry_only_pages (az : Cloud) (w : W) (fuel : nat)
  (lbs : list LoadBalancer) (err : option error) (w' : W) :
  ListLBWithRetry LoadBalancer Page zeroPage PageResponse PageNext
    LoadBalancerClient_List fuel az w = Some (lbs, err, w') ->
  (exists e s,
      firstPage LoadBalancer Page zeroPage PageResponse LoadBalancerClient_List az w
      = (Some e, s)
      /\ lbs = [] /\ err = Some e /\ w' = s.2)
  \/ (exists s vs,
        firstPage LoadBalancer Page zeroPage PageResponse LoadBalancerClient_List az w
        = (None, s)
        /\ pagesFrom LoadBalancer Page PageResponse PageNext az s vs err w'
        /\ lbs = concat vs /\ (length vs <= fuel)%nat).
Proof.
  unfold ListLBWithRetry. rewrite AzureBackoffSpec.listFirst_firstPage.
  destruct (firstPage LoadBalancer Page zeroPage PageResponse
              LoadBalancerClient_List az w) as [[e|] s] eqn:Hfirst.
  - intros [= <- <- <-]. left. exists e, s. repeat split; reflexivity.
  - intros Hrun. apply listLoop_sound in Hrun as (vs & Hp & -> & Hlen).
    right. exists s, vs. repeat split; assumption.
Qed.

End ListLBSound.

Lemma ListLBWithRetry_only_pages_witness :
  (exists e s,
      firstPage string scriptedPage {| Value := None; NextLink := None |}
        id scriptedList cloudWithoutBackoff twoPages = (Some e, s)
      /\ ["lb-a"; "lb-b"; "lb-c"] = [] /\ None = Some e /\ [] = s.2)
  \/ (exists s vs,
        firstPage string scriptedPage {| Value := None; NextLink := None |}
          id scriptedList cloudWithoutBackoff twoPages = (None, s)
        /\ pagesFrom string scriptedPage id scriptedNext cloudWithoutBackoff s vs None []
        /\ ["lb-a"; "lb-b"; "lb-c"] = concat vs /\ (length vs <= 2)%nat).
Proof.
  exact (ListLBWithRetry_only_pages string scriptedPage
           {| Value := None; NextLink := None |} id scriptedNext scriptedList
           cloudWithoutBackoff twoPages 2%nat _ None [] eq_refl).
Defined.


(** *** [GetVirtualMachineWithRetry]: success, and a backoff without steps *)

Section GetVirtualMachineMore.
Context {W : Type} (VirtualMachine : Type) (zeroVirtualMachine : VirtualMachine).
Context (getVirtualMachine : Cloud -> string -> St W (VirtualMachine * option error)).
Context (az : Cloud) (name : string).

Lemma backoffLoop_getVirtualMachine_success (k : nat) :
  forall (n : nat) (m0 : VirtualMachine) (e0 : option error) (w : W),
    (k < n)%nat ->
    (forall i, (i < k)%nat ->
               (attempt VirtualMachine getVirtualMachine az name i w).2 <> None) ->
    (attempt VirtualMachine getVirtualMachine az name k w).2 = None ->
    backoffLoop n (getVirtualMachineCondition VirtualMachine getVirtualMachine az name)
      (m0, e0, w)
    = (None,
       ((attempt VirtualMachine getVirtualMachine az name k w).1, None,
        worldAfter VirtualMachine getVirtualMachine az name (S k) w)).
Proof.
  induction k as [|k IH]; intros n m0 e0 w Hk Hfail Hok.
  - destruct n as [|n]; [lia|]. simpl. unfold attempt in *. simpl in *.
    destruct (getVirtualMachine az name w) as [[m re] w']. simpl in *.
    subst re. reflexivity.
  - destruct n as [|n]; [lia|]. simpl.
    assert (H0 := Hfail 0%nat (Nat.lt_0_succ _)).
    unfold attempt in H0. simpl in H0.
    destruct (getVirtualMachine az name w) as [[m re] w'] eqn:Hw. simpl in H0.
    destruct re as [e|]; [|congruence]. simpl.
    rewrite (IH n m (Some e) w').
    + unfold attempt. simpl. rewrite Hw. reflexivity.
    + lia.
    + intros i Hi. specialize (Hfail (S i)). unfold attempt in *. simpl in Hfail.
      rewrite Hw in Hfail. apply Hfail. lia.
    + unfold attempt in *. simpl in Hok. rewrite Hw in Hok. exact Hok.
Qed.

(** X6.  [GetVirtualMachineWithRetry] returns the machine of the first
    attempt of [getVirtualMachine] that succeeds, with a nil error, and
    makes no further call.  When the backoff has no step at all it
    calls nothing and returns the zero machine with a nil error: the
    timeout of the loop is replaced by [retryErr], which is still nil. *)
Theorem GetVirtualMachineWithRetry_first_success (w : W) :
  (Steps (requestBackoff az) <= 0 ->
   GetVirtualMachineWithRetry VirtualMachine zeroVirtualMachine getVirtualMachine
     az name w
   = ((zeroVirtualMachine, None), w))
  /\ (forall k : nat,
        (k < Z.to_nat (Steps (requestBackoff az)))%nat ->
        (forall i, (i < k)%nat ->
                   (attempt VirtualMachine getVirtualMachine az name i w).2 <> None) ->
        (attempt VirtualMachine getVirtualMachine az name k w).2 = None ->
        GetVirtualMachineWithRetry VirtualMachine zeroVirtualMachine getVirtualMachine
          az name w
        = (((attempt VirtualMachine getVirtualMachine az name k w).1, None),
           worldAfter VirtualMachine getVirtualMachine az name (S k) w)).
Proof.
  unfold GetVirtualMachineWithRetry, ExponentialBackoff. split.
  - intros Hsteps.
    replace (Z.to_nat (Steps (requestBackoff az))) with 0%nat by lia.
    reflexivity.
  - intros k Hk Hfail Hok.
    rewrite (backoffLoop_getVirtualMachine_success k _ _ _ _ Hk Hfail Hok).
    reflexivity.
Qed.

End GetVirtualMachineMore.

Lemma GetVirtualMachineWithRetry_first_success_witness :
  GetVirtualMachineWithRetry nat 0%nat throttledTwice
    {| CloudProviderBackoff := true;
       resourceRequestBackoff :=
         {| Duration := 1; Factor := 2%float; Jitter := 0%float; Steps := 0 |};
       ResourceGroup := "rg" |} "vm-0" 7%nat
  = ((0%nat, None), 7%nat)
  /\ GetVirtualMachineWithRetry nat 0%nat throttledTwice
       {| CloudProviderBackoff := true;
          resourceRequestBackoff :=
            {| Duration := 1; Factor := 2%float; Jitter := 0%float; Steps := 5 |};
          ResourceGroup := "rg" |} "vm-0" 0%nat
     = ((2%nat, None), 3%nat).
Proof.
  split.
  - refine (proj1 (GetVirtualMachineWithRetry_first_success nat 0%nat throttledTwice
                     _ "vm-0" 7%nat) _).
    vm_compute. discriminate.
  - refine (proj2 (GetVirtualMachineWithRetry_first_success nat 0%nat throttledTwice
                     _ "vm-0" 0%nat) 2%nat _ _ eq_refl).
    + vm_compute. lia.
    + intros [|[|i]] Hi; simpl; [discriminate | discriminate | lia].
Defined.

End AzureBackoffWrappersSpec.

(** ** azure_vmss.go: lookups, primary configurations and updates *)

Module AzureVmssFacts.
Import AzureVmss AzureVmssSpec AzureVmssSets.

(** *** [findIndex] *)

Lemma findIndex_Some {A} (p : A -> bool) (l : list A) (i : nat) :
  findIndex p l = Some i <->
  exists x, l !! i = Some x /\ p x = true
            /\ forall j y, (j < i)%nat -> l !! j = Some y -> p y = false.
Proof.
  revert i. induction l as [|a l IH]; intros i; simpl.
  - split; [discriminate | intros (x & Hx & _); discriminate].
  - destruct (p a) eqn:Hpa.
    + split.
      * intros [= <-]. exists a. split; [reflexivity|]. split; [exact Hpa|].
        intros j y Hj. lia.
      * intros (x & Hx & Hpx & Hbefore). destruct i as [|i]; [reflexivity|].
        specialize (Hbefore 0%nat a (Nat.lt_0_succ _) eq_refl). congruence.
    + destruct (findIndex p l) as [k|]; simpl.
      * split.
        -- intros [= <-]. destruct (proj1 (IH k) eq_refl) as (x & Hx & Hpx & Hbefore).
           exists x. split; [exact Hx|]. split; [exact Hpx|].
           intros [|j] y Hj Hy; [simpl in Hy; congruence|].
           apply (Hbefore j y); [lia | exact Hy].
        -- intros (x & Hx & Hpx & Hbefore). destruct i as [|i].
           { simpl in Hx. congruence. }
           f_equal.
           assert (Some k = Some i) as [= ->]; [|reflexivity].
           apply IH. exists x. split; [exact Hx|]. split; [exact Hpx|].
           intros j y Hj Hy. apply (Hbefore (S j) y); [lia | exact Hy].
      * split; [discriminate|].
        intros (x & Hx & Hpx & Hbefore). destruct i as [|i].
        { simpl in Hx. congruence. }
        exfalso. assert (None = Some i) as Hi; [|congruence].
        apply IH. exists x. split; [exact Hx|]. split; [exact Hpx|].
        intros j y Hj Hy. apply (Hbefore (S j) y); [lia | exact Hy].
Qed.

Lemma findIndex_None {A} (p : A -> bool) (l : list A) :
  findIndex p l = None <-> Forall (fun x => p x = false) l.
Proof.
  induction l as [|a l IH]; simpl.
  - split; [constructor | reflexivity].
  - destruct (p a) eqn:Hpa.
    + split; [discriminate|]. intros H. inversion H; congruence.
    + destruct (findIndex p l) as [k|]; simpl.
      * split; [discriminate|]. intros H. inversion H as [|? ? _ Hl]; subst.
        apply IH in Hl. discriminate.
      * split; [|reflexivity]. intros _. constructor; [exact Hpa|].
        apply IH. reflexivity.
Qed.

(** X7.  [getPrimaryNetworkInterfaceConfiguration] returns the only
    configuration of a list of one whether or not it is marked primary;
    for every other list it returns the first configuration whose
    [Primary] is set and true, and fails exactly when there is none, as
    for the empty list.  The configuration it returns is always an
    element of the list. *)
Theorem getPrimaryNetworkInterfaceConfiguration_first_primary
  (networkConfigurations : list VirtualMachineScaleSetNetworkConfiguration)
  (nodeName : string) :
  let result := getPrimaryNetworkInterfaceConfiguration networkConfigurations nodeName in
  (length networkConfigurations = 1%nat -> result = (Some 0%nat, None))
  /\ (length networkConfigurations <> 1%nat ->
      (forall idx,
          result = (Some idx, None) <->
          exists networkConfig,
            networkConfigurations !! idx = Some networkConfig
            /\ isTrue (nic_Primary networkConfig) = true
            /\ forall j earlier, (j < idx)%nat ->
                 networkConfigurations !! j = Some earlier ->
                 isTrue (nic_Primary earlier) = false)
      /\ (Forall (fun networkConfig => isTrue (nic_Primary networkConfig) = false)
            networkConfigurations <->
          result = (None, Some (Errorf
            "failed to find a primary network configuration for the scale set VM %q"
            [nodeName]))))
  /\ (forall idx err, result = (Some idx, err) ->
        err = None /\ (idx < length networkConfigurations)%nat).
Proof.
  intros result. subst result. unfold getPrimaryNetworkInterfaceConfiguration.
  split; [|split].
  - intros ->. reflexivity.
  - intros Hlen. apply Nat.eqb_neq in Hlen. rewrite Hlen. split.
    + intros idx. rewrite <- findIndex_Some.
      destruct (findIndex _ networkConfigurations) as [k|];
        split; congruence.
    + rewrite <- findIndex_None.
      destruct (findIndex _ networkConfigurations) as [k|];
        split; congruence.
  - intros idx err.
    destruct (length networkConfigurations =? 1)%nat eqn:Hlen.
    + apply Nat.eqb_eq in Hlen. intros [= <- <-]. split; [reflexivity | lia].
    + destruct (findIndex _ networkConfigurations) as [k|] eqn:Hk; [|discriminate].
      intros [= <- <-]. split; [reflexivity|].
      apply findIndex_Some in Hk as (x & Hx & _).
      apply lookup_lt_Some in Hx. exact Hx.
Qed.

(** X8.  [getConfigForScaleSetByIPFamily] returns the first IP
    configuration whose [PrivateIPAddressVersion] is the family asked
    for, [IPv6] or [IPv4], and fails when there is none; unlike the
    search for the primary configuration it makes no exception for a
    list of one, and it ignores [Primary].  A configuration without
    [IPConfigurations] makes it panic. *)
Theorem getConfigForScaleSetByIPFamily_first_of_family
  (config : VirtualMachineScaleSetNetworkConfiguration) (nodeName : string)
  (isIPv6 : bool) :
  let family := if isIPv6 then "IPv6" else "IPv4" in
  (IPConfigurations config = None ->
     getConfigForScaleSetByIPFamily config nodeName isIPv6 = Panics)
  /\ (forall ipConfigurations,
        IPConfigurations config = Some ipConfigurations ->
        (forall idx,
            getConfigForScaleSetByIPFamily config nodeName isIPv6
            = Returns (Some idx, None) <->
            exists ipConfig,
              ipConfigurations !! idx = Some ipConfig
              /\ PrivateIPAddressVersion ipConfig = family
              /\ forall j earlier, (j < idx)%nat ->
                   ipConfigurations !! j = Some earlier ->
                   PrivateIPAddressVersion earlier <> family)
        /\ (Forall (fun ipConfig => PrivateIPAddressVersion ipConfig <> family)
              ipConfigurations ->
            exists e, getConfigForScaleSetByIPFamily config nodeName isIPv6
                      = Returns (None, Some e))).
Proof.
  intros family. unfold getConfigForScaleSetByIPFamily. split.
  - intros ->. reflexivity.
  - intros ipConfigurations ->.
    change (if isIPv6 then IPv6 else IPv4) with family.
    split.
    + intros idx.
      destruct (findIndex _ ipConfigurations) as [k|] eqn:Hk.
      * split.
        -- intros [= <-]. apply findIndex_Some in Hk as (x & Hx & Hpx & Hbefore).
           exists x. split; [exact Hx|].
           split; [apply String.eqb_eq; exact Hpx|].
           intros j y Hj Hy. apply String.eqb_neq. exact (Hbefore j y Hj Hy).
        -- intros (x & Hx & Hpx & Hbefore).
           assert (findIndex
                     (fun ipConfig => String.eqb (PrivateIPAddressVersion ipConfig) family)
                     ipConfigurations = Some idx) as Hidx.
           { apply findIndex_Some. exists x. split; [exact Hx|].
             split; [apply String.eqb_eq; exact Hpx|].
             intros j y Hj Hy. apply String.eqb_neq. exact (Hbefore j y Hj Hy). }
           congruence.
      * split; [discriminate|].
        intros (x & Hx & Hpx & Hbefore). exfalso.
        apply findIndex_None in Hk.
        rewrite Forall_lookup in Hk. specialize (Hk idx x Hx). simpl in Hk.
        apply String.eqb_neq in Hk. contradiction.
    + intros Hnone.
      assert (findIndex
                (fun ipConfig => String.eqb (PrivateIPAddressVersion ipConfig) family)
                ipConfigurations = None) as ->.
      { apply findIndex_None. eapply Forall_impl; [exact Hnone|].
        intros x Hx. apply String.eqb_neq. exact Hx. }
      eexists. reflexivity.
Qed.

Lemma getPrimaryNetworkInterfaceConfiguration_first_primary_witness :
  getPrimaryNetworkInterfaceConfiguration
    [ {| nic_Name := Some "nic0"; nic_Primary := Some false; IPConfigurations := None |} ]
    "vmss-a000001" = (Some 0%nat, None)
  /\ getPrimaryNetworkInterfaceConfiguration
       [ {| nic_Name := Some "nic0"; nic_Primary := None; IPConfigurations := None |};
         {| nic_Name := Some "nic1"; nic_Primary := Some true; IPConfigurations := None |};
         {| nic_Name := Some "nic2"; nic_Primary := Some true; IPConfigurations := None |} ]
       "vmss-a000001" = (Some 1%nat, None).
Proof.
  split.
  - refine (proj1 (getPrimaryNetworkInterfaceConfiguration_first_primary _ _) _).
    reflexivity.
  - refine (proj2 (proj1 (proj1 (proj2
              (getPrimaryNetworkInterfaceConfiguration_first_primary _ _)) _) 1%nat) _).
    + simpl. lia.
    + eexists. split; [reflexivity|]. split; [reflexivity|].
      intros [|j] earlier Hj; [intros [= <-]; reflexivity | lia].
Defined.

Lemma getConfigForScaleSetByIPFamily_first_of_family_witness :
  exists e,
    getConfigForScaleSetByIPFamily
      {| nic_Name := Some "nic0"; nic_Primary := Some true;
         IPConfigurations := Some [ {|
           ip_Name := Some "ipconfig0"; ip_Primary := Some true;
           PrivateIPAddressVersion := IPv4;
           LoadBalancerBackendAddressPools := None |} ] |}
      "vmss-a000001" true
    = Returns (None, Some e).
Proof.
  refine (proj2 (proj2 (getConfigForScaleSetByIPFamily_first_of_family _ _ true)
                   _ _) _); [reflexivity|].
  apply Forall_singleton. discriminate.
Defined.

(** *** The instance ID of a machine name *)

Lemma sliceFrom_app (pre s : string) :
  sliceFrom (String.length pre) (pre ++ s)%string = s.
Proof. induction pre as [|c pre IH]; [destruct s; reflexivity | exact IH]. Qed.

Lemma length_string_app (pre s : string) :
  String.length (pre ++ s)%string = (String.length pre + String.length s)%nat.
Proof. induction pre as [|c pre IH]; simpl; [reflexivity | rewrite IH; reflexivity]. Qed.

(** X9.  [getScaleSetVMInstanceID] reads the last six bytes of the
    machine name and nothing else: whatever comes before them, the
    result is the one for these six bytes alone. *)
Theorem getScaleSetVMInstanceID_last_six (pre s : string) :
  String.length s = 6%nat ->
  getScaleSetVMInstanceID (pre ++ s) = getScaleSetVMInstanceID s.
Proof.
  intros Hs. unfold getScaleSetVMInstanceID, len.
  rewrite length_string_app, Hs.
  destruct (Z.ltb_spec (Z.of_nat (String.length pre + 6)) 6) as [Hlt|_]; [lia|].
  replace (Z.to_nat (Z.of_nat (String.length pre + 6) - 6))
    with (String.length pre) by lia.
  rewrite sliceFrom_app. reflexivity.
Qed.

Lemma getScaleSetVMInstanceID_last_six_witness :
  getScaleSetVMInstanceID "k8s-agentpool-vmss00000a"
  = getScaleSetVMInstanceID "00000a".
Proof.
  exact (getScaleSetVMInstanceID_last_six "k8s-agentpool-vmss" "00000a" eq_refl).
Defined.

Lemma getScaleSetVMInstanceID_error (machineName : string) :
  (getScaleSetVMInstanceID machineName).2 <> None ->
  getScaleSetVMInstanceID machineName = ("", Some ErrorNotVmssInstance).
Proof.
  unfold getScaleSetVMInstanceID.
  destruct (len machineName <? 6); [reflexivity|].
  destruct (ParseUint _ 36) as [n [e|]]; simpl; [reflexivity | congruence].
Qed.

Lemma filter_all {A} (Q : A -> Prop) `{forall x, Decision (Q x)} (l : list A) :
  Forall Q l -> filter Q l = l.
Proof.
  induction 1 as [|x l Hx Hl IH]; [reflexivity|].
  rewrite filter_cons_True by exact Hx. rewrite IH. reflexivity.
Qed.

Lemma filter_none {A} (Q : A -> Prop) `{forall x, Decision (Q x)} (l : list A) :
  Forall (fun x => ~ Q x) l -> filter Q l = [].
Proof.
  induction 1 as [|x l Hx Hl IH]; [reflexivity|].
  rewrite filter_cons_False by exact Hx. exact IH.
Qed.

Section NodeFacts.
Context {W : Type} {P : Platform W}.

Lemma keptPools_single (backendPoolID : string) (pre post : list SubResource)
  (pool : SubResource) :
  Forall (fun p => matchesPool backendPoolID p = false) pre ->
  matchesPool backendPoolID pool = true ->
  Forall (fun p => matchesPool backendPoolID p = false) post ->
  keptPools backendPoolID (pre ++ pool :: post) = pre ++ post
  /\ matchingPools backendPoolID (pre ++ pool :: post) = [pool].
Proof.
  intros Hpre Hpool Hpost. unfold keptPools, matchingPools.
  rewrite !filter_app, !filter_cons.
  rewrite (filter_all _ pre Hpre), (filter_all _ post Hpost).
  rewrite (filter_none (fun p => matchesPool backendPoolID p = true) pre),
    (filter_none (fun p => matchesPool backendPoolID p = true) post).
  - destruct (decide (matchesPool backendPoolID pool = false)) as [Hf|_];
      [congruence|].
    destruct (decide (matchesPool backendPoolID pool = true)) as [_|Hf];
      [|congruence].
    split; reflexivity.
  - eapply Forall_impl; [exact Hpost|]. intros x Hx. congruence.
  - eapply Forall_impl; [exact Hpre|]. intros x Hx. congruence.
Qed.

Lemma matchingPools_none (backendPoolID : string) (pools : list SubResource) :
  Forall (fun p => matchesPool backendPoolID p = false) pools ->
  matchingPools backendPoolID pools = [].
Proof.
  intros Hnone. unfold matchingPools. apply filter_none.
  eapply Forall_impl; [exact Hnone|]. intros x Hx. congruence.
Qed.

(** X10.  [getVmssVM] returns a virtual machine or an error, never both
    and never neither: with a nil error the pointer is not nil, and with
    an error the names are empty and the pointer is nil.  On the way it
    has made no call, one read of the cache, or a read, the deletion of
    the key and a second read. *)
Theorem getVmssVM_machine_or_error (nodeName : string) (crt : cacheReadType)
  (s s' : state W) (ssName id : string) (vm : option loc) (err : option error) :
  getVmssVM nodeName crt s = (Returns (ssName, id, vm, err), s') ->
  (err = None -> vm <> None)
  /\ (err <> None -> ssName = "" /\ id = "" /\ vm = None)
  /\ (log s' = log s
      \/ log s' = log s ++ [CacheGet vmssVMCache vmssVirtualMachinesKey crt]
      \/ log s' = log s ++ [CacheGet vmssVMCache vmssVirtualMachinesKey crt;
                            CacheDelete vmssVMCache vmssVirtualMachinesKey;
                            CacheGet vmssVMCache vmssVirtualMachinesKey crt]).
Proof.
  destruct (getScaleSetVMInstanceID nodeName) as [x e0] eqn:Hid.
  destruct e0 as [e0|].
  - unfold getVmssVM. rewrite Hid. simpl. intros [= <- <- <- <- <-].
    split; [discriminate|]. split; [intros _; repeat split|]. left. reflexivity.
  - rewrite getVmssVM_run by (rewrite Hid; reflexivity).
    rewrite !getVmssVM_getter_run.
    destruct (timedCache_Get vmssVMCache vmssVirtualMachinesKey crt (world s))
      as [[c1 e1] w1]. cbv zeta.
    destruct e1 as [e1|]; simpl notNil; cbv iota.
    { intros [= <- <- <- <- <-]. split; [discriminate|].
      split; [intros _; repeat split|]. right. left. reflexivity. }
    destruct c1 as [|m1|]; try discriminate.
    pose proof (entryOf_no_error m1 nodeName) as Hno1.
    destruct (entryOf m1 nodeName) as [[[n1 i1] v1] x1]. simpl in Hno1. subst x1.
    simpl notNil. cbv iota.
    destruct v1 as [l1|]; simpl notNil; cbv iota.
    { intros [= <- <- <- <- <-]. split; [discriminate|].
      split; [congruence|]. right. left. reflexivity. }
    rewrite getVmssVM_getter_run. simpl world. simpl log.
    destruct (timedCache_Get vmssVMCache vmssVirtualMachinesKey crt
                (timedCache_Delete vmssVMCache vmssVirtualMachinesKey w1))
      as [[c2 e2] w2]. cbv zeta.
    destruct e2 as [e2|]; simpl notNil; cbv iota.
    { intros [= <- <- <- <- <-]. split; [discriminate|].
      split; [intros _; repeat split|]. right. right. simpl.
      rewrite <- !app_assoc. reflexivity. }
    destruct c2 as [|m2|]; try discriminate.
    pose proof (entryOf_no_error m2 nodeName) as Hno2.
    destruct (entryOf m2 nodeName) as [[[n2 i2] v2] x2]. simpl in Hno2. subst x2.
    simpl notNil. cbv iota.
    destruct v2 as [l2|]; simpl notNil; cbv iota.
    + intros [= <- <- <- <- <-]. split; [discriminate|].
      split; [congruence|]. right. right. simpl.
      rewrite <- !app_assoc. reflexivity.
    + intros [= <- <- <- <- <-]. split; [discriminate|].
      split; [intros _; repeat split|]. right. right. simpl.
      rewrite <- !app_assoc. reflexivity.
Qed.

(** X11.  For a name that [getScaleSetVMInstanceID] refuses, the methods
    that start with [getVmssVM] return [ErrorNotVmssInstance] (with an
    empty power state) and do nothing: no cache is read, nothing is
    assigned and no update is sent. *)
Theorem not_vmss_instance_rejected (ss : Cloud) (service : option Service)
  (nodeName backendPoolID vmSetName : string) (isInternal : bool) (s : state W) :
  (getScaleSetVMInstanceID nodeName).2 <> None ->
  GetPowerStatusByNodeName nodeName s
  = (Returns ("", Some ErrorNotVmssInstance), s)
  /\ ensureBackendPoolDeletedFromNode ss service nodeName backendPoolID s
     = (Returns (Some ErrorNotVmssInstance), s)
  /\ (mapNodeNameToVMName nodeName = nodeName ->
      EnsureHostInPool ss service nodeName backendPoolID vmSetName isInternal s
      = (Returns (Some ErrorNotVmssInstance), s)).
Proof.
  intros Hid. apply getScaleSetVMInstanceID_error in Hid.
  assert (Hget : forall crt,
    getVmssVM nodeName crt s = (Returns ("", "", None, Some ErrorNotVmssInstance), s)).
  { intros crt. unfold getVmssVM. rewrite Hid. reflexivity. }
  split; [|split].
  - unfold GetPowerStatusByNodeName, mbind, M_bind. rewrite Hget. reflexivity.
  - unfold ensureBackendPoolDeletedFromNode, mbind, M_bind. rewrite Hget. reflexivity.
  - intros Hname. unfold EnsureHostInPool, mbind, M_bind. rewrite Hname, Hget.
    reflexivity.
Qed.

(** X12.  The update that ends [EnsureHostInPool] and
    [ensureBackendPoolDeletedFromNode]: when the node resource group
    cannot be found, the error is returned with no update and without
    [deleteCacheForNode]; when the first update fails and is retried
    because [CloudProviderBackoff] is set, a retry that succeeds leaves
    the error of the first update in place, and that error is returned
    after [deleteCacheForNode]. *)
Theorem updateVMSSVM_retry_keeps_error (ss : Cloud) (vmName ssName id : string)
  (newVM : VirtualMachineScaleSetVM) (s : state W) :
  (forall rg e w1,
      GetNodeResourceGroup vmName (world s) = ((rg, Some e), w1) ->
      updateVMSSVM ss vmName ssName id newVM s
      = (Returns (Some e), mkState w1 (log s ++ [GetNodeResourceGroupCall vmName])))
  /\ (forall rg w1 resp e w2 w3,
        CloudProviderBackoff ss = true ->
        GetNodeResourceGroup vmName (world s) = ((rg, None), w1) ->
        VirtualMachineScaleSetVMsClient_Update rg ssName id newVM "network_update" w1
        = ((resp, Some e), w2) ->
        shouldRetryHTTPRequest resp (Some e) = true ->
        UpdateVmssVMWithRetry rg ssName id newVM "network_update" w2 = (None, w3) ->
        updateVMSSVM ss vmName ssName id newVM s
        = (Returns (Some e),
           mkState (deleteCacheForNode vmName w3)
             (log s ++ [GetNodeResourceGroupCall vmName;
                        VMUpdate rg ssName id newVM "network_update";
                        VMUpdateWithRetry rg ssName id newVM "network_update";
                        DeleteCacheForNode vmName]))).
Proof.
  split.
  - intros rg e w1 Hrg. rewrite updateVMSSVM_run, Hrg. reflexivity.
  - intros rg w1 resp e w2 w3 Hbackoff Hrg Hupdate Hretry Hagain.
    rewrite updateVMSSVM_run, Hrg. simpl. rewrite Hupdate, Hbackoff, Hretry.
    simpl. rewrite Hagain. reflexivity.
Qed.

(** X13.  When the pools of the primary IP configuration all carry an
    ID, [ensureBackendPoolDeletedFromNode] returns nil and changes
    nothing if none of them matches [backendPoolID] (or there is none);
    if exactly one matches, it assigns the other pools in their order
    and sends the update with them. *)
Theorem ensureBackendPoolDeletedFromNode_single_match
  (ss : Cloud) (service : option Service) (nodeName backendPoolID : string)
  (s s1 : state W) (ssName id : string) (l : loc) (v : VirtualMachineScaleSetVM)
  (nics : list VirtualMachineScaleSetNetworkConfiguration)
  (nicIdx ipIdx : nat) (pools : option (list SubResource)) :
  getVmssVM nodeName cacheReadTypeDefault s
    = (Returns (ssName, id, Some l, None), s1) ->
  load l (world s1) = Some v ->
  selectedPools getPrimaryIPConfigFromVMSSNetworkConfig nodeName v nics
    nicIdx ipIdx pools ->
  Forall (fun pool => ID pool <> None) (default [] pools) ->
  (Forall (fun pool => matchesPool backendPoolID pool = false) (default [] pools) ->
     ensureBackendPoolDeletedFromNode ss service nodeName backendPoolID s
     = (Returns None, s1))
  /\ (forall pre pool post,
        pools = Some (pre ++ pool :: post) ->
        Forall (fun p => matchesPool backendPoolID p = false) pre ->
        matchesPool backendPoolID pool = true ->
        Forall (fun p => matchesPool backendPoolID p = false) post ->
        let nics' := setBackendPools nicIdx ipIdx (pre ++ post) nics in
        poolsAt nicIdx ipIdx nics' = Some (pre ++ post)
        /\ ensureBackendPoolDeletedFromNode ss service nodeName backendPoolID s
           = updateVMSSVM ss nodeName ssName id (newVMWith v nics')
               (mkState (store l (withNetworkInterfaceConfigurations nics' v) (world s1))
                  (log s1))).
Proof.
  intros Hget Hload Hsel Hids. split.
  - intros Hnone. destruct (last (default [] pools)) as [d|] eqn:Hlast.
    + rewrite (ensureBackendPoolDeletedFromNode_pools ss service nodeName
                 backendPoolID s s1 ssName id l v nics nicIdx ipIdx pools d
                 Hget Hload Hsel Hids Hlast).
      rewrite (matchingPools_none _ _ Hnone). reflexivity.
    + apply last_None in Hlast.
      destruct Hsel as (profile & nic & ipcs & ipc & Hprofile & Hnics & Hnic
                        & Hnth & Hchoose & Hipcs & Hip & Hpools).
      unfold ensureBackendPoolDeletedFromNode, mbind, M_bind. rewrite Hget. simpl.
      unfold loadVM. rewrite Hload. rewrite Hprofile. simpl.
      rewrite Hnics, Hnic. simpl. rewrite Hnth. simpl.
      unfold liftO. rewrite Hchoose. simpl. rewrite Hipcs. simpl.
      rewrite Hip. simpl. rewrite Hpools.
      destruct pools as [[|p ps]|]; [reflexivity | discriminate | reflexivity].
  - intros pre pool post -> Hpre Hpool Hpost nics'. simpl default in Hids.
    split.
    + destruct Hsel as (profile & nic & ipcs & ipc & _ & _ & _
                        & Hnth & _ & Hipcs & Hip & _).
      apply (poolsAt_setBackendPools _ _ _ _ nic ipcs ipc Hnth Hipcs Hip).
    + destruct (last (pre ++ pool :: post)) as [d|] eqn:Hlast.
      2:{ apply last_None in Hlast. destruct pre; discriminate. }
      rewrite (ensureBackendPoolDeletedFromNode_pools ss service nodeName
                 backendPoolID s s1 ssName id l v nics nicIdx ipIdx _ d
                 Hget Hload Hsel Hids Hlast).
      simpl default.
      destruct (keptPools_single backendPoolID pre post pool Hpre Hpool Hpost)
        as [-> ->].
      simpl. rewrite app_nil_r. reflexivity.
Qed.

(** *** [EnsureBackendPoolDeleted] *)

Lemma collectScaleSets_other (poolID : string) (pools : list BackendAddressPool) :
  Forall (fun backendPool =>
            exists id, pool_ID backendPool = Some id
                       /\ (EqualFold id poolID = false
                           \/ BackendIPConfigurations backendPool = None)) pools ->
  collectScaleSets poolID pools = Returns ∅.
Proof.
  induction 1 as [|backendPool pools (id & Hid & Hother) _ IH]; [reflexivity|].
  simpl. rewrite Hid. destruct (EqualFold id poolID); [|exact IH].
  destruct Hother as [Hother| ->]; [discriminate | exact IH].
Qed.

Lemma ensureScaleSetsDeleted_basic (ss : Cloud) (service : option Service)
  (poolID vmSetName : string) (scalesets : list string) (s : state W) :
  useStandardLoadBalancer ss = false ->
  Forall (fun ssName => EqualFold ssName vmSetName = false) scalesets ->
  ensureScaleSetsDeleted ss service poolID vmSetName scalesets s = (Returns None, s).
Proof.
  intros Hbasic. induction 1 as [|ssName scalesets Hname _ IH]; [reflexivity|].
  simpl. rewrite Hbasic, Hname. exact IH.
Qed.

(** X14.  [EnsureBackendPoolDeleted] returns nil without any call when
    no backend pool of the list both has the ID [poolID], compared
    without case, and carries IP configurations; and, on a basic load
    balancer, also when none of the scale sets that the IP
    configurations of the pool name is [vmSetName], compared without
    case. *)
Theorem EnsureBackendPoolDeleted_nothing_to_do (ss : Cloud)
  (service : option Service) (poolID vmSetName : string)
  (pools : list BackendAddressPool) (s : state W) :
  (Forall (fun backendPool =>
             exists id, pool_ID backendPool = Some id
                        /\ (EqualFold id poolID = false
                            \/ BackendIPConfigurations backendPool = None)) pools ->
   EnsureBackendPoolDeleted ss service poolID vmSetName (Some pools) s
   = (Returns None, s))
  /\ (forall scalesets : gset string,
        useStandardLoadBalancer ss = false ->
        collectScaleSets poolID pools = Returns scalesets ->
        (forall ssName, ssName ∈ scalesets -> EqualFold ssName vmSetName = false) ->
        EnsureBackendPoolDeleted ss service poolID vmSetName (Some pools) s
        = (Returns None, s)).
Proof.
  unfold EnsureBackendPoolDeleted, mbind, M_bind, liftO. split.
  - intros Hother. rewrite (collectScaleSets_other _ _ Hother).
    rewrite elements_empty. reflexivity.
  - intros scalesets Hbasic -> Hnames.
    apply ensureScaleSetsDeleted_basic; [exact Hbasic|].
    apply Forall_forall. intros ssName Hin. apply Hnames.
    apply elem_of_elements. exact Hin.
Qed.

(** X15.  A virtual machine that is found but has no list of network
    interface configurations (it is probably being deleted) is left
    alone: [ensureBackendPoolDeletedFromNode] and [EnsureHostInPool]
    return nil in the state the lookup left.  With an empty list
    they fail to find the primary network configuration, and with no
    network profile configuration at all they panic; [EnsureHostInPool]
    does so unless it skips the node for its scale set. *)
Theorem vm_without_network_interfaces (ss : Cloud) (service : option Service)
  (vmName backendPoolID vmSetName : string) (isInternal : bool)
  (s s1 : state W) (ssName id : string) (l : loc) (v : VirtualMachineScaleSetVM) :
  getVmssVM vmName cacheReadTypeDefault s
    = (Returns (ssName, id, Some l, None), s1) ->
  load l (world s1) = Some v ->
  (forall profile,
      NetworkProfileConfiguration v = Some profile ->
      NetworkInterfaceConfigurations profile = None ->
      ensureBackendPoolDeletedFromNode ss service vmName backendPoolID s
      = (Returns None, s1)
      /\ forall nodeName,
           mapNodeNameToVMName nodeName = vmName ->
           EnsureHostInPool ss service nodeName backendPoolID vmSetName isInternal s
           = (Returns None, s1))
  /\ (forall profile,
        NetworkProfileConfiguration v = Some profile ->
        NetworkInterfaceConfigurations profile = Some [] ->
        let err :=
          Some (Errorf
            "failed to find a primary network configuration for the scale set VM %q"
            [vmName]) in
        ensureBackendPoolDeletedFromNode ss service vmName backendPoolID s
        = (Returns err, s1)
        /\ forall nodeName,
             mapNodeNameToVMName nodeName = vmName ->
             (vmSetName = "" \/ useStandardLoadBalancer ss = true
              \/ EqualFold vmSetName ssName = true) ->
             EnsureHostInPool ss service nodeName backendPoolID vmSetName isInternal s
             = (Returns err, s1))
  /\ (NetworkProfileConfiguration v = None ->
      ensureBackendPoolDeletedFromNode ss service vmName backendPoolID s
      = (Panics, s1)
      /\ forall nodeName,
           mapNodeNameToVMName nodeName = vmName ->
           (vmSetName = "" \/ useStandardLoadBalancer ss = true
            \/ EqualFold vmSetName ssName = true) ->
           EnsureHostInPool ss service nodeName backendPoolID vmSetName isInternal s
           = (Panics, s1)).
Proof.
  intros Hget Hload.
  assert (Hguard :
    vmSetName = "" \/ useStandardLoadBalancer ss = true
    \/ EqualFold vmSetName ssName = true ->
    negb (String.eqb vmSetName "") && negb (useStandardLoadBalancer ss)
    && negb (EqualFold vmSetName ssName) = false).
  { intros [->|[->| ->]]; simpl.
    - reflexivity.
    - destruct (negb (String.eqb vmSetName "")); reflexivity.
    - apply andb_false_r. }
  split; [|split].
  - intros profile Hprofile Hnics. split.
    + unfold ensureBackendPoolDeletedFromNode, mbind, M_bind. rewrite Hget. simpl.
      unfold loadVM. rewrite Hload, Hprofile. simpl. rewrite Hnics. reflexivity.
    + intros nodeName Hname.
      unfold EnsureHostInPool, mbind, M_bind. rewrite Hname, Hget. simpl.
      destruct (negb (String.eqb vmSetName "") && negb (useStandardLoadBalancer ss)
                && negb (EqualFold vmSetName ssName)); [reflexivity|].
      unfold loadVM. rewrite Hload, Hprofile. simpl. rewrite Hnics. reflexivity.
  - intros profile Hprofile Hnics err. split.
    + unfold ensureBackendPoolDeletedFromNode, mbind, M_bind. rewrite Hget. simpl.
      unfold loadVM. rewrite Hload, Hprofile. simpl. rewrite Hnics. reflexivity.
    + intros nodeName Hname Hset.
      unfold EnsureHostInPool, mbind, M_bind. rewrite Hname, Hget. simpl.
      rewrite (Hguard Hset).
      unfold loadVM. rewrite Hload, Hprofile. simpl. rewrite Hnics. reflexivity.
  - intros Hprofile. split.
    + unfold ensureBackendPoolDeletedFromNode, mbind, M_bind. rewrite Hget. simpl.
      unfold loadVM. rewrite Hload, Hprofile. reflexivity.
    + intros nodeName Hname Hset.
      unfold EnsureHostInPool, mbind, M_bind. rewrite Hname, Hget. simpl.
      rewrite (Hguard Hset).
      unfold loadVM. rewrite Hload, Hprofile. reflexivity.
Qed.

End NodeFacts.


(** *** The properties on the small world *)

Lemma getVmssVM_machine_or_error_witness :
  (Some 0%nat : option loc) <> None.
Proof.
  exact (proj1 (getVmssVM_machine_or_error (P := simPlatform basicLB) nodeA
                  cacheReadTypeDefault (mkState (worldA runningVM) [])
                  (mkState (cachedWorldA runningVM)
                     [CacheGet vmssVMCache "k8svmssVirtualMachinesKey"
                        cacheReadTypeDefault])
                  "vmss-a" "1" (Some 0%nat) None eq_refl) eq_refl).
Defined.

Lemma not_vmss_instance_rejected_witness :
  GetPowerStatusByNodeName (P := simPlatform basicLB) "node1" (mkState emptyWorld [])
  = (Returns ("", Some ErrorNotVmssInstance), mkState emptyWorld [])
  /\ ensureBackendPoolDeletedFromNode (P := simPlatform basicLB) simCloud None
       "node1" poolA (mkState emptyWorld [])
     = (Returns (Some ErrorNotVmssInstance), mkState emptyWorld [])
  /\ EnsureHostInPool (P := simPlatform basicLB) simCloud None "node1" poolA
       "vmss-a" false (mkState emptyWorld [])
     = (Returns (Some ErrorNotVmssInstance), mkState emptyWorld []).
Proof.
  pose proof (not_vmss_instance_rejected (P := simPlatform basicLB) simCloud None
                "node1" poolA "vmss-a" false (mkState emptyWorld [])) as H.
  assert ((getScaleSetVMInstanceID "node1").2 <> None) as Hname
    by (vm_compute; discriminate).
  destruct (H Hname) as (Hpower & Hdelete & Hensure).
  split; [exact Hpower|]. split; [exact Hdelete|]. exact (Hensure eq_refl).
Defined.

Lemma ensureBackendPoolDeletedFromNode_single_match_witness :
  ensureBackendPoolDeletedFromNode (P := simPlatform basicLB) simCloud None
    nodeA poolAUpper
    (mkState (worldA (vmWithPools (Some
       [ {| ID := Some poolA |}; {| ID := Some poolB |} ]) None)) [])
  = (Returns None,
     mkState
       {| sim_objects := [vmWithPools (Some [ {| ID := Some poolB |} ]) None];
          sim_cache := Some ∅;
          sim_azure := listingA |}
       [CacheGet vmssVMCache "k8svmssVirtualMachinesKey" cacheReadTypeDefault;
        GetNodeResourceGroupCall nodeA;
        VMUpdate "rg" "vmss-a" "1"
          (vmWithPools (Some [ {| ID := Some poolB |} ]) None) "network_update";
        DeleteCacheForNode nodeA]).
Proof.
  refine (eq_trans
    (proj2 (proj2
       (ensureBackendPoolDeletedFromNode_single_match (P := simPlatform basicLB)
          simCloud None nodeA poolAUpper
          (mkState (worldA (vmWithPools (Some
             [ {| ID := Some poolA |}; {| ID := Some poolB |} ]) None)) [])
          (mkState (cachedWorldA (vmWithPools (Some
             [ {| ID := Some poolA |}; {| ID := Some poolB |} ]) None))
             [CacheGet vmssVMCache "k8svmssVirtualMachinesKey" cacheReadTypeDefault])
          "vmss-a" "1" 0%nat
          (vmWithPools (Some [ {| ID := Some poolA |}; {| ID := Some poolB |} ]) None)
          [ {| nic_Name := Some "nic0"; nic_Primary := Some true;
               IPConfigurations := Some [ {|
                 ip_Name := Some "ipconfig0"; ip_Primary := Some true;
                 PrivateIPAddressVersion := IPv4;
                 LoadBalancerBackendAddressPools :=
                   Some [ {| ID := Some poolA |}; {| ID := Some poolB |} ] |} ] |} ]
          0%nat 0%nat (Some [ {| ID := Some poolA |}; {| ID := Some poolB |} ])
          eq_refl eq_refl _ _)
       [] {| ID := Some poolA |} [ {| ID := Some poolB |} ] eq_refl _ _ _))
    _).
  - repeat eexists.
  - repeat constructor; discriminate.
  - constructor.
  - vm_compute. reflexivity.
  - repeat constructor.
  - vm_compute. reflexivity.
Defined.

Lemma updateVMSSVM_retry_keeps_error_witness :
  updateVMSSVM (P := scaleSetPlatform basicLB None (Some 409, Some (ErrorString "conflict")))
    simCloudBackoff nodeA "vmss-a" "1" (vmWithPools None None)
    (mkState (cachedWorldA (vmWithPools None None)) [])
  = (Returns (Some (ErrorString "conflict")),
     mkState
       {| sim_objects := [vmWithPools None None];
          sim_cache := Some ∅;
          sim_azure := listingA |}
       [GetNodeResourceGroupCall nodeA;
        VMUpdate "rg" "vmss-a" "1" (vmWithPools None None) "network_update";
        VMUpdateWithRetry "rg" "vmss-a" "1" (vmWithPools None None) "network_update";
        DeleteCacheForNode nodeA]).
Proof.
  refine (eq_trans
    (proj2 (updateVMSSVM_retry_keeps_error
              (P := scaleSetPlatform basicLB None (Some 409, Some (ErrorString "conflict")))
              simCloudBackoff nodeA "vmss-a" "1" (vmWithPools None None)
              (mkState (cachedWorldA (vmWithPools None None)) []))
       "rg" (cachedWorldA (vmWithPools None None)) (Some 409)
       (ErrorString "conflict") (cachedWorldA (vmWithPools None None))
       (cachedWorldA (vmWithPools None None))
       eq_refl eq_refl eq_refl eq_refl eq_refl) _).
  vm_compute. reflexivity.
Defined.

Lemma EnsureBackendPoolDeleted_nothing_to_do_witness :
  EnsureBackendPoolDeleted (P := simPlatform basicLB) simCloud None poolA "vmss-a"
    (Some [ {| pool_ID := Some poolB;
               BackendIPConfigurations := Some [ {| ipconf_ID := Some "ipconfig0" |} ] |};
            {| pool_ID := Some poolAUpper; BackendIPConfigurations := None |} ])
    (mkState emptyWorld [])
  = (Returns None, mkState emptyWorld []).
Proof.
  refine (proj1 (EnsureBackendPoolDeleted_nothing_to_do (P := simPlatform basicLB)
                   simCloud None poolA "vmss-a" _ (mkState emptyWorld [])) _).
  constructor; [|constructor; [|constructor]].
  - exists poolB. split; [reflexivity|]. left. vm_compute. reflexivity.
  - exists poolAUpper. split; [reflexivity|]. right. reflexivity.
Defined.

Lemma vm_without_network_interfaces_witness :
  ensureBackendPoolDeletedFromNode (P := simPlatform basicLB) simCloud None
    nodeA poolA (mkState (worldA deletingVM) [])
  = (Returns None,
     mkState (cachedWorldA deletingVM)
       [CacheGet vmssVMCache "k8svmssVirtualMachinesKey" cacheReadTypeDefault])
  /\ EnsureHostInPool (P := simPlatform basicLB) simCloud None nodeA poolA
       "vmss-a" false (mkState (worldA deletingVM) [])
     = (Returns None,
        mkState (cachedWorldA deletingVM)
          [CacheGet vmssVMCache "k8svmssVirtualMachinesKey" cacheReadTypeDefault]).
Proof.
  destruct (proj1 (vm_without_network_interfaces (P := simPlatform basicLB)
                     simCloud None nodeA poolA "vmss-a" false
                     (mkState (worldA deletingVM) [])
                     (mkState (cachedWorldA deletingVM)
                        [CacheGet vmssVMCache "k8svmssVirtualMachinesKey"
                           cacheReadTypeDefault])
                     "vmss-a" "1" 0%nat deletingVM eq_refl eq_refl)
              {| NetworkInterfaceConfigurations := None |} eq_refl eq_refl)
    as [Hdelete Hensure].
  split; [exact Hdelete | exact (Hensure nodeA eq_refl)].
Defined.

End AzureVmssFacts.

(** ** azure_vmss.go: scale sets of nodes and of services *)

Module AzureVmssSetsSpec.
Import AzureVmss AzureVmssSpec AzureVmssFacts AzureVmssSets.

Section ScaleSetCalls.
Context {W : Type} {P : Platform W}.

Lemma deleteLoop_single (poolID : string) (pre post : list SubResource)
  (pool : SubResource) :
  Forall (fun p => ID p <> None) (pre ++ pool :: post) ->
  Forall (fun p => matchesPool poolID p = false) pre ->
  matchesPool poolID pool = true ->
  Forall (fun p => matchesPool poolID p = false) post ->
  exists arr,
    deleteLoop poolID (length (pre ++ pool :: post)) (pre ++ pool :: post)
      freshSlice false
    = Returns (arr, windowSlice (length (pre ++ post)), true)
    /\ take (length (pre ++ post)) arr = pre ++ post.
Proof.
  intros Hids Hpre Hpool Hpost.
  destruct (last (pre ++ pool :: post)) as [d|] eqn:Hlast.
  2:{ apply last_None in Hlast. destruct pre; discriminate. }
  pose proof (deleteLoop_array poolID (pre ++ pool :: post) [] d freshSlice false
                Hids) as Hloop.
  rewrite app_nil_r in Hloop. specialize (Hloop Hlast).
  destruct (keptPools_single poolID pre post pool Hpre Hpool Hpost) as [Hk Hm].
  rewrite Hk, Hm in Hloop. simpl in Hloop.
  eexists. split.
  - rewrite Hloop. f_equal. f_equal. f_equal. f_equal.
    rewrite !length_app. simpl. lia.
  - rewrite take_app_length. reflexivity.
Qed.

(** X16.  [ensureScaleSetBackendPoolDeleted] returns nil for a scale
    set that does not exist, after the one call of [getScaleSet].  For a
    scale set whose primary IP configuration has exactly one pool that
    matches [poolID], it sends the scale set with the other pools, in
    their order, and then updates all instances ("*"); when no pool is
    left it sends the scale set a second time, and returns nil whatever
    that last call answers. *)
Theorem ensureScaleSetBackendPoolDeleted_calls (ss : Cloud)
  (service : option Service) (poolID ssName : string) (s : state W) :
  (forall vmss w1,
      getScaleSet ssName (world s) = ((vmss, false, None), w1) ->
      ensureScaleSetBackendPoolDeleted ss service poolID ssName s
      = (Returns None, mkState w1 (log s ++ [GetScaleSet ssName])))
  /\ (forall vmss w1 nics nicIdx ipIdx pre pool post w2 w3,
        getScaleSet ssName (world s) = ((vmss, true, None), w1) ->
        scaleSetPools ssName vmss nics nicIdx ipIdx (Some (pre ++ pool :: post)) ->
        Forall (fun p => ID p <> None) (pre ++ pool :: post) ->
        Forall (fun p => matchesPool poolID p = false) pre ->
        matchesPool poolID pool = true ->
        Forall (fun p => matchesPool poolID p = false) post ->
        let vmss' :=
          vmssWithNetworkInterfaceConfigurations
            (setBackendPools nicIdx ipIdx (pre ++ post) nics) vmss in
        createOrUpdateVMSS vmss' w1 = (None, w2) ->
        updateVMSSInstances ssName ["*"] w2 = (None, w3) ->
        ensureScaleSetBackendPoolDeleted ss service poolID ssName s
        = if decide (pre ++ post = []) then
            (Returns None,
             mkState (createOrUpdateVMSS vmss' w3).2
               (log s ++ [GetScaleSet ssName; CreateOrUpdateVMSS vmss';
                          UpdateVMSSInstances ssName ["*"];
                          CreateOrUpdateVMSS vmss']))
          else
            (Returns None,
             mkState w3
               (log s ++ [GetScaleSet ssName; CreateOrUpdateVMSS vmss';
                          UpdateVMSSInstances ssName ["*"]]))).
Proof.
  split.
  - intros vmss w1 Hget.
    unfold ensureScaleSetBackendPoolDeleted, mbind, M_bind, call.
    rewrite Hget. reflexivity.
  - intros vmss w1 nics nicIdx ipIdx pre pool post w2 w3 Hget
      (vmProfile & networkProfile & nic & ipcs & ipc & Hprofile & Hnetwork & Hnics
       & Hnic & Hnth & Hip & Hipcs & Hipc & Hpools) Hids Hpre Hpool Hpost vmss'
      Hcreate Hupdate.
    destruct (deleteLoop_single poolID pre post pool Hids Hpre Hpool Hpost)
      as (arr & Hloop & Htake).
    unfold ensureScaleSetBackendPoolDeleted, mbind, M_bind, call.
    rewrite Hget. simpl. rewrite Hprofile. simpl. rewrite Hnetwork. simpl.
    unfold liftO. rewrite Hnics, Hnic. simpl. rewrite Hnth. simpl.
    rewrite Hip. simpl. rewrite Hipcs. simpl. rewrite Hipc. simpl.
    rewrite Hpools.
    destruct (pre ++ pool :: post) as [|p0 ps0] eqn:Hlist.
    { destruct pre; discriminate. }
    rewrite Hloop. simpl. rewrite Htake. fold vmss'. rewrite Hcreate. simpl.
    rewrite Hupdate. simpl.
    destruct (decide (pre ++ post = [])) as [Hnil|Hnil].
    + rewrite Hnil. simpl.
      destruct (createOrUpdateVMSS vmss' w3) as [e w4]. simpl.
      rewrite <- !app_assoc. reflexivity.
    + destruct (pre ++ post) as [|q qs]; [congruence|]. simpl.
      rewrite <- !app_assoc. reflexivity.
Qed.

(** X17.  [ensureHostsInVMSetPool] fails with "Scale set %q not found"
    when the scale set does not exist.  When the primary IP
    configuration of the scale set already has the pool, compared
    without case, it does not send the scale set and only updates the
    instances.  When it has not, it sends the scale set with
    [backendPoolID] appended to the pools and then updates the
    instances; an error of the first call is returned without the
    second.  On a standard load balancer whose pools belong to another
    load balancer it returns nil and calls neither. *)
Theorem ensureHostsInVMSetPool_calls (ss : Cloud) (service : option Service)
  (backendPoolID vmSetName : string) (instanceIDs : list string)
  (isInternal : bool) (s : state W) :
  (forall vmss w1,
      getScaleSet vmSetName (world s) = ((vmss, false, None), w1) ->
      ensureHostsInVMSetPool ss service backendPoolID vmSetName instanceIDs
        isInternal s
      = (Returns (Some (Errorf "Scale set %q not found" [vmSetName])),
         mkState w1 (log s ++ [GetScaleSet vmSetName])))
  /\ (forall vmss w1 nics nicIdx ipIdx pools,
        getScaleSet vmSetName (world s) = ((vmss, true, None), w1) ->
        scaleSetPools vmSetName vmss nics nicIdx ipIdx pools ->
        Forall (fun p => ID p <> None) (default [] pools) ->
        (Exists (fun p => matchesPool backendPoolID p = true) (default [] pools) ->
           ensureHostsInVMSetPool ss service backendPoolID vmSetName instanceIDs
             isInternal s
           = (Returns (updateVMSSInstances vmSetName instanceIDs w1).1,
              mkState (updateVMSSInstances vmSetName instanceIDs w1).2
                (log s ++ [GetScaleSet vmSetName;
                           UpdateVMSSInstances vmSetName instanceIDs])))
        /\ (Forall (fun p => matchesPool backendPoolID p = false) (default [] pools) ->
            let vmss' :=
              vmssWithNetworkInterfaceConfigurations
                (setBackendPools nicIdx ipIdx
                   (default [] pools ++ [ {| ID := Some backendPoolID |} ]) nics)
                vmss in
            ((useStandardLoadBalancer ss && (0 <? length (default [] pools))%nat = true ->
              exists oldLBName,
                isBackendPoolOnSameLB backendPoolID (poolIDs (default [] pools))
                = (true, oldLBName, None)) ->
             (forall e w2,
                 createOrUpdateVMSS vmss' w1 = (Some e, w2) ->
                 ensureHostsInVMSetPool ss service backendPoolID vmSetName
                   instanceIDs isInternal s
                 = (Returns (Some e),
                    mkState w2 (log s ++ [GetScaleSet vmSetName;
                                          CreateOrUpdateVMSS vmss'])))
             /\ (forall w2,
                   createOrUpdateVMSS vmss' w1 = (None, w2) ->
                   ensureHostsInVMSetPool ss service backendPoolID vmSetName
                     instanceIDs isInternal s
                   = (Returns (updateVMSSInstances vmSetName instanceIDs w2).1,
                      mkState (updateVMSSInstances vmSetName instanceIDs w2).2
                        (log s ++ [GetScaleSet vmSetName;
                                   CreateOrUpdateVMSS vmss';
                                   UpdateVMSSInstances vmSetName instanceIDs]))))
            /\ (forall oldLBName,
                  useStandardLoadBalancer ss = true ->
                  default [] pools <> [] ->
                  isBackendPoolOnSameLB backendPoolID (poolIDs (default [] pools))
                  = (false, oldLBName, None) ->
                  ensureHostsInVMSetPool ss service backendPoolID vmSetName
                    instanceIDs isInternal s
                  = (Returns None, mkState w1 (log s ++ [GetScaleSet vmSetName]))))).
Proof.
  split.
  - intros vmss w1 Hget.
    unfold ensureHostsInVMSetPool, mbind, M_bind, call.
    rewrite Hget. reflexivity.
  - intros vmss w1 nics nicIdx ipIdx pools Hget
      (vmProfile & networkProfile & nic & ipcs & ipc & Hprofile & Hnetwork & Hnics
       & Hnic & Hnth & Hip & Hipcs & Hipc & Hpools) Hids.
    assert (Hrun :
      ensureHostsInVMSetPool ss service backendPoolID vmSetName instanceIDs
        isInternal s
      = let s1 := mkState w1 (log s ++ [GetScaleSet vmSetName]) in
        let updateInstances : M W (option error) :=
          call (UpdateVMSSInstances vmSetName instanceIDs)
            (updateVMSSInstances vmSetName instanceIDs) in
        match findPool backendPoolID (default [] pools) with
        | Panics => (Panics, s1)
        | Returns true => updateInstances s1
        | Returns false =>
            let '(isSameLB, oldLBName, err) :=
              if useStandardLoadBalancer ss && (0 <? length (default [] pools))%nat
              then isBackendPoolOnSameLB backendPoolID (poolIDs (default [] pools))
              else (true, "", None) in
            if notNil err then (Returns err, s1)
            else if negb isSameLB then (Returns None, s1)
            else
              let vmss' :=
                vmssWithNetworkInterfaceConfigurations
                  (setBackendPools nicIdx ipIdx
                     (default [] pools ++ [ {| ID := Some backendPoolID |} ]) nics)
                  vmss in
              match call (CreateOrUpdateVMSS vmss') (createOrUpdateVMSS vmss') s1 with
              | (Returns err, s2) =>
                  if notNil err then (Returns err, s2) else updateInstances s2
              | (Panics, s2) => (Panics, s2)
              end
        end).
    { unfold ensureHostsInVMSetPool, mbind, M_bind.
      unfold call at 1. rewrite Hget. simpl. rewrite Hprofile. simpl.
      rewrite Hnetwork. simpl. unfold liftO. rewrite Hnics, Hnic. simpl.
      rewrite Hnth. simpl. rewrite Hip. simpl. rewrite Hipcs. simpl.
      rewrite Hipc. simpl. rewrite Hpools.
      destruct (findPool backendPoolID (default [] pools)) as [[|]|];
        try reflexivity.
      destruct (if useStandardLoadBalancer ss && (0 <? length (default [] pools))%nat
                then isBackendPoolOnSameLB backendPoolID (poolIDs (default [] pools))
                else (true, "", None)) as [[isSameLB oldLBName] [e|]];
        [reflexivity|]. simpl.
      destruct isSameLB; [|reflexivity]. simpl. unfold call. simpl.
      destruct (createOrUpdateVMSS _ w1) as [[e|] w2]; reflexivity. }
    rewrite Hrun. clear Hrun. cbv zeta. split.
    + intros Hex. rewrite (findPool_found _ _ Hids Hex). unfold call. simpl.
      destruct (updateVMSSInstances vmSetName instanceIDs w1) as [e w2]. simpl.
      rewrite <- app_assoc. reflexivity.
    + intros Hnone. rewrite (findPool_not_found _ _ Hids Hnone). split.
      * intros Hlb.
        assert (Hsame :
          (if useStandardLoadBalancer ss && (0 <? length (default [] pools))%nat
           then isBackendPoolOnSameLB backendPoolID (poolIDs (default [] pools))
           else (true, "", None)).1.1 = true
          /\ (if useStandardLoadBalancer ss && (0 <? length (default [] pools))%nat
              then isBackendPoolOnSameLB backendPoolID (poolIDs (default [] pools))
              else (true, "", None)).2 = None).
        { destruct (useStandardLoadBalancer ss && (0 <? length (default [] pools))%nat);
            [|split; reflexivity].
          destruct (Hlb eq_refl) as [old ->]. split; reflexivity. }
        destruct (if useStandardLoadBalancer ss && (0 <? length (default [] pools))%nat
                  then isBackendPoolOnSameLB backendPoolID (poolIDs (default [] pools))
                  else (true, "", None)) as [[isSameLB oldLBName] err].
        simpl in Hsame. destruct Hsame as [-> ->]. simpl. unfold call. simpl.
        split.
        -- intros e w2 ->. simpl. rewrite <- app_assoc. reflexivity.
        -- intros w2 ->. simpl.
           destruct (updateVMSSInstances vmSetName instanceIDs w2) as [e w3]. simpl.
           rewrite <- !app_assoc. reflexivity.
      * intros oldLBName Hstd Hne Hother. rewrite Hstd.
        destruct (default [] pools) as [|p ps] eqn:Hp; [congruence|].
        simpl. simpl in Hother. rewrite Hother. reflexivity.
Qed.

End ScaleSetCalls.

Section LookupByInstance.
Context {W : Type} {P : Platform W}.

Lemma find_entry_Some (f : vmssVirtualMachinesEntry -> bool)
  (m : gmap string vmssVirtualMachinesEntry) :
  (exists k e, m !! k = Some e /\ f e = true) ->
  exists k e,
    List.find (fun kv : string * vmssVirtualMachinesEntry => f kv.2) (map_to_list m)
    = Some (k, e)
    /\ m !! k = Some e /\ f e = true.
Proof.
  intros (k & e & Hk & He).
  destruct (List.find (fun kv : string * vmssVirtualMachinesEntry => f kv.2)
              (map_to_list m)) as [[k' e']|] eqn:Hfind.
  - apply find_some in Hfind as [Hin Hf]. exists k', e'.
    split; [reflexivity|]. split; [|exact Hf].
    apply elem_of_map_to_list, list_elem_of_In. exact Hin.
  - exfalso.
    pose proof (find_none _ _ Hfind (k, e)) as Hnone. simpl in Hnone.
    rewrite Hnone in He; [discriminate|].
    apply list_elem_of_In, elem_of_map_to_list. exact Hk.
Qed.

Lemma find_entry_None (f : vmssVirtualMachinesEntry -> bool)
  (m : gmap string vmssVirtualMachinesEntry) :
  (forall k e, m !! k = Some e -> f e = false) ->
  List.find (fun kv : string * vmssVirtualMachinesEntry => f kv.2) (map_to_list m)
  = None.
Proof.
  intros Hnone.
  destruct (List.find (fun kv : string * vmssVirtualMachinesEntry => f kv.2)
              (map_to_list m)) as [[k' e']|] eqn:Hfind; [|reflexivity].
  apply find_some in Hfind as [Hin Hf]. simpl in Hf.
  apply list_elem_of_In, elem_of_map_to_list in Hin.
  rewrite (Hnone _ _ Hin) in Hf. discriminate.
Qed.

Lemma getVmssVMByInstanceID_getter_run
  (resourceGroup scaleSetName instanceID : string) (crt : cacheReadType)
  (s : state W) :
  getVmssVMByInstanceID_getter resourceGroup scaleSetName instanceID crt s =
    let '((cached, err), w') :=
      timedCache_Get vmssVMCache vmssVirtualMachinesKey crt (world s) in
    let s' := mkState w'
      (log s ++ [CacheGet vmssVMCache vmssVirtualMachinesKey crt]) in
    if notNil err then (Returns (None, false, err), s')
    else
      match cached with
      | cachedSyncMap m =>
          (Returns
             match List.find
                     (fun kv => matchesEntry resourceGroup scaleSetName instanceID kv.2)
                     (map_to_list m) with
             | Some (_, vmEntry) => (virtualMachine vmEntry, true, None)
             | None => (None, false, None)
             end, s')
      | _ => (Panics, s')
      end.
Proof.
  unfold getVmssVMByInstanceID_getter, cacheGet, call, mbind, M_bind.
  destruct (timedCache_Get vmssVMCache vmssVirtualMachinesKey crt (world s))
    as [[c [e|]] w']; simpl; [reflexivity|].
  destruct c as [|m|]; simpl; try reflexivity.
  destruct (List.find _ (map_to_list m)) as [[k vmEntry]|]; reflexivity.
Qed.

(** X18.  [getVmssVMByInstanceID] looks for an entry of the cache whose
    resource group, scale set and instance ID equal the arguments
    without regard to case.  If the first read of the cache has such an
    entry it returns the virtual machine of one of them with a nil
    error, even when that pointer is nil, and reads nothing more.
    Otherwise it deletes the key and reads again: it returns
    [InstanceNotFound] if there is still no such entry, and the virtual
    machine of one otherwise. *)
Theorem getVmssVMByInstanceID_lookup
  (resourceGroup scaleSetName instanceID : string) (crt : cacheReadType)
  (s : state W) (m1 : gmap string vmssVirtualMachinesEntry) (w1 : W) :
  timedCache_Get vmssVMCache vmssVirtualMachinesKey crt (world s)
    = ((cachedSyncMap m1, None), w1) ->
  ((exists k e, m1 !! k = Some e
                /\ matchesEntry resourceGroup scaleSetName instanceID e = true) ->
   exists k e,
     m1 !! k = Some e
     /\ matchesEntry resourceGroup scaleSetName instanceID e = true
     /\ getVmssVMByInstanceID resourceGroup scaleSetName instanceID crt s
        = (Returns (virtualMachine e, None),
           mkState w1 (log s ++ [CacheGet vmssVMCache vmssVirtualMachinesKey crt])))
  /\ ((forall k e, m1 !! k = Some e ->
                   matchesEntry resourceGroup scaleSetName instanceID e = false) ->
      forall m2 w2,
        timedCache_Get vmssVMCache vmssVirtualMachinesKey crt
          (timedCache_Delete vmssVMCache vmssVirtualMachinesKey w1)
          = ((cachedSyncMap m2, None), w2) ->
        let s2 :=
          mkState w2
            (log s ++ [CacheGet vmssVMCache vmssVirtualMachinesKey crt;
                       CacheDelete vmssVMCache vmssVirtualMachinesKey;
                       CacheGet vmssVMCache vmssVirtualMachinesKey crt]) in
        ((forall k e, m2 !! k = Some e ->
                      matchesEntry resourceGroup scaleSetName instanceID e = false) ->
         getVmssVMByInstanceID resourceGroup scaleSetName instanceID crt s
         = (Returns (None, Some InstanceNotFound), s2))
        /\ ((exists k e, m2 !! k = Some e
                         /\ matchesEntry resourceGroup scaleSetName instanceID e = true) ->
            exists k e,
              m2 !! k = Some e
              /\ matchesEntry resourceGroup scaleSetName instanceID e = true
              /\ getVmssVMByInstanceID resourceGroup scaleSetName instanceID crt s
                 = (Returns (virtualMachine e, None), s2))).
Proof.
  intros Hget1.
  assert (Hrun1 :
    getVmssVMByInstanceID_getter resourceGroup scaleSetName instanceID crt s
    = (Returns
         match List.find
                 (fun kv => matchesEntry resourceGroup scaleSetName instanceID kv.2)
                 (map_to_list m1) with
         | Some (_, vmEntry) => (virtualMachine vmEntry, true, None)
         | None => (None, false, None)
         end,
       mkState w1 (log s ++ [CacheGet vmssVMCache vmssVirtualMachinesKey crt]))).
  { rewrite getVmssVMByInstanceID_getter_run, Hget1. reflexivity. }
  split.
  - intros Hex.
    destruct (find_entry_Some _ m1 Hex) as (k & e & Hfind & Hk & He).
    exists k, e. split; [exact Hk|]. split; [exact He|].
    unfold getVmssVMByInstanceID, mbind, M_bind. rewrite Hrun1, Hfind.
    reflexivity.
  - intros Hnone m2 w2 Hget2 s2.
    assert (Hrun :
      getVmssVMByInstanceID resourceGroup scaleSetName instanceID crt s
      = match List.find
                (fun kv => matchesEntry resourceGroup scaleSetName instanceID kv.2)
                (map_to_list m2) with
        | Some (_, vmEntry) => (Returns (virtualMachine vmEntry, None), s2)
        | None => (Returns (None, Some InstanceNotFound), s2)
        end).
    { unfold getVmssVMByInstanceID, mbind, M_bind.
      rewrite Hrun1, (find_entry_None _ m1 Hnone). simpl.
      rewrite getVmssVMByInstanceID_getter_run. simpl. rewrite Hget2. simpl.
      unfold s2. rewrite <- !app_assoc. simpl.
      destruct (List.find _ (map_to_list m2)) as [[k vmEntry]|]; reflexivity. }
    rewrite Hrun. split.
    + intros Hnone2. rewrite (find_entry_None _ m2 Hnone2). reflexivity.
    + intros Hex2.
      destruct (find_entry_Some _ m2 Hex2) as (k & e & Hfind & Hk & He).
      exists k, e. rewrite Hfind. repeat split; assumption.
Qed.

End LookupByInstance.

(** *** [sort.Strings] keeps the elements *)

Lemma elem_of_insertString (x y : string) (l : list string) :
  y ∈ insertString x l <-> y = x \/ y ∈ l.
Proof.
  induction l as [|z l IH]; simpl.
  - rewrite list_elem_of_singleton, elem_of_nil. tauto.
  - destruct (String.leb x z).
    + rewrite elem_of_cons. reflexivity.
    + rewrite !elem_of_cons, IH. tauto.
Qed.

Lemma elem_of_sortStrings (y : string) (l : list string) :
  y ∈ sortStrings l <-> y ∈ l.
Proof.
  induction l as [|x l IH]; simpl; [reflexivity|].
  rewrite elem_of_insertString, elem_of_cons, IH. reflexivity.
Qed.

Lemma find_is_Some {A} (f : A -> bool) (l : list A) :
  (exists x, x ∈ l /\ f x = true) -> exists x, List.find f l = Some x.
Proof.
  intros (x & Hx & Hf). destruct (List.find f l) as [y|] eqn:Hfind.
  - exists y. reflexivity.
  - apply list_elem_of_In in Hx.
    rewrite (find_none _ _ Hfind x Hx) in Hf. discriminate.
Qed.

Lemma find_is_None {A} (f : A -> bool) (l : list A) :
  (forall x, x ∈ l -> f x = false) -> List.find f l = None.
Proof.
  intros Hnone. destruct (List.find f l) as [y|] eqn:Hfind; [|reflexivity].
  apply find_some in Hfind as [Hin Hf]. apply list_elem_of_In in Hin.
  rewrite (Hnone _ Hin) in Hf. discriminate.
Qed.

Section VMSetNames.
Context {W : Type} {P : Platform W} {N : NodePlatform W}.

(** Once a name has matched, no later name is refused. *)
Lemma validateVMSetNames_found (scaleSetNames serviceVMSetNames : list string) :
  validateVMSetNames scaleSetNames serviceVMSetNames true
  = (map (fun name =>
            default name
              (List.find (fun ssName => EqualFold ssName name) scaleSetNames))
       serviceVMSetNames, None).
Proof.
  induction serviceVMSetNames as [|name rest IH]; [reflexivity|].
  simpl. rewrite IH. reflexivity.
Qed.

(** X19.  [GetVMSetNames] returns the primary scale set, without
    looking at the nodes, for a service that names no mode.  With a mode
    it needs at least one scale set among the nodes.  In the mode auto
    it then returns a nil list with a nil error.  With a list of names,
    only the first name is checked against the scale sets of the nodes:
    if it names none of them the call fails for that name; if it names
    one, the call succeeds whatever the other names are, each name that
    equals a scale set without regard to case being replaced by the
    first such scale set in sorted order and every other name being
    returned as it is. *)
Theorem GetVMSetNames_first_name (ss : Cloud) (service : option Service)
  (nodes : list Node) (s : state W) :
  (forall isAuto names,
      getServiceLoadBalancerMode service = (false, isAuto, names) ->
      GetVMSetNames ss service nodes s
      = (Returns (Some [PrimaryScaleSetName ss], None), s))
  /\ (forall isAuto names s1,
        getServiceLoadBalancerMode service = (true, isAuto, names) ->
        getAgentPoolScaleSets nodes s = (Returns (Some [], None), s1) ->
        GetVMSetNames ss service nodes s
        = (Returns (None, Some (Errorf "No scale sets found for nodes, node count(%d)"
                                  [Sprintf_d (Z.of_nat (length nodes))])), s1))
  /\ (forall scaleSetNames s1,
        getAgentPoolScaleSets nodes s = (Returns (Some scaleSetNames, None), s1) ->
        scaleSetNames <> [] ->
        (forall names,
            getServiceLoadBalancerMode service = (true, true, names) ->
            GetVMSetNames ss service nodes s = (Returns (None, None), s1))
        /\ (forall first rest,
              getServiceLoadBalancerMode service = (true, false, first :: rest) ->
              ((forall ssName, ssName ∈ scaleSetNames ->
                               EqualFold ssName first = false) ->
               GetVMSetNames ss service nodes s
               = (Returns (None, Some (Errorf "scale set (%s) - not found" [first])),
                  s1))
              /\ ((exists ssName, ssName ∈ scaleSetNames
                                  /\ EqualFold ssName first = true) ->
                  GetVMSetNames ss service nodes s
                  = (Returns
                       (Some (map (fun name =>
                                     default name
                                       (List.find (fun ssName => EqualFold ssName name)
                                          (sortStrings scaleSetNames)))
                                (first :: rest)), None),
                     s1)))).
Proof.
  split; [|split].
  - intros isAuto names Hmode. unfold GetVMSetNames. rewrite Hmode. reflexivity.
  - intros isAuto names s1 Hmode Hnodes.
    unfold GetVMSetNames, mbind, M_bind. rewrite Hmode. simpl.
    rewrite Hnodes. reflexivity.
  - intros scaleSetNames s1 Hnodes Hne.
    assert (Hlen : (length scaleSetNames =? 0)%nat = false).
    { destruct scaleSetNames; [congruence | reflexivity]. }
    split.
    + intros names Hmode.
      unfold GetVMSetNames, mbind, M_bind. rewrite Hmode. simpl.
      rewrite Hnodes. simpl. rewrite Hlen. reflexivity.
    + intros first rest Hmode.
      assert (Hrun :
        GetVMSetNames ss service nodes s
        = let '(selected, err) :=
            validateVMSetNames (sortStrings scaleSetNames) (first :: rest) false in
          if notNil err then (Returns (None, err), s1)
          else (Returns (Some selected, None), s1)).
      { unfold GetVMSetNames, mbind, M_bind. rewrite Hmode.
        cbn [negb]. cbv beta iota. rewrite Hnodes.
        cbn [notNil deref]. unfold mret, M_ret. rewrite Hlen.
        change (length (first :: rest) =? 0)%nat with false. cbv iota.
        destruct (validateVMSetNames (sortStrings scaleSetNames) (first :: rest) false)
          as [selected [e|]]; reflexivity. }
      rewrite Hrun. clear Hrun. split.
      * intros Hnone. simpl.
        rewrite find_is_None; [reflexivity|].
        intros x Hx. apply Hnone, elem_of_sortStrings, Hx.
      * intros (ssName & Hin & Hmatch).
        destruct (find_is_Some (fun x => EqualFold x first)
                    (sortStrings scaleSetNames)) as [hit Hhit].
        { exists ssName. split; [apply elem_of_sortStrings; exact Hin | exact Hmatch]. }
        simpl. rewrite Hhit. simpl. rewrite validateVMSetNames_found. reflexivity.
Qed.

(** *** [getNodesScaleSets] *)

Lemma nodesScaleSetsLoop_step (ss : Cloud) (w : W) (curNode : Node)
  (rest : list Node) (scalesets : gmap string (gset string))
  (standardNodes : list Node) :
  nodesScaleSetsLoop ss w (curNode :: rest) scalesets standardNodes =
    if excludedFromBackendPool ss w curNode
    then nodesScaleSetsLoop ss w rest scalesets standardNodes
    else
      match extractScaleSetNameByProviderID (ProviderID curNode) with
      | (_, Some _) =>
          nodesScaleSetsLoop ss w rest scalesets (standardNodes ++ [curNode])
      | (curScaleSetName, None) =>
          match getLastSegment (ProviderID curNode) with
          | (_, Some e) => (None, None, Some e)
          | (instanceID, None) =>
              nodesScaleSetsLoop ss w rest
                (<[curScaleSetName :=
                     {[ instanceID ]} ∪ default ∅ (scalesets !! curScaleSetName)]>
                   scalesets)
                standardNodes
          end
      end.
Proof.
  simpl. unfold excludedFromBackendPool.
  destruct (useStandardLoadBalancer ss && excludeMasterNodesFromStandardLB ss
            && isMasterNode curNode); [reflexivity|]. simpl.
  destruct (ShouldNodeExcludedFromLoadBalancer curNode w); [reflexivity|].
  destruct (extractScaleSetNameByProviderID (ProviderID curNode)) as [name [e|]];
    [reflexivity|]. simpl.
  destruct (getLastSegment (ProviderID curNode)) as [id [e|]]; [reflexivity|].
  simpl. destruct (scalesets !! name) as [ids|] eqn:Hname.
  - rewrite Hname. reflexivity.
  - rewrite lookup_insert_eq, insert_insert_eq. simpl.
    rewrite union_empty_r_L. reflexivity.
Qed.

Lemma nodesScaleSetsLoop_spec (ss : Cloud) (w : W) (nodes : list Node) :
  forall (scalesets0 : gmap string (gset string)) (standardNodes0 : list Node)
         scalesets standardNodes,
    nodesScaleSetsLoop ss w nodes scalesets0 standardNodes0
    = (Some scalesets, Some standardNodes, None) ->
    standardNodes
    = standardNodes0
      ++ filter (fun node =>
                   excludedFromBackendPool ss w node = false
                   /\ (extractScaleSetNameByProviderID (ProviderID node)).2 <> None)
           nodes
    /\ ((forall name ids, scalesets0 !! name = Some ids -> ids <> ∅) ->
        forall name ids, scalesets !! name = Some ids -> ids <> ∅)
    /\ (forall name id,
          (exists ids, scalesets !! name = Some ids /\ id ∈ ids) <->
          (exists ids, scalesets0 !! name = Some ids /\ id ∈ ids)
          \/ instanceOf ss w nodes name id).
Proof.
  induction nodes as [|curNode rest IH];
    intros scalesets0 standardNodes0 scalesets standardNodes Hrun.
  - simpl in Hrun. injection Hrun as <- <-.
    split; [rewrite filter_nil, app_nil_r; reflexivity|].
    split; [tauto|].
    intros name id. split; [tauto|].
    intros [H|(node & Hin & _)]; [exact H|]. inversion Hin.
  - rewrite nodesScaleSetsLoop_step in Hrun.
    destruct (excludedFromBackendPool ss w curNode) eqn:Hex.
    { apply IH in Hrun as (Hstd & Hne & Hids).
      split; [|split].
      - rewrite filter_cons_False; [exact Hstd|]. intros [Hf _]. congruence.
      - exact Hne.
      - intros name id. rewrite Hids. apply or_iff_compat_l.
        split; intros (node & Hin & Hrest).
        + exists node. split; [right; exact Hin | exact Hrest].
        + exists node. apply elem_of_cons in Hin as [->|Hin].
          * destruct Hrest as [Hf _]. congruence.
          * split; assumption. }
    destruct (extractScaleSetNameByProviderID (ProviderID curNode))
      as [curName [e|]] eqn:Hname.
    { apply IH in Hrun as (Hstd & Hne & Hids).
      split; [|split].
      - rewrite filter_cons_True.
        + rewrite Hstd, <- app_assoc. reflexivity.
        + split; [exact Hex|]. rewrite Hname. discriminate.
      - exact Hne.
      - intros name id. rewrite Hids. apply or_iff_compat_l.
        split; intros (node & Hin & Hrest).
        + exists node. split; [right; exact Hin | exact Hrest].
        + exists node. apply elem_of_cons in Hin as [->|Hin].
          * destruct Hrest as (_ & Hn & _). congruence.
          * split; assumption. }
    destruct (getLastSegment (ProviderID curNode)) as [curID [e|]] eqn:Hseg;
      [discriminate|].
    apply IH in Hrun as (Hstd & Hne & Hids).
    split; [|split].
    + rewrite filter_cons_False; [exact Hstd|].
      intros [_ Hf]. rewrite Hname in Hf. apply Hf. reflexivity.
    + intros Hne0. apply Hne. intros name ids Hlook.
      destruct (decide (name = curName)) as [->|Hneq].
      * rewrite lookup_insert_eq in Hlook. injection Hlook as <-.
        intros Hempty.
        assert (curID ∈ ({[curID]} ∪ default ∅ (scalesets0 !! curName) : gset string))
          as Hin by (apply elem_of_union_l, elem_of_singleton; reflexivity).
        rewrite Hempty in Hin. exact (not_elem_of_empty _ Hin).
      * rewrite lookup_insert_ne in Hlook by congruence. exact (Hne0 _ _ Hlook).
    + intros name id. rewrite Hids. split.
      * intros [(ids & Hlook & Hin)|(node & Hin & Hrest)].
        -- destruct (decide (name = curName)) as [->|Hneq].
           ++ rewrite lookup_insert_eq in Hlook. injection Hlook as <-.
              apply elem_of_union in Hin as [Hin|Hin].
              ** apply elem_of_singleton in Hin as ->. right.
                 exists curNode. split; [left|]. repeat split; assumption.
              ** left. destruct (scalesets0 !! curName) as [ids0|].
                 --- exists ids0. split; [reflexivity | exact Hin].
                 --- exfalso. exact (not_elem_of_empty _ Hin).
           ++ rewrite lookup_insert_ne in Hlook by congruence.
              left. exists ids. split; assumption.
        -- right. exists node. split; [right; exact Hin | exact Hrest].
      * intros [(ids & Hlook & Hin)|(node & Hin & Hrest)].
        -- left. destruct (decide (name = curName)) as [->|Hneq].
           ++ eexists. rewrite lookup_insert_eq. split; [reflexivity|].
              rewrite Hlook. simpl. apply elem_of_union_r. exact Hin.
           ++ exists ids. rewrite lookup_insert_ne by congruence.
              split; assumption.
        -- apply elem_of_cons in Hin as [->|Hin].
           ++ destruct Hrest as (_ & Hn & Hs).
              rewrite Hname in Hn. rewrite Hseg in Hs.
              injection Hn as <-. injection Hs as <-.
              left. eexists. rewrite lookup_insert_eq. split; [reflexivity|].
              apply elem_of_union_l, elem_of_singleton. reflexivity.
           ++ right. exists node. split; assumption.
Qed.

(** X20.  When [getNodesScaleSets] succeeds, the nodes it returns are
    the nodes that are not left out and whose provider ID names no
    scale set, in the order of the input; an instance ID is in the set
    of a scale set exactly when it is the last segment of the provider
    ID of a node of that scale set that is not left out; and no scale
    set of the map has an empty set of instances. *)
Theorem getNodesScaleSets_instances (ss : Cloud) (nodes : list Node) (w : W)
  (scalesets : gmap string (gset string)) (standardNodes : list Node) :
  getNodesScaleSets ss nodes w = (Some scalesets, Some standardNodes, None) ->
  standardNodes
  = filter (fun node =>
              excludedFromBackendPool ss w node = false
              /\ (extractScaleSetNameByProviderID (ProviderID node)).2 <> None)
      nodes
  /\ (forall name ids, scalesets !! name = Some ids -> ids <> ∅)
  /\ (forall name id,
        (exists ids, scalesets !! name = Some ids /\ id ∈ ids) <->
        instanceOf ss w nodes name id).
Proof.
  intros Hrun. apply nodesScaleSetsLoop_spec in Hrun as (Hstd & Hne & Hids).
  split; [exact Hstd|]. split.
  - apply Hne. intros name ids Hlook. rewrite lookup_empty in Hlook. discriminate.
  - intros name id. rewrite Hids. split; [|right; assumption].
    intros [(ids & Hlook & _)|H]; [|exact H].
    rewrite lookup_empty in Hlook. discriminate.
Qed.

End VMSetNames.


(** *** The properties on the small world *)

Lemma ensureScaleSetBackendPoolDeleted_calls_witness :
  ensureScaleSetBackendPoolDeleted
    (P := scaleSetPlatform basicLB
            (Some (scaleSetWithPools (Some [ {| ID := Some poolA |} ])))
            (Some 200, None))
    simCloud None poolAUpper "vmss-a" (mkState emptyWorld [])
  = (Returns None,
     mkState emptyWorld
       [GetScaleSet "vmss-a";
        CreateOrUpdateVMSS (scaleSetWithPools (Some []));
        UpdateVMSSInstances "vmss-a" ["*"];
        CreateOrUpdateVMSS (scaleSetWithPools (Some []))]).
Proof.
  refine (eq_trans
    (proj2 (ensureScaleSetBackendPoolDeleted_calls
              (P := scaleSetPlatform basicLB
                      (Some (scaleSetWithPools (Some [ {| ID := Some poolA |} ])))
                      (Some 200, None))
              simCloud None poolAUpper "vmss-a" (mkState emptyWorld []))
       (scaleSetWithPools (Some [ {| ID := Some poolA |} ])) emptyWorld
       [ {| nic_Name := Some "nic0"; nic_Primary := Some true;
            IPConfigurations := Some [ {|
              ip_Name := Some "ipconfig0"; ip_Primary := Some true;
              PrivateIPAddressVersion := IPv4;
              LoadBalancerBackendAddressPools := Some [ {| ID := Some poolA |} ] |} ] |} ]
       0%nat 0%nat [] {| ID := Some poolA |} [] emptyWorld emptyWorld
       eq_refl _ _ _ _ _ eq_refl eq_refl) _).
  - repeat eexists.
  - repeat constructor; discriminate.
  - constructor.
  - vm_compute. reflexivity.
  - constructor.
  - vm_compute. reflexivity.
Defined.

Lemma ensureHostsInVMSetPool_calls_witness :
  ensureHostsInVMSetPool
    (P := scaleSetPlatform basicLB
            (Some (scaleSetWithPools (Some [ {| ID := Some poolA |} ])))
            (Some 200, None))
    simCloud None poolAUpper "vmss-a" ["1"] false (mkState emptyWorld [])
  = (Returns None,
     mkState emptyWorld
       [GetScaleSet "vmss-a"; UpdateVMSSInstances "vmss-a" ["1"]])
  /\ ensureHostsInVMSetPool
       (P := scaleSetPlatform basicLB (Some (scaleSetWithPools None)) (Some 200, None))
       simCloud None poolA "vmss-a" ["1"] false (mkState emptyWorld [])
     = (Returns None,
        mkState emptyWorld
          [GetScaleSet "vmss-a";
           CreateOrUpdateVMSS (scaleSetWithPools (Some [ {| ID := Some poolA |} ]));
           UpdateVMSSInstances "vmss-a" ["1"]]).
Proof.
  split.
  - refine (eq_trans
      (proj1 (proj2 (ensureHostsInVMSetPool_calls
                (P := scaleSetPlatform basicLB
                        (Some (scaleSetWithPools (Some [ {| ID := Some poolA |} ])))
                        (Some 200, None))
                simCloud None poolAUpper "vmss-a" ["1"] false (mkState emptyWorld []))
         (scaleSetWithPools (Some [ {| ID := Some poolA |} ])) emptyWorld
         [ {| nic_Name := Some "nic0"; nic_Primary := Some true;
              IPConfigurations := Some [ {|
                ip_Name := Some "ipconfig0"; ip_Primary := Some true;
                PrivateIPAddressVersion := IPv4;
                LoadBalancerBackendAddressPools :=
                  Some [ {| ID := Some poolA |} ] |} ] |} ]
         0%nat 0%nat (Some [ {| ID := Some poolA |} ]) eq_refl _ _) _) _).
    + repeat eexists.
    + repeat constructor; discriminate.
    + constructor. vm_compute. reflexivity.
    + reflexivity.
  - refine (eq_trans
      (proj2 (proj1 (proj2 (proj2 (ensureHostsInVMSetPool_calls
                (P := scaleSetPlatform basicLB (Some (scaleSetWithPools None))
                        (Some 200, None))
                simCloud None poolA "vmss-a" ["1"] false (mkState emptyWorld []))
         (scaleSetWithPools None) emptyWorld
         [ {| nic_Name := Some "nic0"; nic_Primary := Some true;
              IPConfigurations := Some [ {|
                ip_Name := Some "ipconfig0"; ip_Primary := Some true;
                PrivateIPAddressVersion := IPv4;
                LoadBalancerBackendAddressPools := None |} ] |} ]
         0%nat 0%nat None eq_refl _ _) _) _) emptyWorld eq_refl) _).
    + repeat eexists.
    + constructor.
    + constructor.
    + discriminate.
    + reflexivity.
Defined.

Lemma getVmssVMByInstanceID_lookup_witness :
  exists k e,
    listingA !! k = Some e
    /\ matchesEntry (P := simPlatform basicLB) "RG" "VMSS-A" "1" e = true
    /\ getVmssVMByInstanceID (P := simPlatform basicLB) "RG" "VMSS-A" "1"
         cacheReadTypeUnsafe (mkState (worldA runningVM) [])
       = (Returns (virtualMachine e, None),
          mkState (cachedWorldA runningVM)
            [CacheGet vmssVMCache "k8svmssVirtualMachinesKey" cacheReadTypeUnsafe]).
Proof.
  refine (proj1 (getVmssVMByInstanceID_lookup (P := simPlatform basicLB)
                   "RG" "VMSS-A" "1" cacheReadTypeUnsafe
                   (mkState (worldA runningVM) []) listingA (cachedWorldA runningVM)
                   eq_refl) _).
  exists nodeA. eexists. split; [reflexivity|]. vm_compute. reflexivity.
Defined.

Lemma GetVMSetNames_first_name_witness :
  GetVMSetNames (P := simPlatform basicLB)
    (N := simNodes (Some ["VMSS-A"; "vmss-unknown"]))
    simCloud None [ {| node_Name := nodeA; ProviderID := "vmss-a/1" |} ]
    (mkState (worldA runningVM) [])
  = (Returns (Some ["vmss-a"; "vmss-unknown"], None),
     mkState (cachedWorldA runningVM)
       [CacheGet vmssVMCache "k8svmssVirtualMachinesKey" cacheReadTypeDefault])
  /\ GetVMSetNames (P := simPlatform basicLB)
       (N := simNodes (Some ["vmss-unknown"; "VMSS-A"]))
       simCloud None [ {| node_Name := nodeA; ProviderID := "vmss-a/1" |} ]
       (mkState (worldA runningVM) [])
     = (Returns (None, Some (Errorf "scale set (%s) - not found" ["vmss-unknown"])),
        mkState (cachedWorldA runningVM)
          [CacheGet vmssVMCache "k8svmssVirtualMachinesKey" cacheReadTypeDefault]).
Proof.
  split.
  - refine (eq_trans
      (proj2 (proj2 (proj2 (proj2 (GetVMSetNames_first_name
                (P := simPlatform basicLB)
                (N := simNodes (Some ["VMSS-A"; "vmss-unknown"]))
                simCloud None [ {| node_Name := nodeA; ProviderID := "vmss-a/1" |} ]
                (mkState (worldA runningVM) [])))
         ["vmss-a"]
         (mkState (cachedWorldA runningVM)
            [CacheGet vmssVMCache "k8svmssVirtualMachinesKey" cacheReadTypeDefault])
         eq_refl _) "VMSS-A" ["vmss-unknown"] eq_refl) _) _).
    + discriminate.
    + exists "vmss-a". split; [apply list_elem_of_singleton; reflexivity|].
      vm_compute. reflexivity.
    + vm_compute. reflexivity.
  - refine (proj1 (proj2 (proj2 (proj2 (GetVMSetNames_first_name
                (P := simPlatform basicLB)
                (N := simNodes (Some ["vmss-unknown"; "VMSS-A"]))
                simCloud None [ {| node_Name := nodeA; ProviderID := "vmss-a/1" |} ]
                (mkState (worldA runningVM) [])))
         ["vmss-a"]
         (mkState (cachedWorldA runningVM)
            [CacheGet vmssVMCache "k8svmssVirtualMachinesKey" cacheReadTypeDefault])
         eq_refl _) "vmss-unknown" ["VMSS-A"] eq_refl) _).
    + discriminate.
    + intros ssName Hin. apply list_elem_of_singleton in Hin as ->.
      vm_compute. reflexivity.
Defined.

Lemma getNodesScaleSets_instances_witness :
  [ {| node_Name := "vm-standalone"; ProviderID := "standalone" |} ]
  = filter (fun node =>
              excludedFromBackendPool
                (P := scaleSetPlatform standardLBOtherLB None (Some 200, None))
                (N := simNodes None) simCloud emptyWorld node = false
              /\ (extractScaleSetNameByProviderID
                    (P := scaleSetPlatform standardLBOtherLB None (Some 200, None))
                    (ProviderID node)).2 <> None)
      [ {| node_Name := "master"; ProviderID := "vmss-m/0" |};
        {| node_Name := nodeA; ProviderID := "vmss-a/1" |};
        {| node_Name := "vm-standalone"; ProviderID := "standalone" |} ]
  /\ exists ids : gset string,
       ({[ "vmss-a" := ({[ "1" ]} : gset string) ]} : gmap string (gset string))
         !! "vmss-a" = Some ids
       /\ "1" ∈ ids.
Proof.
  pose proof (getNodesScaleSets_instances
                (P := scaleSetPlatform standardLBOtherLB None (Some 200, None))
                (N := simNodes None) simCloud
                [ {| node_Name := "master"; ProviderID := "vmss-m/0" |};
                  {| node_Name := nodeA; ProviderID := "vmss-a/1" |};
                  {| node_Name := "vm-standalone"; ProviderID := "standalone" |} ]
                emptyWorld {[ "vmss-a" := ({[ "1" ]} : gset string) ]}
                [ {| node_Name := "vm-standalone"; ProviderID := "standalone" |} ]
                eq_refl) as (Hstd & _ & Hids).
  split; [exact Hstd|].
  apply Hids. exists {| node_Name := nodeA; ProviderID := "vmss-a/1" |}.
  split; [right; left|]. repeat split; reflexivity.
Defined.

End AzureVmssSetsSpec.

(** ** azure_vmss.go: [getScaleSet] *)

Module AzureVmssGetScaleSetSpec.
Import Wait AzureBackoffWrappers AzureVmss AzureVmssGetScaleSet.

Section GetScaleSetFacts.
Context {W : Type} {P : Platform W} {B : BackoffConfig}.

Lemma getScaleSetCondition_loop (name : string) (n : nat) :
  forall (b : bool) (result : VirtualMachineScaleSet) (exists_ : bool)
         (s : state W) err result' exists' s',
    (exists_ = false -> result = zeroVirtualMachineScaleSet) ->
    backoffLoop n (guarded (getScaleSetCondition name)) (b, (result, exists_, s))
    = (err, (false, (result', exists', s'))) ->
    (err = None \/ err = Some ErrWaitTimeout)
    /\ (exists' = false -> result' = zeroVirtualMachineScaleSet).
Proof.
  induction n as [|n IH]; intros b result exists_ s err result' exists' s' Hinv Hrun.
  - simpl in Hrun. injection Hrun as <- _ <- <- <-.
    split; [right; reflexivity | exact Hinv].
  - simpl in Hrun. unfold getScaleSetCondition at 1 in Hrun.
    unfold cacheGet, call in Hrun.
    destruct (timedCache_Get vmssVMCache name cacheReadTypeDefault (world s))
      as [[c [e|]] w1]; simpl in Hrun.
    + apply IH in Hrun; [exact Hrun | exact Hinv].
    + destruct c as [|m|vmss]; simpl in Hrun.
      * injection Hrun as <- <- <- <-. split; [left; reflexivity | exact Hinv].
      * discriminate.
      * injection Hrun as <- <- <- <-. split; [left; reflexivity | discriminate].
Qed.

(** X21.  [getScaleSet] never hands out the error of the cache: the
    error it returns is nil or, with the backoff, [wait.ErrWaitTimeout],
    and whenever it reports that the scale set does not exist the scale
    set it returns is the zero value.  Without the backoff a read of
    the cache that fails is reported as a scale set that does not
    exist, with a nil error, after that single read; the cache read is
    [vmssVMCache], under the name of the scale set. *)
Theorem getScaleSet_hides_cache_error (ss : Cloud) (service : option Service)
  (name : string) (s : state W) :
  (forall result exists_ err s',
      getScaleSet ss service name s = (Returns (result, exists_, err), s') ->
      (err = None \/ err = Some ErrWaitTimeout)
      /\ (exists_ = false -> result = zeroVirtualMachineScaleSet))
  /\ (shouldOmitCloudProviderBackoff ss = true ->
      forall cached e w1,
        timedCache_Get vmssVMCache name cacheReadTypeDefault (world s)
        = ((cached, Some e), w1) ->
        getScaleSet ss service name s
        = (Returns (zeroVirtualMachineScaleSet, false, None),
           mkState w1 (log s ++ [CacheGet vmssVMCache name cacheReadTypeDefault]))).
Proof.
  split.
  - intros result exists_ err s'. unfold getScaleSet.
    destruct (shouldOmitCloudProviderBackoff ss).
    + unfold mbind, M_bind, cacheGet, call.
      destruct (timedCache_Get vmssVMCache name cacheReadTypeDefault (world s))
        as [[c [e|]] w1]; simpl.
      * intros [= <- <- <- <-]. split; [left|]; reflexivity.
      * destruct c as [|m|vmss]; simpl; try discriminate.
        -- intros [= <- <- <- <-]. split; [left|]; reflexivity.
        -- intros [= <- <- <- <-]. split; [left; reflexivity | discriminate].
    + unfold getScaleSetWithRetry, ExponentialBackoffOrPanic, ExponentialBackoff.
      destruct (backoffLoop _ (guarded (getScaleSetCondition name))
                  (false, (zeroVirtualMachineScaleSet, false, s)))
        as [e [p [[r x] s1]]] eqn:Hrun.
      destruct p; [discriminate|]. intros [= <- <- <- <-].
      apply (getScaleSetCondition_loop name _ _ _ _ _ _ _ _ _ (fun _ => eq_refl) Hrun).
  - intros Homit cached e w1 Hget. unfold getScaleSet. rewrite Homit.
    unfold mbind, M_bind, cacheGet, call. rewrite Hget. reflexivity.
Qed.

End GetScaleSetFacts.

Lemma getScaleSet_hides_cache_error_witness :
  getScaleSet (P := failingCache) (B := withoutBackoff) simCloud None "vmss-a"
    (mkState 0%nat [])
  = (Returns (zeroVirtualMachineScaleSet, false, None),
     mkState 1%nat [CacheGet vmssVMCache "vmss-a" cacheReadTypeDefault])
  /\ (Some ErrWaitTimeout = None \/ Some ErrWaitTimeout = Some ErrWaitTimeout).
Proof.
  split.
  - exact (proj2 (getScaleSet_hides_cache_error (P := failingCache)
                    (B := withoutBackoff) simCloud None "vmss-a" (mkState 0%nat []))
             eq_refl cachedNil (ErrorString "cache unavailable") 1%nat eq_refl).
  - exact (proj1 (proj1 (getScaleSet_hides_cache_error (P := failingCache)
                    (B := threeSteps) simCloud None "vmss-a" (mkState 0%nat []))
             zeroVirtualMachineScaleSet false (Some ErrWaitTimeout)
             (mkState 3%nat [CacheGet vmssVMCache "vmss-a" cacheReadTypeDefault;
                             CacheGet vmssVMCache "vmss-a" cacheReadTypeDefault;
                             CacheGet vmssVMCache "vmss-a" cacheReadTypeDefault])
             eq_refl)).
Defined.

End AzureVmssGetScaleSetSpec.

(** ** azure_backoff.go: one call per operation when the backoff is disabled *)

Module AzureBackoffOnce.
Import Wait WaitFacts AzureBackoff AzureBackoffWrappers AzureBackoffClients.

Lemma requestBackoff_disabled (az : Cloud) :
  CloudProviderBackoff az = false ->
  Z.to_nat (Steps (requestBackoff az)) = 1%nat.
Proof. intros Hoff. unfold requestBackoff. rewrite Hoff. reflexivity. Qed.

(** With the backoff disabled the loop is one run of the condition. *)
Lemma ExponentialBackoffOrPanic_disabled {S} (az : Cloud)
  (condition : S -> outcome (bool * option error) * S) (s : S) :
  CloudProviderBackoff az = false ->
  ExponentialBackoffOrPanic (requestBackoff az) condition s
  = match condition s with
    | (Returns (ok, err), s') =>
        (Returns (if notNil err || ok then err else Some ErrWaitTimeout), s')
    | (Panics, s') => (Panics, s')
    end.
Proof.
  intros Hoff. unfold ExponentialBackoffOrPanic, ExponentialBackoff.
  rewrite (requestBackoff_disabled az Hoff). simpl.
  destruct (condition s) as [[[ok err]|] s']; [|reflexivity]. simpl.
  destruct (notNil err || ok); reflexivity.
Qed.

(** One attempt of a wrapper that reads the HTTP response. *)
Lemma httpAttempt_once {W} (az : Cloud)
  (call : St W (autorest_Response * option error)) :
  CloudProviderBackoff az = false ->
  callsOnce
    (ExponentialBackoffOrPanic (requestBackoff az)
       (fun w => let '((resp, err), w') := call w in
                 (processRetryResponse resp err, w')))
    call httpResult.
Proof.
  intros Hoff w. rewrite (ExponentialBackoffOrPanic_disabled az _ w Hoff).
  unfold httpResult. destruct (call w) as [[resp err] w']. simpl.
  rewrite <- AzureBackoffWrappersSpec.processRetryResponse_singleAttempt.
  destruct (processRetryResponse resp err) as [[ok e]|]; reflexivity.
Qed.

Section ListOnce.
Context {W E Page : Type} (zeroPage : Page).
Context (PageResponse : Page -> LoadBalancerListResult E).
Context (PageNext : Page -> St W (Page * option error)).
Context (List : string -> St W (Page * option error)).

Lemma ListLBWithRetry_fetchesOnce (az : Cloud) :
  CloudProviderBackoff az = false ->
  fetchesOnce PageResponse PageNext List az
    (fun fuel w => ListLBWithRetry E Page zeroPage PageResponse PageNext List fuel az w).
Proof.
  intros Hoff.
  assert (Hfirst : forall result resultPage w,
    ExponentialBackoff (requestBackoff az)
      (listCondition E Page PageResponse List az) (result, resultPage, w)
    = ((List (ResourceGroup az) w).1.2,
       (PageResponse (List (ResourceGroup az) w).1.1,
        (List (ResourceGroup az) w).1.1,
        (List (ResourceGroup az) w).2))).
  { intros result resultPage w. unfold ExponentialBackoff.
    rewrite (requestBackoff_disabled az Hoff). simpl.
    destruct (List (ResourceGroup az) w) as [[page [e|]] w']; reflexivity. }
  split; [exact Hfirst|]. split; [|split].
  - intros result resultPage w. unfold ExponentialBackoff.
    rewrite (requestBackoff_disabled az Hoff). simpl.
    destruct (PageNext resultPage w) as [[page [e|]] w']; reflexivity.
  - intros fuel w e He. unfold ListLBWithRetry. rewrite Hfirst, He. reflexivity.
  - intros fuel w Hok Hlast Hfuel. unfold ListLBWithRetry.
    rewrite Hfirst, Hok.
    destruct (List (ResourceGroup az) w) as [[page e] w']. simpl in *.
    destruct (hasValues E (PageResponse page)) eqn:Hv.
    + destruct fuel as [|fuel]; [lia|]. simpl. rewrite Hlast. reflexivity.
    + destruct fuel; simpl; f_equal; f_equal; f_equal;
        unfold hasValues in Hv; unfold values;
        destruct (Value E (PageResponse page)) as [[|x l]|];
        try reflexivity; discriminate.
Qed.

End ListOnce.

Section EveryOperation.
Context {W : Type}.
Context (RouteTableName : Cloud -> string).
Context (VirtualMachine : Type) (zeroVirtualMachine : VirtualMachine).
Context (getVirtualMachine : Cloud -> string -> St W (VirtualMachine * option error)).
Context (getIPForMachine : Cloud -> string -> St W (string * option error)).
Context (SecurityGroupsClient_CreateOrUpdate :
  string -> string -> SecurityGroup -> St W (autorest_Response * option error)).
Context (LoadBalancerClient_CreateOrUpdate :
  string -> string -> LoadBalancer -> St W (autorest_Response * option error)).
Context (PublicIPAddressesClient_CreateOrUpdate :
  string -> string -> PublicIPAddress -> St W (autorest_Response * option error)).
Context (InterfacesClient_CreateOrUpdate :
  string -> string -> Interface -> St W (autorest_Response * option error)).
Context (RouteTablesClient_CreateOrUpdate :
  string -> string -> RouteTable -> St W (autorest_Response * option error)).
Context (RoutesClient_CreateOrUpdate :
  string -> string -> string -> Route -> St W (autorest_Response * option error)).
Context (VirtualMachinesClient_CreateOrUpdate :
  string -> string -> VirtualMachine -> St W (autorest_Response * option error)).
Context (PublicIPAddressesClient_Delete LoadBalancerClient_Delete :
  string -> string -> St W (autorest_Response * option error)).
Context (RoutesClient_Delete :
  string -> string -> string -> St W (autorest_Response * option error)).
Context (LoadBalancerListResultPage : Type) (zeroLoadBalancerPage : LoadBalancerListResultPage).
Context (LoadBalancerPageResponse :
  LoadBalancerListResultPage -> LoadBalancerListResult LoadBalancer).
Context (LoadBalancerPageNext :
  LoadBalancerListResultPage -> St W (LoadBalancerListResultPage * option error)).
Context (LoadBalancerClient_List :
  string -> St W (LoadBalancerListResultPage * option error)).
Context (PublicIPAddressListResultPage : Type)
  (zeroPublicIPAddressPage : PublicIPAddressListResultPage).
Context (PublicIPAddressPageResponse :
  PublicIPAddressListResultPage -> LoadBalancerListResult PublicIPAddress).
Context (PublicIPAddressPageNext :
  PublicIPAddressListResultPage -> St W (PublicIPAddressListResultPage * option error)).
Context (PublicIPAddressesClient_List :
  string -> St W (PublicIPAddressListResultPage * option error)).
Context (VirtualMachineListResultPage : Type)
  (zeroVirtualMachinePage : VirtualMachineListResultPage).
Context (VirtualMachinePageResponse :
  VirtualMachineListResultPage -> LoadBalancerListResult VirtualMachine).
Context (VirtualMachinePageNext :
  VirtualMachineListResultPage -> St W (VirtualMachineListResultPage * option error)).
Context (VirtualMachinesClient_List :
  string -> St W (VirtualMachineListResultPage * option error)).

(** C5 (as amended).  With [CloudProviderBackoff] unset [requestBackoff]
    returns a [wait.Backoff] whose [Steps] is 1, and every operation
    that the file runs under it does what one call of its SDK
    client does: it leaves the world that this one call leaves and
    returns what follows from the answer of that call.  The wrappers
    that dereference the name of their resource do so when the name is
    there; with a nil name they panic before the call and the world is
    the one they were called in.  The list wrappers fetch each page
    with one call.  With [CloudProviderBackoff] set [requestBackoff]
    returns [az.resourceRequestBackoff] as it is. *)
Theorem requestBackoff_calls_once (az : Cloud) :
  (CloudProviderBackoff az = false ->
   Steps (requestBackoff az) = 1
   /\ (forall name,
         callsOnce
           (GetVirtualMachineWithRetry VirtualMachine zeroVirtualMachine
              getVirtualMachine az name)
           (getVirtualMachine az name) id)
   /\ (forall name,
         callsOnce (GetIPForMachineWithRetry getIPForMachine az name)
           (getIPForMachine az name) timeoutOnError)
   /\ (forall sg,
         match sg_Name sg with
         | Some name =>
             callsOnce
               (CreateOrUpdateSGWithRetry SecurityGroupsClient_CreateOrUpdate az sg)
               (SecurityGroupsClient_CreateOrUpdate (ResourceGroup az) name sg)
               httpResult
         | None =>
             forall w,
               CreateOrUpdateSGWithRetry SecurityGroupsClient_CreateOrUpdate az sg w
               = (Panics, w)
         end)
   /\ (forall lb,
         match lb_Name lb with
         | Some name =>
             callsOnce
               (CreateOrUpdateLBWithRetry LoadBalancerClient_CreateOrUpdate az lb)
               (LoadBalancerClient_CreateOrUpdate (ResourceGroup az) name lb)
               httpResult
         | None =>
             forall w,
               CreateOrUpdateLBWithRetry LoadBalancerClient_CreateOrUpdate az lb w
               = (Panics, w)
         end)
   /\ (forall pip,
         match pip_Name pip with
         | Some name =>
             callsOnce
               (CreateOrUpdatePIPWithRetry PublicIPAddressesClient_CreateOrUpdate az pip)
               (PublicIPAddressesClient_CreateOrUpdate (ResourceGroup az) name pip)
               httpResult
         | None =>
             forall w,
               CreateOrUpdatePIPWithRetry PublicIPAddressesClient_CreateOrUpdate az pip w
               = (Panics, w)
         end)
   /\ (forall nic,
         match nic_Name nic with
         | Some name =>
             callsOnce
               (CreateOrUpdateInterfaceWithRetry InterfacesClient_CreateOrUpdate az nic)
               (InterfacesClient_CreateOrUpdate (ResourceGroup az) name nic)
               httpResult
         | None =>
             forall w,
               CreateOrUpdateInterfaceWithRetry InterfacesClient_CreateOrUpdate az nic w
               = (Panics, w)
         end)
   /\ (forall routeTable,
         match rt_Name routeTable with
         | Some _ =>
             callsOnce
               (CreateOrUpdateRouteTableWithRetry RouteTableName
                  RouteTablesClient_CreateOrUpdate az routeTable)
               (RouteTablesClient_CreateOrUpdate (ResourceGroup az)
                  (RouteTableName az) routeTable)
               httpResult
         | None =>
             forall w,
               CreateOrUpdateRouteTableWithRetry RouteTableName
                 RouteTablesClient_CreateOrUpdate az routeTable w
               = (Panics, w)
         end)
   /\ (forall route,
         match route_Name route with
         | Some name =>
             callsOnce
               (CreateOrUpdateRouteWithRetry RouteTableName
                  RoutesClient_CreateOrUpdate az route)
               (RoutesClient_CreateOrUpdate (ResourceGroup az)
                  (RouteTableName az) name route)
               httpResult
         | None =>
             forall w,
               CreateOrUpdateRouteWithRetry RouteTableName
                 RoutesClient_CreateOrUpdate az route w
               = (Panics, w)
         end)
   /\ (forall vmName newVM,
         callsOnce
           (CreateOrUpdateVMWithRetry VirtualMachine
              VirtualMachinesClient_CreateOrUpdate az vmName newVM)
           (VirtualMachinesClient_CreateOrUpdate (ResourceGroup az) vmName newVM)
           httpResult)
   /\ (forall pipName,
         callsOnce (DeletePublicIPWithRetry PublicIPAddressesClient_Delete az pipName)
           (PublicIPAddressesClient_Delete (ResourceGroup az) pipName) httpResult)
   /\ (forall lbName,
         callsOnce (DeleteLBWithRetry LoadBalancerClient_Delete az lbName)
           (LoadBalancerClient_Delete (ResourceGroup az) lbName) httpResult)
   /\ (forall routeName,
         callsOnce (DeleteRouteWithRetry RouteTableName RoutesClient_Delete az routeName)
           (RoutesClient_Delete (ResourceGroup az) (RouteTableName az) routeName)
           httpResult)
   /\ fetchesOnce LoadBalancerPageResponse LoadBalancerPageNext
        LoadBalancerClient_List az
        (fun fuel w =>
           ListLBWithRetry LoadBalancer LoadBalancerListResultPage
             zeroLoadBalancerPage LoadBalancerPageResponse LoadBalancerPageNext
             LoadBalancerClient_List fuel az w)
   /\ fetchesOnce PublicIPAddressPageResponse PublicIPAddressPageNext
        PublicIPAddressesClient_List az
        (fun fuel w =>
           ListPIPWithRetry PublicIPAddressListResultPage zeroPublicIPAddressPage
             PublicIPAddressPageResponse PublicIPAddressPageNext
             PublicIPAddressesClient_List fuel az w)
   /\ fetchesOnce VirtualMachinePageResponse VirtualMachinePageNext
        VirtualMachinesClient_List az
        (fun fuel w =>
           VirtualMachineClientListWithRetry VirtualMachine
             VirtualMachineListResultPage zeroVirtualMachinePage
             VirtualMachinePageResponse VirtualMachinePageNext
             VirtualMachinesClient_List fuel az w))
  /\ (CloudProviderBackoff az = true ->
      requestBackoff az = resourceRequestBackoff az).
Proof.
  split.
  2:{ intros Hon. unfold requestBackoff. rewrite Hon. reflexivity. }
  intros Hoff.
  split; [unfold requestBackoff; rewrite Hoff; reflexivity|].
  split.
  { intros name w. unfold GetVirtualMachineWithRetry, ExponentialBackoff.
    rewrite (requestBackoff_disabled az Hoff). simpl.
    destruct (getVirtualMachine az name w) as [[m [e|]] w']; reflexivity. }
  split.
  { intros name w. unfold GetIPForMachineWithRetry, ExponentialBackoff, timeoutOnError.
    rewrite (requestBackoff_disabled az Hoff). simpl.
    destruct (getIPForMachine az name w) as [[ip [e|]] w']; reflexivity. }
  split.
  { intros sg. unfold CreateOrUpdateSGWithRetry.
    destruct (sg_Name sg) as [name|].
    - apply (httpAttempt_once az _ Hoff).
    - intros w. rewrite (ExponentialBackoffOrPanic_disabled az _ w Hoff). reflexivity. }
  split.
  { intros lb. unfold CreateOrUpdateLBWithRetry.
    destruct (lb_Name lb) as [name|].
    - apply (httpAttempt_once az _ Hoff).
    - intros w. rewrite (ExponentialBackoffOrPanic_disabled az _ w Hoff). reflexivity. }
  split.
  { intros pip. unfold CreateOrUpdatePIPWithRetry.
    destruct (pip_Name pip) as [name|].
    - apply (httpAttempt_once az _ Hoff).
    - intros w. rewrite (ExponentialBackoffOrPanic_disabled az _ w Hoff). reflexivity. }
  split.
  { intros nic. unfold CreateOrUpdateInterfaceWithRetry.
    destruct (nic_Name nic) as [name|].
    - apply (httpAttempt_once az _ Hoff).
    - intros w. rewrite (ExponentialBackoffOrPanic_disabled az _ w Hoff). reflexivity. }
  split.
  { intros routeTable. unfold CreateOrUpdateRouteTableWithRetry.
    destruct (rt_Name routeTable) as [name|].
    - apply (httpAttempt_once az _ Hoff).
    - intros w. rewrite (ExponentialBackoffOrPanic_disabled az _ w Hoff). reflexivity. }
  split.
  { intros route. unfold CreateOrUpdateRouteWithRetry.
    destruct (route_Name route) as [name|].
    - apply (httpAttempt_once az _ Hoff).
    - intros w. rewrite (ExponentialBackoffOrPanic_disabled az _ w Hoff). reflexivity. }
  split; [intros vmName newVM; apply (httpAttempt_once az _ Hoff)|].
  split; [intros pipName; apply (httpAttempt_once az _ Hoff)|].
  split; [intros lbName; apply (httpAttempt_once az _ Hoff)|].
  split; [intros routeName; apply (httpAttempt_once az _ Hoff)|].
  split; [apply (ListLBWithRetry_fetchesOnce _ _ _ _ az Hoff)|].
  split; apply (ListLBWithRetry_fetchesOnce _ _ _ _ az Hoff).
Qed.

End EveryOperation.

(** On the world that counts the calls, [DeleteLBWithRetry] and
    [GetVirtualMachineWithRetry] leave one call behind them. *)
Lemma requestBackoff_calls_once_witness :
  DeleteLBWithRetry (fun resourceGroup lbName => countedCall)
    cloudWithoutBackoff "lb" 0%nat
  = (Returns None, 1%nat)
  /\ GetVirtualMachineWithRetry nat 0%nat countedMachine cloudWithoutBackoff
       "vm-0" 5%nat
     = ((5%nat, None), 6%nat).
Proof.
  pose proof (proj1 (requestBackoff_calls_once (W := nat)
    (fun _ => "routes") nat 0%nat countedMachine countedAddress
    (fun _ _ _ => countedCall) (fun _ _ _ => countedCall)
    (fun _ _ _ => countedCall) (fun _ _ _ => countedCall)
    (fun _ _ _ => countedCall) (fun _ _ _ _ => countedCall)
    (fun _ _ _ => countedCall)
    (fun _ _ => countedCall) (fun _ _ => countedCall)
    (fun _ _ _ => countedCall)
    (LoadBalancerListResult LoadBalancer) emptyPage id countedPage
    (fun _ => countedPage emptyPage)
    (LoadBalancerListResult PublicIPAddress) emptyPage id countedPage
    (fun _ => countedPage emptyPage)
    (LoadBalancerListResult nat) emptyPage id countedPage
    (fun _ => countedPage emptyPage)
    cloudWithoutBackoff) eq_refl) as H.
  split.
  - exact (proj1 (proj2 (proj2 (proj2 (proj2 (proj2 (proj2 (proj2 (proj2
             (proj2 (proj2 (proj2 H))))))))))) "lb" 0%nat).
  - exact (proj1 (proj2 H) "vm-0" 5%nat).
Defined.

(** C5, counterexample.  With the backoff disabled and [Steps] equal to
    1, [CreateOrUpdateSGWithRetry] given a security group without a name
    makes no call of its client: it panics in the world it was called
    in, which a call would have moved on by one. *)
Lemma requestBackoff_nil_name_counterexample :
  CloudProviderBackoff cloudWithoutBackoff = false
  /\ Steps (requestBackoff cloudWithoutBackoff) = 1
  /\ CreateOrUpdateSGWithRetry (fun resourceGroup name sg => countedCall)
       cloudWithoutBackoff {| sg_Name := None |} 0%nat
     = (Panics, 0%nat)
  /\ (countedCall 0%nat).2 = 1%nat
  /\ (CreateOrUpdateSGWithRetry (fun resourceGroup name sg => countedCall)
        cloudWithoutBackoff {| sg_Name := None |} 0%nat).2
     <> (countedCall 0%nat).2.
Proof. repeat split; try reflexivity. vm_compute. discriminate. Qed.

End AzureBackoffOnce.
